(** * submit_nuke_deadline: the Nuke-to-Deadline submission plugin

    A shallow embedding of
    [client/ayon_deadline/plugins/publish/nuke/submit_nuke_deadline.py]
    (class [NukeSubmitDeadline]) and the properties of its payload
    assembly: dependency linking, output directory creation, environment
    collection, expected files and limit groups.

    Conventions of the embedding:
    - Python [str] is [string]; [int] is [Z]; a [dict] is an association
      list in insertion order with unique keys (module [PyDict]);
    - a call that can raise returns a [result];
    - [os.path] is [posixpath];
    - what the module reads from its host (the process environment, the
      Nuke scene graph, the file system, the helpers of [ayon_deadline.lib]
      and the methods the plugin inherits) is a field of [World] or of
      [Plugin];
    - the file uses names that it does not bind ([json], [getpass],
      [datetime], [node], [context], [families]) and calls methods that
      the class does not define ([get_limit_groups], [preview_fname],
      [get_generic_job_info], [process_submission], ...): they are taken
      as supplied by the host too, logging and debug dumps as doing
      nothing, [node] as the write node of the instance, [context] as the
      context of the instance, [families] as the families of the
      instance. *)

From Stdlib Require Import Bool Ascii String List ZArith Lia.
From Stdlib Require Import Decimal DecimalString DecimalNat.
Import ListNotations.

Local Open Scope string_scope.
Local Open Scope list_scope.

(* ================================================================== *)
(** ** Exceptions and results *)

(** The exception classes that the modelled fragment can meet.
    [NotModelled] stands for a library behaviour outside the fragment
    (a [%] conversion other than [%d], [%i] and [%%]). *)
Inductive exn : Type :=
  | FileExistsError
  | PermissionError
  | FileNotFoundError
  | NotADirectoryError
  | OSError
  | KeyError
  | TypeError
  | ValueError
  | AttributeError
  | AssertionError
  | IndexError
  | NotModelled.

(** [isinstance(e, OSError)]. *)
Definition isinstance_OSError (e : exn) : bool :=
  match e with
  | FileExistsError | PermissionError | FileNotFoundError
  | NotADirectoryError | OSError => true
  | KeyError | TypeError | ValueError | AttributeError | AssertionError
  | IndexError | NotModelled => false
  end.

Inductive result (A : Type) : Type :=
  | Ok (a : A)
  | Raise (e : exn).
Arguments Ok {A} a.
Arguments Raise {A} e.

Definition bind {A B : Type} (r : result A) (k : A -> result B) : result B :=
  match r with
  | Ok a => k a
  | Raise e => Raise e
  end.

Notation "x <- r ;; k" := (bind r (fun x => k))
  (at level 61, r at next level, right associativity).

(* ================================================================== *)
(** ** Python strings *)

Module PyStr.

Local Open Scope string_scope.

(** [a in b] on strings: [a] occurs in [b] as a contiguous substring. *)
Fixpoint contains (a b : string) : bool :=
  prefix a b ||
  match b with
  | EmptyString => false
  | String _ b' => contains a b'
  end.

(** [c in s] for a one-character string [c]. *)
Fixpoint has_char (c : ascii) (s : string) : bool :=
  match s with
  | EmptyString => false
  | String x s' => Ascii.eqb x c || has_char c s'
  end.

(** [s.replace(old, new)] for a non-empty [old]: scan from the left,
    [skip] counts the characters of a match still to be dropped. *)
Fixpoint replace_go (old new : string) (skip : nat) (s : string) : string :=
  match s with
  | EmptyString => EmptyString
  | String c s' =>
      match skip with
      | S k => replace_go old new k s'
      | O =>
          if prefix old s
          then new ++ replace_go old new (String.length old - 1) s'
          else String c (replace_go old new 0 s')
      end
  end.

(** [s.replace(old, new)] for the empty [old]: [new] before every
    character and at the end. *)
Fixpoint replace_empty (new s : string) : string :=
  match s with
  | EmptyString => new
  | String c s' => new ++ String c (replace_empty new s')
  end.

Definition replace (old new s : string) : string :=
  match old with
  | EmptyString => replace_empty new s
  | _ => replace_go old new 0 s
  end.

(** [s.split(sep)] for a one-character separator. *)
Fixpoint split (sep : ascii) (s : string) : list string :=
  match s with
  | EmptyString => [EmptyString]
  | String c s' =>
      if Ascii.eqb c sep then EmptyString :: split sep s'
      else match split sep s' with
           | [] => [String c EmptyString]
           | p :: ps => String c p :: ps
           end
  end.

(** [sep.join(l)]. *)
Fixpoint join (sep : string) (l : list string) : string :=
  match l with
  | [] => EmptyString
  | [x] => x
  | x :: rest => x ++ sep ++ join sep rest
  end.

Fixpoint repeat_char (c : ascii) (n : nat) : string :=
  match n with
  | O => EmptyString
  | S k => String c (repeat_char c k)
  end.

(** [str(n)] for a natural number and for an integer. *)
Definition of_nat (n : nat) : string :=
  NilZero.string_of_uint (Nat.to_uint n).

Definition of_Z (z : Z) : string :=
  if (z <? 0)%Z then String "-" (of_nat (Z.abs_nat z))
  else of_nat (Z.abs_nat z).

(** *** The [%] operator with one integer argument *)

(** [%d] with the [0] flag and a minimum width: the sign counts in the
    width and zeros go between the sign and the digits; without the flag
    the padding is blanks on the left. *)
Definition format_int (zero : bool) (width : nat) (z : Z) : string :=
  let sign := if (z <? 0)%Z then "-" else EmptyString in
  let digits := of_nat (Z.abs_nat z) in
  let pad := width - (String.length sign + String.length digits) in
  if zero then sign ++ repeat_char "0" pad ++ digits
  else repeat_char " " pad ++ sign ++ digits.

Definition digit_of_char (c : ascii) : option (uint -> uint) :=
  match c with
  | "0" => Some D0 | "1" => Some D1 | "2" => Some D2 | "3" => Some D3
  | "4" => Some D4 | "5" => Some D5 | "6" => Some D6 | "7" => Some D7
  | "8" => Some D8 | "9" => Some D9
  | _ => None
  end%char.

(** The longest prefix of decimal digits, and what follows it. *)
Fixpoint read_uint (s : string) : uint * string :=
  match s with
  | EmptyString => (Nil, EmptyString)
  | String c s' =>
      match digit_of_char c with
      | Some d => let (u, rest) := read_uint s' in (d u, rest)
      | None => (Nil, s)
      end
  end.

Definition leading_zero (u : uint) : bool :=
  match u with
  | D0 _ => true
  | _ => false
  end.

(** The text after a [%]: [%%], or an optional [0] flag, an optional
    width and the conversion [d] or [i].  Returns the formatted piece,
    whether it used the argument, and how many characters of [s] the
    conversion took. *)
Definition conversion (z : Z) (s : string) : result (string * bool * nat) :=
  match s with
  | EmptyString => Raise ValueError
  | String "%"%char _ => Ok ("%", false, 1)
  | _ =>
      let (u, rest) := read_uint s in
      match rest with
      | EmptyString => Raise ValueError
      | String c _ =>
          if Ascii.eqb c "d" || Ascii.eqb c "i"
          then Ok (format_int (leading_zero u) (Nat.of_uint u) z, true,
                   S (String.length s - String.length rest))
          else Raise NotModelled
      end
  end.

(** [fmt % z], left to right.  [used] records that the one argument has
    been consumed: a second conversion, or none at all, is a [TypeError]. *)
Fixpoint percent_go (z : Z) (used : bool) (skip : nat) (s : string)
  : result string :=
  match s with
  | EmptyString => if used then Ok EmptyString else Raise TypeError
  | String c s' =>
      match skip with
      | S k => percent_go z used k s'
      | O =>
          if Ascii.eqb c "%" then
            r <- conversion z s' ;;
            let '(piece, uses, n) := r in
            if uses && used then Raise TypeError
            else
              tail <- percent_go z (uses || used) n s' ;;
              Ok (piece ++ tail)
          else
            tail <- percent_go z used 0 s' ;;
            Ok (String c tail)
      end
  end.

Definition percent (fmt : string) (z : Z) : result string :=
  percent_go z false 0 fmt.

End PyStr.

(* ================================================================== *)
(** ** [os.path] (posixpath) *)

Module PosixPath.

Local Open Scope string_scope.

(** [p[:i]] and [p[i:]] for [i = p.rfind("/") + 1]. *)
Fixpoint split_last (p : string) : string * string :=
  match p with
  | EmptyString => (EmptyString, EmptyString)
  | String c p' =>
      let (head, tail) := split_last p' in
      if Ascii.eqb c "/" then (String c head, tail)
      else match head with
           | EmptyString => (EmptyString, String c tail)
           | _ => (String c head, tail)
           end
  end.

(** [s.rstrip("/")]. *)
Fixpoint rstrip_sep (s : string) : string :=
  match s with
  | EmptyString => EmptyString
  | String c s' =>
      match rstrip_sep s' with
      | EmptyString => if Ascii.eqb c "/" then EmptyString
                       else String c EmptyString
      | r => String c r
      end
  end.

Definition basename (p : string) : string := snd (split_last p).

(** The head keeps its slashes when it is made of slashes only. *)
Definition dirname (p : string) : string :=
  let head := fst (split_last p) in
  match rstrip_sep head with
  | EmptyString => head
  | r => r
  end.

(** [os.path.join(a, b)]. *)
Definition join (a b : string) : string :=
  if prefix "/" b then b
  else match a with
       | EmptyString => b
       | _ => if Ascii.eqb (List.last (list_ascii_of_string a) "/"%char) "/"
              then a ++ b else a ++ "/" ++ b
       end.

Definition norm_step (initial_slashes : nat)
  (new_comps : list string) (comp : string) : list string :=
  if String.eqb comp EmptyString || String.eqb comp "." then new_comps
  else if negb (String.eqb comp "..")
          || (Nat.eqb initial_slashes 0
              && match new_comps with [] => true | _ => false end)
          || match new_comps with
             | [] => false
             | _ => String.eqb (List.last new_comps EmptyString) ".."
             end
       then (new_comps ++ [comp])%list
       else List.removelast new_comps.

Definition normpath (path : string) : string :=
  match path with
  | EmptyString => "."
  | _ =>
      let initial_slashes :=
        if prefix "/" path
        then if prefix "//" path && negb (prefix "///" path) then 2 else 1
        else 0 in
      let comps :=
        fold_left (norm_step initial_slashes) (PyStr.split "/" path) [] in
      let p := PyStr.repeat_char "/" initial_slashes
               ++ PyStr.join "/" comps in
      match p with
      | EmptyString => "."
      | _ => p
      end
  end.

End PosixPath.

(* ================================================================== *)
(** ** Python dictionaries with string keys, in insertion order *)

Module PyDict.

Section Dict.
Context {V : Type}.

Definition t : Type := list (string * V).

(** [d.get(k)]. *)
Fixpoint get (k : string) (d : list (string * V)) : option V :=
  match d with
  | [] => None
  | (k', v) :: d' => if String.eqb k k' then Some v else get k d'
  end.

(** [k in d]. *)
Definition mem (k : string) (d : list (string * V)) : bool :=
  match get k d with
  | Some _ => true
  | None => false
  end.

(** [d[k] = v]: an existing key keeps its place, a new one goes last. *)
Fixpoint set (k : string) (v : V) (d : list (string * V))
  : list (string * V) :=
  match d with
  | [] => [(k, v)]
  | (k', v') :: d' =>
      if String.eqb k k' then (k', v) :: d' else (k', v') :: set k v d'
  end.

(** [d.update(other)]. *)
Definition update (d other : list (string * V)) : list (string * V) :=
  fold_left (fun acc kv => set (fst kv) (snd kv) acc) other d.

Definition keys (d : list (string * V)) : list string := map fst d.

End Dict.

End PyDict.

(* ================================================================== *)
(** ** Values of instance data, settings and JSON bodies *)

#[warnings="-register-all"]
Inductive value : Type :=
  | VNone
  | VBool (b : bool)
  | VInt (z : Z)
  | VStr (s : string)
  | VList (l : list value)
  | VDict (d : list (string * value)).

(** Python truthiness. *)
Definition truthy (v : value) : bool :=
  match v with
  | VNone => false
  | VBool b => b
  | VInt z => negb (Z.eqb z 0)
  | VStr s => negb (String.eqb s EmptyString)
  | VList l => match l with [] => false | _ => true end
  | VDict d => match d with [] => false | _ => true end
  end.

(** [d.get(k)] on a dictionary: [None] when the key is absent. *)
Definition dict_get (k : string) (d : list (string * value)) : value :=
  match PyDict.get k d with
  | Some v => v
  | None => VNone
  end.

(** [d.get(k, default)]. *)
Definition dict_get_default (k : string) (default : value)
  (d : list (string * value)) : value :=
  match PyDict.get k d with
  | Some v => v
  | None => default
  end.

(** [v[k]]: a [KeyError] on a dictionary without the key, a [TypeError]
    on a value that a string cannot index. *)
Definition subscript (v : value) (k : string) : result value :=
  match v with
  | VDict d =>
      match PyDict.get k d with
      | Some x => Ok x
      | None => Raise KeyError
      end
  | _ => Raise TypeError
  end.

(** [v.get(k)]: only a dictionary has the method. *)
Definition method_get (v : value) (k : string) : result value :=
  match v with
  | VDict d => Ok (dict_get k d)
  | _ => Raise AttributeError
  end.

(* ================================================================== *)
(** ** Data model *)

(** The one-character string of a backslash. *)
Definition backslash : string := String (ascii_of_nat 92) EmptyString.

(** A node of the scene graph: [node.Class()] and the truth value of
    [node["disable"].value()]. *)
Record Node : Type := {
  node_Class : string;
  node_disable : bool
}.

(** An entry of the [node_class_limit_groups] setting. *)
Record LimitGroup : Type := {
  lg_name : string;
  lg_value : list string
}.

(** An entry of the [env_search_replace_values] setting. *)
Record SearchReplace : Type := {
  sr_name : string;
  sr_value : string
}.

(** [repre["files"]] is a list of names, or one name for a single file. *)
Inductive repre_files : Type :=
  | FilesList (l : list string)
  | FilesStr (s : string).

Record Repre : Type := {
  repre_tags : list string;
  repre_file_names : repre_files
}.

Record BakingScript : Type := {
  bakeRenderPath : string;
  bakeScriptPath : value;
  bakeWriteNodeName : string
}.

(** The fields of the job-info object that the plugin touches. *)
Record DeadlineJobInfo : Type := {
  ji_Plugin : string;
  ji_Frames : string;
  ji_LimitGroups : list string;
  ji_Name : string;
  ji_BatchName : value;
  ji_JobType : string;
  ji_JobDependencies : list value;
  ji_ChunkSize : value;
  ji_use_published : value
}.

Record NukePluginInfo : Type := {
  pi_SceneFile : value;
  pi_Version : string;
  pi_OutputFilePath : string;
  pi_ProjectPath : value;
  pi_UseGpu : value;
  pi_WriteNode : string
}.

(** What the plugin only reads of an instance and of its context. *)
Record InstanceInputs : Type := {
  currentFile : string;
  farm : bool;
  path : string;
  frameStartHandle : Z;
  frameEndHandle : Z;
  render_target : string;
  slate : bool;
  representations : list Repre;
  attributeValues : list (string * value);
  primaryPool : value;
  secondaryPool : value;
  write_node_name : string;
  stagingDir_is_custom : value;
  plugin_info_data : value;
  deadline_url : string;
  bakingNukeScripts : list BakingScript
}.

(** An instance: the inputs and the entries of [instance.data] that the
    plugin writes.  [expectedFiles] is the list the key holds, empty when
    the key is absent. *)
Record Instance : Type := {
  inputs : InstanceInputs;
  expectedFiles : list string;
  deadlineSubmissionJob : option value;
  bakingSubmissionJobs : list value;
  outputDir : option string;
  publishJobState : option string;
  productType : string;
  family : string;
  families : list string
}.

Definition set_expectedFiles (l : list string) (i : Instance) : Instance :=
  {| inputs := inputs i; expectedFiles := l;
     deadlineSubmissionJob := deadlineSubmissionJob i;
     bakingSubmissionJobs := bakingSubmissionJobs i;
     outputDir := outputDir i; publishJobState := publishJobState i;
     productType := productType i; family := family i;
     families := families i |}.

Definition set_deadlineSubmissionJob (v : value) (i : Instance) : Instance :=
  {| inputs := inputs i; expectedFiles := expectedFiles i;
     deadlineSubmissionJob := Some v;
     bakingSubmissionJobs := bakingSubmissionJobs i;
     outputDir := outputDir i; publishJobState := publishJobState i;
     productType := productType i; family := family i;
     families := families i |}.

Definition set_bakingSubmissionJobs (l : list value) (i : Instance)
  : Instance :=
  {| inputs := inputs i; expectedFiles := expectedFiles i;
     deadlineSubmissionJob := deadlineSubmissionJob i;
     bakingSubmissionJobs := l;
     outputDir := outputDir i; publishJobState := publishJobState i;
     productType := productType i; family := family i;
     families := families i |}.

Definition set_outputDir (s : string) (i : Instance) : Instance :=
  {| inputs := inputs i; expectedFiles := expectedFiles i;
     deadlineSubmissionJob := deadlineSubmissionJob i;
     bakingSubmissionJobs := bakingSubmissionJobs i;
     outputDir := Some s; publishJobState := publishJobState i;
     productType := productType i; family := family i;
     families := families i |}.

Definition set_publishJobState (s : string) (i : Instance) : Instance :=
  {| inputs := inputs i; expectedFiles := expectedFiles i;
     deadlineSubmissionJob := deadlineSubmissionJob i;
     bakingSubmissionJobs := bakingSubmissionJobs i;
     outputDir := outputDir i; publishJobState := Some s;
     productType := productType i; family := family i;
     families := families i |}.

Definition set_families (pt fam : string) (fs : list string) (i : Instance)
  : Instance :=
  {| inputs := inputs i; expectedFiles := expectedFiles i;
     deadlineSubmissionJob := deadlineSubmissionJob i;
     bakingSubmissionJobs := bakingSubmissionJobs i;
     outputDir := outputDir i; publishJobState := publishJobState i;
     productType := pt; family := fam; families := fs |}.

(** The two-part body of a submission. *)
Record Payload : Type := {
  JobInfo : list (string * value);
  PluginInfo : list (string * value);
  AuxFiles : list value
}.

(** The plugin object: its settings, what [process] stores on it before
    the first submission, and the methods it inherits. *)
Record Plugin : Type := {
  priority : value;
  chunk_size : value;
  concurrent_tasks : value;
  department : value;
  group : value;
  use_gpu : value;
  workfile_dependency : value;
  use_published_workfile : value;
  env_allowed_keys : list string;
  env_search_replace_values : list SearchReplace;
  node_class_limit_groups : list LimitGroup;
  _deadline_user : value;
  _comment : value;
  _ver : string;
  preview_fname : string -> string;
  get_limit_groups : list string;
  get_generic_job_info : Instance -> DeadlineJobInfo;
  _set_scene_path : string -> value -> value -> value;
  _append_job_output_paths : Instance -> DeadlineJobInfo -> DeadlineJobInfo;
  apply_additional_plugin_info : value -> NukePluginInfo -> NukePluginInfo;
  get_attr_values_from_data : Instance -> list (string * value);
  process_submission : DeadlineJobInfo -> NukePluginInfo -> value
}.

(** What the module reads from outside the plugin object. *)
Record World : Type := {
  os_environ : list (string * string);
  is_in_tests : bool;
  now_stamp : string;
  makedirs : string -> option exn;
  allNodes : list Node;
  get_instance_job_envs : Instance -> list (string * string);
  get_ayon_render_job_envs : list (string * string);
  plugin_name_setting : option value
}.

(* ================================================================== *)
(** ** [_get_limit_groups] *)

(** The body of the innermost loop: one node against one class entry of
    the group named [name]. *)
Definition capture_group (name node_class : string)
  (captured_groups : list string) (node : Node) : list string :=
  if negb (PyStr.contains (node_Class node) node_class)
  then captured_groups
  else if node_disable node then captured_groups
  else if existsb (String.eqb name) captured_groups then captured_groups
  else captured_groups ++ [name].

Definition _get_limit_groups (w : World) (limit_groups : list LimitGroup)
  : list string :=
  fold_left
    (fun captured_groups limit_group =>
       fold_left
         (fun captured_groups node_class =>
            fold_left (capture_group (lg_name limit_group) node_class)
                      (allNodes w) captured_groups)
         (lg_value limit_group) captured_groups)
    limit_groups [].

(* ================================================================== *)
(** ** [_expected_files] *)

(** [file in repre.get("files", [])]: membership in a list of names,
    substring of a single name. *)
Definition in_files (file : string) (fs : repre_files) : bool :=
  match fs with
  | FilesList l => existsb (String.eqb file) l
  | FilesStr s => PyStr.contains file s
  end.

(** The loop over the representations returns early when one tagged
    [publish_on_farm] already holds the file. *)
Definition published_on_farm (file : string) (repres : list Repre) : bool :=
  existsb
    (fun repre =>
       existsb (String.eqb "publish_on_farm") (repre_tags repre)
       && in_files file (repre_file_names repre))
    repres.

(** The hashed sequence expression: [file.split("#")], the padding built
    from the number of parts, and the first and last parts around it. *)
Definition hash_padding (file : string) : string :=
  if PyStr.contains "#" file then
    let pparts := PyStr.split "#" file in
    let padding :=
      ("%0" ++ PyStr.of_nat (List.length pparts - 1) ++ "d")%string in
    (List.hd EmptyString pparts ++ padding
     ++ List.last pparts EmptyString)%string
  else file.

(** [range(a, b)]. *)
Definition range (a b : Z) : list Z :=
  map (fun k => (a + Z.of_nat k)%Z) (seq 0 (Z.to_nat (b - a))).

(** The loop that appends one path per frame. *)
Fixpoint append_sequence (dirname file : string) (frames : list Z)
  (expected : list string) : result (list string) :=
  match frames with
  | [] => Ok expected
  | i :: rest =>
      name <- PyStr.percent file i ;;
      append_sequence dirname file rest
        (expected
         ++ [PyStr.replace backslash "/" (PosixPath.join dirname name)])
  end.

Definition _expected_files (instance : Instance) (filepath : string)
  (start_frame end_frame : Z) : result Instance :=
  if String.eqb (render_target (inputs instance)) "frames_farm"
  then Ok instance
  else
    let dirname := PosixPath.dirname filepath in
    let file := PosixPath.basename filepath in
    if published_on_farm file (representations (inputs instance))
    then Ok instance
    else
      let file := hash_padding file in
      if negb (PyStr.contains "%" file)
      then Ok (set_expectedFiles (expectedFiles instance ++ [filepath])
                                 instance)
      else
        let start_frame :=
          if slate (inputs instance) then (start_frame - 1)%Z
          else start_frame in
        files <- append_sequence dirname file
                   (range start_frame (end_frame + 1))
                   (expectedFiles instance) ;;
        Ok (set_expectedFiles files instance).

(* ================================================================== *)
(** ** The job environment *)

(** The keys that [payload_submit] always asks the process for. *)
Definition critical_keys : list string :=
  ["NUKE_PATH"; "FOUNDRY_LICENSE"; "PHAROS_LOCATION"; "PHAROS_NUKELIB";
   "CCCID"; "NUKE_FONT_PATH"; "OCIO"; "PROJECT_LUT"; "SHOT_LUT"]%string.

(** [keys], with the allowed keys of the preset if any. *)
Definition env_keys (self : Plugin) : list string :=
  match env_allowed_keys self with
  | [] => critical_keys
  | allowed => critical_keys ++ allowed
  end.

(** [{key: os.environ[key] for key in keys if key in os.environ}]. *)
Definition nuke_specific_env (w : World) (self : Plugin)
  : list (string * string) :=
  fold_left
    (fun d key =>
       match PyDict.get key (os_environ w) with
       | Some v => PyDict.set key v d
       | None => d
       end)
    (env_keys self) [].

(** The three overlays, in the order of the source. *)
Definition job_environment (w : World) (self : Plugin) (instance : Instance)
  : list (string * string) :=
  let environment := get_instance_job_envs w instance in
  let environment :=
    PyDict.update environment (get_ayon_render_job_envs w) in
  PyDict.update environment (nuke_specific_env w self).

(** The search and replace loop: for every item of the dictionary and
    every rule, the key is assigned the item's value with that rule
    applied. *)
Definition search_replace (rules : list SearchReplace)
  (environment : list (string * string)) : list (string * string) :=
  match rules with
  | [] => environment
  | _ =>
      fold_left
        (fun env kv =>
           fold_left
             (fun env item =>
                PyDict.set (fst kv)
                  (PyStr.replace (sr_name item) (sr_value item) (snd kv))
                  env)
             rules env)
        environment environment
  end.

(** [{"EnvironmentKeyValue%d" % index: "{key}={value}"...}] over
    [enumerate(environment)]. *)
Definition environment_key_values (environment : list (string * string))
  : list (string * value) :=
  map
    (fun ik =>
       (("EnvironmentKeyValue" ++ PyStr.of_nat (fst ik))%string,
        VStr (snd ik ++ "="
              ++ match PyDict.get (snd ik) environment with
                 | Some v => v
                 | None => EmptyString
                 end)%string))
    (combine (seq 0 (List.length environment)) (PyDict.keys environment)).

(* ================================================================== *)
(** ** [get_job_info] and [get_plugin_info] *)

(** ["{start}-{end}".format(start=..., end=...)]. *)
Definition frames_string (start_frame end_frame : Z) : string :=
  (PyStr.of_Z start_frame ++ "-" ++ PyStr.of_Z end_frame)%string.

Definition get_job_info (w : World) (self : Plugin) (instance : Instance)
  (job_info : DeadlineJobInfo) : DeadlineJobInfo :=
  let start_frame := frameStartHandle (inputs instance) in
  let end_frame := frameEndHandle (inputs instance) in
  {| ji_Plugin := "Nuke";
     ji_Frames :=
       if String.eqb (ji_Frames job_info) EmptyString
       then frames_string start_frame end_frame
       else ji_Frames job_info;
     ji_LimitGroups :=
       ji_LimitGroups job_info
       ++ _get_limit_groups w (node_class_limit_groups self);
     ji_Name := PosixPath.basename (path (inputs instance));
     ji_BatchName := ji_BatchName job_info;
     ji_JobType := ji_JobType job_info;
     ji_JobDependencies := ji_JobDependencies job_info;
     ji_ChunkSize := ji_ChunkSize job_info;
     ji_use_published := ji_use_published job_info |}.

Definition get_plugin_info (self : Plugin) (instance : Instance)
  (scene_path : value) (render_path write_node_name : string)
  : result NukePluginInfo :=
  let attribute_values := get_attr_values_from_data self instance in
  let render_dir := PosixPath.dirname render_path in
  gpu <- subscript (VDict attribute_values) "use_gpu" ;;
  Ok {| pi_SceneFile := scene_path;
        pi_Version := _ver self;
        pi_OutputFilePath := PyStr.replace backslash "/" render_dir;
        pi_ProjectPath := scene_path;
        pi_UseGpu := gpu;
        pi_WriteNode := write_node_name |}.

(* ================================================================== *)
(** ** [payload_submit] *)

(** [try: os.makedirs(render_dir) except OSError: pass]. *)
Definition ensure_render_folder (w : World) (render_dir : string)
  : result unit :=
  match makedirs w render_dir with
  | None => Ok tt
  | Some e => if isinstance_OSError e then Ok tt else Raise e
  end.

(** The payload as the dictionary literal builds it. *)
Definition initial_payload (w : World) (self : Plugin) (instance : Instance)
  (script_path : value) (render_path exe_node_name : string)
  (start_frame end_frame : Z) : Payload :=
  let render_dir :=
    PosixPath.normpath (PosixPath.dirname render_path) in
  let src_filepath := currentFile (inputs instance) in
  let batch_name := PosixPath.basename src_filepath in
  let job_name := PosixPath.basename render_path in
  let batch_name :=
    if is_in_tests w then (batch_name ++ now_stamp w)%string
    else batch_name in
  let output_filename_0 := preview_fname self render_path in
  let attrs := attributeValues (inputs instance) in
  {| JobInfo :=
       [("BatchName", VStr batch_name);
        ("Name", VStr job_name);
        ("UserName", _deadline_user self);
        ("Priority", dict_get_default "priority" (priority self) attrs);
        ("ChunkSize", dict_get_default "chunk" (chunk_size self) attrs);
        ("ConcurrentTasks",
         dict_get_default "concurrency" (concurrent_tasks self) attrs);
        ("Department", department self);
        ("Pool", primaryPool (inputs instance));
        ("SecondaryPool", secondaryPool (inputs instance));
        ("Group", group self);
        ("Plugin",
         match plugin_name_setting w with
         | Some v => v
         | None => VStr "Nuke"
         end);
        ("Frames", VStr (frames_string start_frame end_frame));
        ("Comment", _comment self);
        ("OutputFilename0",
         VStr (PyStr.replace backslash "/" output_filename_0));
        ("LimitGroups", VStr (PyStr.join "," (get_limit_groups self)))];
     PluginInfo :=
       [("SceneFile", script_path);
        ("OutputFilePath", VStr (PyStr.replace backslash "/" render_dir));
        ("Version", VStr (_ver self));
        ("ProjectPath", script_path);
        ("AWSAssetFile0", VStr render_path);
        ("UseGpu", dict_get_default "use_gpu" (use_gpu self) attrs);
        ("WriteNode", VStr exe_node_name)];
     AuxFiles := [] |}.

(** [payload["JobInfo"].update(other)]. *)
Definition update_JobInfo (other : list (string * value)) (p : Payload)
  : Payload :=
  {| JobInfo := PyDict.update (JobInfo p) other;
     PluginInfo := PluginInfo p;
     AuxFiles := AuxFiles p |}.

(** [if not response_data: response_data = {}]. *)
Definition normal_response (response_data : value) : value :=
  if truthy response_data then response_data else VDict [].

(** The payload that one call of [payload_submit] assembles: the literal,
    the workfile dependency, the baking overrides, the link to the prior
    job and the environment. *)
Definition build_payload (w : World) (self : Plugin) (instance : Instance)
  (script_path : value) (render_path exe_node_name : string)
  (start_frame end_frame : Z) (response_data : value)
  (baking_submission : bool) : result Payload :=
  let response_data := normal_response response_data in
  let payload :=
    initial_payload w self instance script_path render_path exe_node_name
                    start_frame end_frame in
  let workfile_dep :=
    dict_get_default "workfile_dependency" (workfile_dependency self)
                     (attributeValues (inputs instance)) in
  let payload :=
    if truthy workfile_dep
    then update_JobInfo [("AssetDependency0", script_path)] payload
    else payload in
  let payload :=
    if baking_submission
    then update_JobInfo [("JobType", VStr "Normal");
                         ("ChunkSize", VInt 99999999)] payload
    else payload in
  job_id <- method_get response_data "_id" ;;
  payload <-
    (if truthy job_id then
       props <- subscript response_data "Props" ;;
       batch <- subscript props "Batch" ;;
       id <- subscript response_data "_id" ;;
       Ok (update_JobInfo [("BatchName", batch); ("JobDependency0", id)]
                          payload)
     else Ok payload) ;;
  let environment := job_environment w self instance in
  let environment :=
    search_replace (env_search_replace_values self) environment in
  Ok (update_JobInfo (environment_key_values environment) payload).

(** What one call leaves behind: the payload it assembled, the instance,
    the job-info object on the plugin and the submissions it made through
    [process_submission], oldest first. *)
Record Submitted : Type := {
  ps_payload : Payload;
  ps_instance : Instance;
  ps_job_info : DeadlineJobInfo;
  ps_submissions : list (DeadlineJobInfo * NukePluginInfo)
}.

(** One turn of the loop over the baking scripts inside
    [payload_submit]. *)
Definition bake_step (self : Plugin) (start_frame end_frame : Z)
  (st : DeadlineJobInfo * Instance
        * list (DeadlineJobInfo * NukePluginInfo))
  (baking_script : BakingScript)
  : result (DeadlineJobInfo * Instance
            * list (DeadlineJobInfo * NukePluginInfo)) :=
  let '(job_info, instance, submissions) := st in
  let response_data :=
    match deadlineSubmissionJob instance with
    | Some v => v
    | None => VDict []
    end in
  job_id <- method_get response_data "_id" ;;
  linked <-
    (if truthy job_id then
       props <- subscript response_data "Props" ;;
       batch <- subscript props "Batch" ;;
       id <- subscript response_data "_id" ;;
       Ok (batch, ji_JobDependencies job_info ++ [id])
     else Ok (ji_BatchName job_info, ji_JobDependencies job_info)) ;;
  let render_path := bakeRenderPath baking_script in
  let job_info :=
    {| ji_Plugin := ji_Plugin job_info;
       ji_Frames := frames_string start_frame end_frame;
       ji_LimitGroups := ji_LimitGroups job_info;
       ji_Name := PosixPath.basename render_path;
       ji_BatchName := fst linked;
       ji_JobType := "Normal";
       ji_JobDependencies := snd linked;
       ji_ChunkSize := VInt 999999;
       ji_use_published := ji_use_published job_info |} in
  plugin_info <- get_plugin_info self instance
                   (bakeScriptPath baking_script) render_path
                   (bakeWriteNodeName baking_script) ;;
  let job_id := process_submission self job_info plugin_info in
  Ok (job_info,
      set_bakingSubmissionJobs (bakingSubmissionJobs instance ++ [job_id])
                               instance,
      submissions ++ [(job_info, plugin_info)]).

Fixpoint bake_loop (self : Plugin) (start_frame end_frame : Z)
  (st : DeadlineJobInfo * Instance
        * list (DeadlineJobInfo * NukePluginInfo))
  (scripts : list BakingScript)
  : result (DeadlineJobInfo * Instance
            * list (DeadlineJobInfo * NukePluginInfo)) :=
  match scripts with
  | [] => Ok st
  | b :: rest =>
      st' <- bake_step self start_frame end_frame st b ;;
      bake_loop self start_frame end_frame st' rest
  end.

Definition payload_submit (w : World) (self : Plugin) (instance : Instance)
  (script_path : value) (render_path exe_node_name : string)
  (start_frame end_frame : Z) (response_data : value)
  (baking_submission : bool) : result Submitted :=
  let render_dir :=
    PosixPath.normpath (PosixPath.dirname render_path) in
  _ <- ensure_render_folder w render_dir ;;
  payload <- build_payload w self instance script_path render_path
               exe_node_name start_frame end_frame response_data
               baking_submission ;;
  (* adding expected files to instance.data *)
  let render_path := path (inputs instance) in
  let start_frame := frameStartHandle (inputs instance) in
  let end_frame := frameEndHandle (inputs instance) in
  instance <- _expected_files instance render_path start_frame end_frame ;;
  let job_info := get_generic_job_info self instance in
  let job_info := get_job_info w self instance job_info in
  let scene_path :=
    _set_scene_path self (currentFile (inputs instance))
                    (ji_use_published job_info)
                    (stagingDir_is_custom (inputs instance)) in
  let job_info := _append_job_output_paths self instance job_info in
  plugin_info <- get_plugin_info self instance scene_path render_path
                   (write_node_name (inputs instance)) ;;
  let plugin_info :=
    if truthy (plugin_info_data (inputs instance))
    then apply_additional_plugin_info self
           (plugin_info_data (inputs instance)) plugin_info
    else plugin_info in
  let main :=
    if negb (String.eqb (render_target (inputs instance)) "frames_farm")
    then (set_outputDir
            (PyStr.replace backslash "/" (PosixPath.dirname render_path))
            instance,
          [(job_info, plugin_info)])
    else (instance, []) in
  st <- bake_loop self start_frame end_frame
          (job_info, fst main, snd main)
          (bakingNukeScripts (inputs instance)) ;;
  let '(job_info, instance, submissions) := st in
  Ok {| ps_payload := payload;
        ps_instance := instance;
        ps_job_info := job_info;
        ps_submissions := submissions |}.

(* ================================================================== *)
(** ** [_get_published_workfile_path] *)

Module PublishedWorkfile.

Local Open Scope string_scope.

(** The text before and after the last dot of a name, if it has one. *)
Fixpoint split_last_dot (s : string) : option (string * string) :=
  match s with
  | EmptyString => None
  | String x s' =>
      match split_last_dot s' with
      | Some (stem, e) => Some (String x stem, e)
      | None => if Ascii.eqb x "." then Some (EmptyString, s') else None
      end
  end.

Fixpoint all_dots (s : string) : bool :=
  match s with
  | EmptyString => true
  | String x s' => Ascii.eqb x "." && all_dots s'
  end.

(** [os.path.splitext(p)]: the extension starts at the last dot of the
    last component, unless only dots stand before it there. *)
Definition splitext (p : string) : string * string :=
  let (head, tail) := PosixPath.split_last p in
  match split_last_dot tail with
  | Some (stem, e) =>
      if all_dots stem then (p, EmptyString)
      else (head ++ stem, String "." e)
  | None => (p, EmptyString)
  end.

(** [s.lstrip(".")]. *)
Fixpoint lstrip_dot (s : string) : string :=
  match s with
  | String x s' => if Ascii.eqb x "." then lstrip_dot s' else s
  | EmptyString => EmptyString
  end.

(** An instance of the context, as the method reads it:
    [instance.data["productType"]], [instance.data("publish")],
    [instance.data["anatomyData"]] and
    [instance.data["representations"]]. *)
Record ContextInstance : Type := {
  ci_productType : string;
  ci_publish : value;
  ci_anatomyData : list (string * value);
  ci_representations : list (list (string * value))
}.

(** What a call ends with: the script path and the template data as the
    call left them in the instance, [None], an exception of [exn], or
    the [IndexError] of [representations[0]]. *)
Inductive outcome : Type :=
  | Found (script_path : string) (template_data : list (string * value))
  | NotFound
  | Failed (e : exn)
  | IndexError.

(** [x is False]. *)
Definition is_False (v : value) : bool :=
  match v with
  | VBool false => true
  | _ => false
  end.

(** The instances that the loop passes over. *)
Definition skipped (instance : ContextInstance) : bool :=
  negb (String.eqb (ci_productType instance) "workfile")
  || is_False (ci_publish instance).

(** The body of the loop for an instance that is not passed over.
    [format_template] is [publish_template.format], the template being
    the one that the anatomy gives for the configured name. *)
Definition fill_template
  (format_template : list (string * value) -> string)
  (instance : ContextInstance) : outcome :=
  let template_data := ci_anatomyData instance in
  match ci_representations instance with
  | [] => IndexError
  | representation :: _ =>
      match subscript (VDict representation) "files" with
      | Raise e => Failed e
      | Ok (VStr repre_file) =>
          let ext := lstrip_dot (snd (splitext repre_file)) in
          match subscript (VDict representation) "name" with
          | Raise e => Failed e
          | Ok name =>
              let template_data :=
                PyDict.set "representation" name template_data in
              let template_data :=
                PyDict.set "ext" (VStr ext) template_data in
              let template_data :=
                PyDict.set "comment" VNone template_data in
              let template_filled := format_template template_data in
              Found (PosixPath.normpath template_filled) template_data
          end
      | Ok _ => Failed TypeError
      end
  end.

Fixpoint _get_published_workfile_path
  (format_template : list (string * value) -> string)
  (context : list ContextInstance) : outcome :=
  match context with
  | [] => NotFound
  | instance :: rest =>
      if skipped instance
      then _get_published_workfile_path format_template rest
      else fill_template format_template instance
  end.

End PublishedWorkfile.

(* ================================================================== *)
(** ** [process] *)

(** [o.json()] on a value of [value]: none of them has the attribute, and
    the call raises. *)
Definition method_json (o : value) : result value :=
  match o with
  | VNone | VBool _ | VInt _ | VStr _ | VList _ | VDict _ =>
      Raise AttributeError
  end.

(** What the expression [self.payload_submit(...)] evaluates to: the body
    of the method ends without a [return] statement. *)
Definition payload_submit_value : value := VNone.

(** [self._get_published_workfile_path(context)] as [process] calls it;
    [publish_template_format] is the [format] of the publish template of
    the anatomy. *)
Definition published_script_path
  (publish_template_format : list (string * value) -> string)
  (context : list PublishedWorkfile.ContextInstance) : result value :=
  match PublishedWorkfile._get_published_workfile_path
          publish_template_format context with
  | PublishedWorkfile.Found script_path _ => Ok (VStr script_path)
  | PublishedWorkfile.NotFound => Ok VNone
  | PublishedWorkfile.Failed e => Raise e
  | PublishedWorkfile.IndexError => Raise IndexError
  end.

(** One turn of the loop of [process] over the baking scripts. *)
Definition process_bake (w : World) (self : Plugin)
  (r_job_response_json : value) (instance : Instance)
  (baking_script : BakingScript) : result Instance :=
  let submit_frame_start := frameStartHandle (inputs instance) in
  let submit_frame_end := frameEndHandle (inputs instance) in
  let render_path := bakeRenderPath baking_script in
  let script_path := bakeScriptPath baking_script in
  let exe_node_name := bakeWriteNodeName baking_script in
  out <- payload_submit w self instance script_path render_path
           exe_node_name submit_frame_start submit_frame_end
           r_job_response_json true ;;
  let b_job_response := payload_submit_value in
  b_job_response_json <- method_json b_job_response ;;
  let instance :=
    set_deadlineSubmissionJob b_job_response_json (ps_instance out) in
  let instance := set_publishJobState "Suspended" instance in
  b_job_response_json <- method_json b_job_response ;;
  id <- subscript b_job_response_json "_id" ;;
  Ok (set_bakingSubmissionJobs (bakingSubmissionJobs instance ++ [id])
                               instance).

Fixpoint process_bakes (w : World) (self : Plugin)
  (r_job_response_json : value) (instance : Instance)
  (scripts : list BakingScript) : result Instance :=
  match scripts with
  | [] => Ok instance
  | b :: rest =>
      instance <- process_bake w self r_job_response_json instance b ;;
      process_bakes w self r_job_response_json instance rest
  end.

(** The redefinition of families that closes [process]. *)
Definition redefine_families (instance : Instance) : Instance :=
  if PyStr.contains "render" (productType instance)
  then set_families "write" "write" ("render2d" :: families instance)
                    instance
  else if PyStr.contains "prerender" (productType instance)
  then set_families "write" "write" ("prerender" :: families instance)
                    instance
  else instance.

(** The script that [process] submits: the current file of the context,
    or the published workfile when the attribute of the instance (the
    setting of the plugin when the attribute is absent) asks for it.
    [context] is the list of the instances of [instance.context]. *)
Definition submitted_script_path (self : Plugin)
  (publish_template_format : list (string * value) -> string)
  (context : list PublishedWorkfile.ContextInstance)
  (instance : Instance) : result value :=
  let script_path := VStr (currentFile (inputs instance)) in
  let use_published_workfile :=
    dict_get_default "use_published_workfile"
      (use_published_workfile self)
      (attributeValues (inputs instance)) in
  if truthy use_published_workfile
  then published_script_path publish_template_format context
  else Ok script_path.

Definition process (w : World) (self : Plugin)
  (publish_template_format : list (string * value) -> string)
  (context : list PublishedWorkfile.ContextInstance)
  (instance : Instance) : result Instance :=
  if negb (farm (inputs instance)) then Ok instance
  else if String.eqb (deadline_url (inputs instance)) EmptyString
  then Raise AssertionError
  else
    let submit_frame_start := frameStartHandle (inputs instance) in
    let submit_frame_end := frameEndHandle (inputs instance) in
    let render_path := path (inputs instance) in
    script_path <- submitted_script_path self publish_template_format
                     context instance ;;
    main <-
      (if negb (String.eqb (render_target (inputs instance)) "frames_farm")
       then
         out <- payload_submit w self instance script_path render_path
                  (write_node_name (inputs instance))
                  submit_frame_start submit_frame_end VNone false ;;
         let r_job_response := payload_submit_value in
         r_job_response_json <- method_json r_job_response ;;
         Ok (r_job_response_json,
             set_publishJobState "Suspended"
               (set_outputDir
                  (PyStr.replace backslash "/"
                     (PosixPath.dirname render_path))
                  (set_deadlineSubmissionJob r_job_response_json
                     (ps_instance out))))
       else Ok (VNone, instance)) ;;
    instance <- process_bakes w self (fst main) (snd main)
                  (bakingNukeScripts (inputs instance)) ;;
    Ok (redefine_families instance).

(* ================================================================== *)
(** ** Sample data

    A publish of [/proj/sceneA.nk] that renders
    [/renders/render.####.exr] over the frames 1001 to 1005. *)

Module Sample.

Definition job_info : DeadlineJobInfo :=
  {| ji_Plugin := EmptyString; ji_Frames := EmptyString; ji_LimitGroups := [];
     ji_Name := EmptyString; ji_BatchName := VStr "sceneA.nk";
     ji_JobType := EmptyString;
     ji_JobDependencies := []; ji_ChunkSize := VInt 10;
     ji_use_published := VBool false |}.

Definition plugin (rules : list SearchReplace) : Plugin :=
  {| priority := VInt 50; chunk_size := VInt 10;
     concurrent_tasks := VInt 1; department := VStr EmptyString;
     group := VStr EmptyString; use_gpu := VBool true;
     workfile_dependency := VBool true;
     use_published_workfile := VBool false;
     env_allowed_keys := ["STUDIO_TOOLS"];
     env_search_replace_values := rules;
     node_class_limit_groups := [];
     _deadline_user := VStr "artist"; _comment := VStr EmptyString;
     _ver := "14.0";
     preview_fname := fun p => p;
     get_limit_groups := [];
     get_generic_job_info := fun _ => job_info;
     _set_scene_path := fun p _ _ => VStr p;
     _append_job_output_paths := fun _ j => j;
     apply_additional_plugin_info := fun _ p => p;
     get_attr_values_from_data := fun _ => [("use_gpu", VBool true)];
     process_submission := fun j _ => VStr (ji_Name j) |}.

(** The same plugin with the setting [use_published_workfile] on. *)
Definition publishing_plugin : Plugin :=
  {| priority := VInt 50; chunk_size := VInt 10;
     concurrent_tasks := VInt 1; department := VStr EmptyString;
     group := VStr EmptyString; use_gpu := VBool true;
     workfile_dependency := VBool true;
     use_published_workfile := VBool true;
     env_allowed_keys := ["STUDIO_TOOLS"];
     env_search_replace_values := [];
     node_class_limit_groups := [];
     _deadline_user := VStr "artist"; _comment := VStr EmptyString;
     _ver := "14.0";
     preview_fname := fun p => p;
     get_limit_groups := [];
     get_generic_job_info := fun _ => job_info;
     _set_scene_path := fun p _ _ => VStr p;
     _append_job_output_paths := fun _ j => j;
     apply_additional_plugin_info := fun _ p => p;
     get_attr_values_from_data := fun _ => [("use_gpu", VBool true)];
     process_submission := fun j _ => VStr (ji_Name j) |}.

(** A workfile instance of the context with the given representations. *)
Definition workfile (repres : list (list (string * value)))
  : PublishedWorkfile.ContextInstance :=
  {| PublishedWorkfile.ci_productType := "workfile";
     PublishedWorkfile.ci_publish := VBool true;
     PublishedWorkfile.ci_anatomyData := [("project", VStr "proj")];
     PublishedWorkfile.ci_representations := repres |}.

(** The answer of the web service: identifier [abc123], batch
    [sceneA]. *)
Definition response : value :=
  VDict [("_id", VStr "abc123");
         ("Props", VDict [("Batch", VStr "sceneA")])].

Definition world (mk : string -> option exn) (nodes : list Node) : World :=
  {| os_environ := [("OCIO", "/studio/config.ocio"); ("HOME", "/home/a")];
     is_in_tests := false;
     now_stamp := EmptyString;
     makedirs := mk;
     allNodes := nodes;
     get_instance_job_envs :=
       fun _ => [("AYON_BUNDLE_NAME", "prod"); ("OCIO", "/instance.ocio")];
     get_ayon_render_job_envs := [("AYON_RENDER_JOB", "1")];
     plugin_name_setting := None |}.

Definition bake : BakingScript :=
  {| bakeRenderPath := "/renders/bake.mov";
     bakeScriptPath := VStr "/renders/bake.nk";
     bakeWriteNodeName := "BakeWrite" |}.

Definition instance_inputs (render_path target : string) (with_slate : bool)
  (repres : list Repre) (bakes : list BakingScript) : InstanceInputs :=
  {| currentFile := "/proj/sceneA.nk"; farm := true;
     path := render_path;
     frameStartHandle := 1001; frameEndHandle := 1005;
     render_target := target; slate := with_slate;
     representations := repres; attributeValues := [];
     primaryPool := VNone; secondaryPool := VNone;
     write_node_name := "Write1";
     stagingDir_is_custom := VBool false;
     plugin_info_data := VNone;
     deadline_url := "http://deadline:8082";
     bakingNukeScripts := bakes |}.

Definition instance (render_path target : string) (with_slate : bool)
  (repres : list Repre) (bakes : list BakingScript) : Instance :=
  {| inputs := instance_inputs render_path target with_slate repres bakes;
     expectedFiles := [];
     deadlineSubmissionJob := None;
     bakingSubmissionJobs := [];
     outputDir := None; publishJobState := None;
     productType := "render"; family := "render";
     families := ["render"] |}.

End Sample.

(* ================================================================== *)
(** ** Notions of the statements *)

(** The last value that [other] gives to [k], if any. *)
Fixpoint last_binding {V : Type} (k : string) (other : list (string * V))
  : option V :=
  match other with
  | [] => None
  | (k', v) :: rest =>
      match last_binding k rest with
      | Some v' => Some v'
      | None => if String.eqb k k' then Some v else None
      end
  end.

(** The batch name a payload starts with: the base name of the current
    file, with the time stamp when running in tests. *)
Definition own_batch_name (w : World) (instance : Instance) : string :=
  let batch_name := PosixPath.basename (currentFile (inputs instance)) in
  if is_in_tests w then (batch_name ++ now_stamp w)%string else batch_name.

(** A response that holds an identifier and a batch. *)
Definition linked_response (response_data id batch : value) : Prop :=
  exists d props,
    response_data = VDict d
    /\ PyDict.get "_id" d = Some id
    /\ truthy id = true
    /\ PyDict.get "Props" d = Some (VDict props)
    /\ PyDict.get "Batch" props = Some batch.

(** No response, or one without an identifier. *)
Definition unlinked_response (response_data : value) : Prop :=
  truthy response_data = false
  \/ exists d, response_data = VDict d /\ truthy (dict_get "_id" d) = false.

(** Every rule applied in turn, each to the outcome of the one before:
    "the original value with all configured replacements applied". *)
Definition apply_all_rules (rules : list SearchReplace) (v : string)
  : string :=
  fold_left
    (fun v item => PyStr.replace (sr_name item) (sr_value item) v)
    rules v.

(** What the loop leaves in a value: the last rule alone, applied to the
    value the item had when the loop reached it. *)
Definition apply_last_rule (rules : list SearchReplace) (v : string)
  : string :=
  match rules with
  | [] => v
  | r :: rest =>
      let item := List.last rest r in
      PyStr.replace (sr_name item) (sr_value item) v
  end.

(** [name] goes last unless it is there already. *)
Definition add_group (name : string) (captured : list string)
  : list string :=
  if existsb (String.eqb name) captured then captured
  else captured ++ [name].

(** An enabled node whose class occurs in the class entry. *)
Definition node_matches (node_class : string) (node : Node) : bool :=
  PyStr.contains (node_Class node) node_class && negb (node_disable node).

Definition class_matches (nodes : list Node) (node_class : string) : bool :=
  existsb (node_matches node_class) nodes.

Definition rule_matches (nodes : list Node) (lg : LimitGroup) : bool :=
  existsb (class_matches nodes) (lg_value lg).

(** The names of a list without repetition, each at the place where it
    is first seen. *)
Fixpoint first_seen (names : list string) : list string :=
  match names with
  | [] => []
  | n :: rest =>
      n :: filter (fun x => negb (String.eqb x n)) (first_seen rest)
  end.

(** The name of frame [i] under the pattern [file], and the path that the
    resolver appends for it. *)
Definition frame_name (file : string) (i : Z) : string :=
  match PyStr.percent file i with
  | Ok name => name
  | Raise _ => EmptyString
  end.

Definition frame_path (dirname file : string) (i : Z) : string :=
  PyStr.replace backslash "/" (PosixPath.join dirname (frame_name file i)).

(** The first frame of the expansion: one earlier with a slate. *)
Definition first_frame (instance : Instance) (start_frame : Z) : Z :=
  if slate (inputs instance) then (start_frame - 1)%Z else start_frame.

(** The paths that the resolver adds for [filepath]: a function of the
    inputs of the instance alone. *)
Definition resolved_names (i : InstanceInputs) (filepath : string)
  (start_frame end_frame : Z) : result (list string) :=
  if String.eqb (render_target i) "frames_farm" then Ok []
  else if published_on_farm (PosixPath.basename filepath)
            (representations i)
  then Ok []
  else
    let file := hash_padding (PosixPath.basename filepath) in
    if negb (PyStr.contains "%" file) then Ok [filepath]
    else
      append_sequence (PosixPath.dirname filepath) file
        (range (if slate i then (start_frame - 1)%Z else start_frame)
               (end_frame + 1))
        [].

(** The answer of the web service that lets a later submission link to
    it without an exception: a dictionary with an [_id], and with
    [Props.Batch] when the identifier is not empty. *)
Definition response_ok (r : value) : bool :=
  match r with
  | VDict d =>
      match PyDict.get "_id" d with
      | Some id =>
          if truthy id then
            match PyDict.get "Props" d with
            | Some (VDict props) => PyDict.mem "Batch" props
            | _ => false
            end
          else true
      | None => false
      end
  | _ => false
  end.

Definition stored_response_ok (o : option value) : bool :=
  match o with
  | Some r => response_ok r
  | None => true
  end.

(** [os.makedirs] succeeds or raises an [OSError]. *)
Definition makedirs_ok (w : World) (render_dir : string) : bool :=
  match makedirs w render_dir with
  | Some e => isinstance_OSError e
  | None => true
  end.

(** [names] repeated [n] times, one after the other. *)
Fixpoint repeated (names : list string) (n : nat) : list string :=
  match n with
  | O => []
  | S k => names ++ repeated names k
  end.

(** The fields of an instance that the resolver and the linking read. *)
Definition same_core (a b : Instance) : Prop :=
  inputs a = inputs b
  /\ expectedFiles a = expectedFiles b
  /\ deadlineSubmissionJob a = deadlineSubmissionJob b.

(* ================================================================== *)
(** ** Further notions of the statements *)

(** The number of [c] in [s], the text before the first one and the text
    after the last one. *)
Fixpoint count_char (c : ascii) (s : string) : nat :=
  match s with
  | EmptyString => O
  | String x s' =>
      if Ascii.eqb x c then S (count_char c s') else count_char c s'
  end.

Fixpoint before_first (c : ascii) (s : string) : string :=
  match s with
  | EmptyString => EmptyString
  | String x s' =>
      if Ascii.eqb x c then EmptyString else String x (before_first c s')
  end.

Fixpoint after_last (c : ascii) (s : string) : string :=
  match s with
  | EmptyString => EmptyString
  | String x s' =>
      if PyStr.has_char c s' then after_last c s'
      else if Ascii.eqb x c then s' else s
  end.

(** The payload before the link to a prior job and the environment: the
    literal, the workfile dependency and the baking overrides. *)
Definition staged_payload (w : World) (self : Plugin) (instance : Instance)
  (script_path : value) (render_path exe_node_name : string)
  (start_frame end_frame : Z) (baking_submission : bool) : Payload :=
  let payload :=
    initial_payload w self instance script_path render_path exe_node_name
                    start_frame end_frame in
  let workfile_dep :=
    dict_get_default "workfile_dependency" (workfile_dependency self)
                     (attributeValues (inputs instance)) in
  let payload :=
    if truthy workfile_dep
    then update_JobInfo [("AssetDependency0", script_path)] payload
    else payload in
  if baking_submission
  then update_JobInfo [("JobType", VStr "Normal");
                       ("ChunkSize", VInt 99999999)] payload
  else payload.

(** The environment that a payload carries: the overlays, then the search
    and replace. *)
Definition submitted_environment (w : World) (self : Plugin)
  (instance : Instance) : list (string * string) :=
  search_replace (env_search_replace_values self)
                 (job_environment w self instance).

(** The key of the environment entry number [n]. *)
Definition environment_key (n : nat) : string :=
  ("EnvironmentKeyValue" ++ PyStr.of_nat n)%string.

(** The number of jobs that one call of [payload_submit] hands to
    [process_submission]: the main one unless the target is
    [frames_farm], and one for each baking script. *)
Definition submissions_per_call (i : InstanceInputs) : nat :=
  (if String.eqb (render_target i) "frames_farm" then 0 else 1)
  + List.length (bakingNukeScripts i).

(** The first call of [payload_submit] that a publish makes, if it makes
    one: the call for the main job unless the target is [frames_farm],
    else the call for the first baking script. *)
Definition first_call (w : World) (self : Plugin) (instance : Instance)
  (script_path : value) : option (result Submitted) :=
  let submit_frame_start := frameStartHandle (inputs instance) in
  let submit_frame_end := frameEndHandle (inputs instance) in
  if String.eqb (render_target (inputs instance)) "frames_farm"
  then match bakingNukeScripts (inputs instance) with
       | [] => None
       | b :: _ =>
           Some (payload_submit w self instance (bakeScriptPath b)
                   (bakeRenderPath b) (bakeWriteNodeName b)
                   submit_frame_start submit_frame_end VNone true)
       end
  else Some (payload_submit w self instance script_path
               (path (inputs instance)) (write_node_name (inputs instance))
               submit_frame_start submit_frame_end VNone false).

(* ================================================================== *)
(** * Properties *)

(** ** Dictionaries *)

Section DictFacts.
Context {V : Type}.
Implicit Types (d other : list (string * V)) (k : string) (v : V).

Lemma get_set_same k v d : PyDict.get k (PyDict.set k v d) = Some v.
Proof.
  induction d as [|[k' v'] d IH]; simpl.
  - now rewrite String.eqb_refl.
  - destruct (String.eqb k k') eqn:E; simpl; rewrite E; auto.
Qed.

Lemma get_set_other k k' v d :
  k <> k' -> PyDict.get k (PyDict.set k' v d) = PyDict.get k d.
Proof.
  intros Hne. induction d as [|[k2 v2] d IH]; simpl.
  - apply String.eqb_neq in Hne. now rewrite Hne.
  - destruct (String.eqb k' k2) eqn:E; simpl.
    + apply String.eqb_eq in E. subst k2.
      apply String.eqb_neq in Hne. now rewrite Hne.
    + now rewrite IH.
Qed.

Lemma get_update_other k d other :
  (forall kv, In kv other -> fst kv <> k) ->
  PyDict.get k (PyDict.update d other) = PyDict.get k d.
Proof.
  unfold PyDict.update. revert d.
  induction other as [|[k' v'] other IH]; intros d H; simpl; auto.
  rewrite IH by (intros kv Hin; apply H; now right).
  apply get_set_other. intros ->. now apply (H (k', v')); [left|].
Qed.

Lemma keys_set_in k v d :
  PyDict.mem k d = true -> PyDict.keys (PyDict.set k v d) = PyDict.keys d.
Proof.
  unfold PyDict.mem. induction d as [|[k' v'] d IH]; simpl; [discriminate|].
  destruct (String.eqb k k') eqn:E; simpl; auto.
  intros H. now rewrite IH.
Qed.

Lemma mem_set k k' v d :
  PyDict.mem k (PyDict.set k' v d) = String.eqb k k' || PyDict.mem k d.
Proof.
  unfold PyDict.mem. destruct (String.eqb k k') eqn:E; simpl.
  - apply String.eqb_eq in E. subst. now rewrite get_set_same.
  - apply String.eqb_neq in E. now rewrite get_set_other.
Qed.

Lemma get_update k d other :
  PyDict.get k (PyDict.update d other) =
  match last_binding k other with
  | Some v => Some v
  | None => PyDict.get k d
  end.
Proof.
  unfold PyDict.update. revert d.
  induction other as [|[k' v'] other IH]; intros d; simpl; auto.
  rewrite IH. destruct (last_binding k other); auto.
  destruct (String.eqb k k') eqn:E.
  - apply String.eqb_eq in E. subst. apply get_set_same.
  - apply String.eqb_neq in E. now apply get_set_other.
Qed.

End DictFacts.

(** ** Dependency linking *)

Lemma environment_key_values_keys env kv :
  In kv (environment_key_values env) ->
  exists n, fst kv = ("EnvironmentKeyValue" ++ PyStr.of_nat n)%string.
Proof.
  unfold environment_key_values. intros H.
  apply in_map_iff in H. destruct H as [[n k] [<- _]].
  now exists n.
Qed.

Lemma get_after_environment k env d :
  (forall n, ("EnvironmentKeyValue" ++ PyStr.of_nat n)%string <> k) ->
  PyDict.get k (PyDict.update d (environment_key_values env))
  = PyDict.get k d.
Proof.
  intros H. apply get_update_other. intros kv Hin.
  destruct (environment_key_values_keys _ _ Hin) as [n ->]. apply H.
Qed.

Lemma get_JobInfo_after_environment k env p :
  (forall n, ("EnvironmentKeyValue" ++ PyStr.of_nat n)%string <> k) ->
  PyDict.get k (JobInfo (update_JobInfo (environment_key_values env) p))
  = PyDict.get k (JobInfo p).
Proof. intros H. now apply get_after_environment. Qed.

Lemma normal_response_dict d :
  d <> [] -> normal_response (VDict d) = VDict d.
Proof. destruct d; [congruence | reflexivity]. Qed.

Lemma linked_response_normal r id batch :
  linked_response r id batch ->
  exists d props,
    normal_response r = VDict d
    /\ PyDict.get "_id" d = Some id /\ truthy id = true
    /\ PyDict.get "Props" d = Some (VDict props)
    /\ PyDict.get "Batch" props = Some batch.
Proof.
  intros (d & props & -> & Hid & Ht & Hp & Hb).
  exists d, props. repeat split; auto.
  apply normal_response_dict. intros ->. discriminate.
Qed.

Lemma unlinked_response_normal r :
  unlinked_response r ->
  exists d, normal_response r = VDict d
            /\ truthy (dict_get "_id" d) = false.
Proof.
  intros [H | (d & -> & H)].
  - exists []. unfold normal_response. now rewrite H.
  - destruct d as [|kv d].
    + now exists [].
    + now exists (kv :: d).
Qed.

(** C1: with a prior response that holds an identifier, the payload of a
    submission (a baking one or not) takes its batch name from the
    response's [Props.Batch] and records the identifier as
    [JobDependency0]; with no response, or one without an identifier, the
    payload has no [JobDependency0] and keeps its own batch name. *)
Theorem dependency_linking
  (w : World) (self : Plugin) (instance : Instance) (script_path : value)
  (render_path exe_node_name : string) (start_frame end_frame : Z)
  (response_data : value) (baking_submission : bool) :
  (forall id batch,
      linked_response response_data id batch ->
      exists payload,
        build_payload w self instance script_path render_path exe_node_name
          start_frame end_frame response_data baking_submission
        = Ok payload
        /\ PyDict.get "BatchName" (JobInfo payload) = Some batch
        /\ PyDict.get "JobDependency0" (JobInfo payload) = Some id)
  /\ (unlinked_response response_data ->
      exists payload,
        build_payload w self instance script_path render_path exe_node_name
          start_frame end_frame response_data baking_submission
        = Ok payload
        /\ PyDict.get "BatchName" (JobInfo payload)
           = Some (VStr (own_batch_name w instance))
        /\ PyDict.get "JobDependency0" (JobInfo payload) = None).
Proof.
  split.
  - intros id batch H.
    destruct (linked_response_normal _ _ _ H)
      as (d & props & Hn & Hid & Ht & Hp & Hb).
    unfold build_payload. rewrite Hn.
    unfold method_get, dict_get, subscript. rewrite Hid. simpl bind.
    rewrite Ht, Hp. simpl bind. rewrite Hb. simpl bind.
    eexists. split; [reflexivity|].
    split;
      (rewrite get_JobInfo_after_environment by (intros n; discriminate));
      unfold update_JobInfo at 1; cbn [JobInfo]; rewrite get_update;
      reflexivity.
  - intros H.
    destruct (unlinked_response_normal _ H) as (d & Hn & Hf).
    unfold build_payload. rewrite Hn.
    unfold method_get. simpl bind. rewrite Hf. simpl bind.
    eexists. split; [reflexivity|].
    split;
      (rewrite get_JobInfo_after_environment by (intros n; discriminate));
      destruct (truthy (dict_get_default _ _ _)), baking_submission;
      reflexivity.
Qed.

(** C1 at the sample data: a baking job after a main job whose response
    holds identifier [abc123] and batch [sceneA], and a first job with no
    response. *)
Lemma dependency_linking_witness :
  (exists payload,
      build_payload (Sample.world (fun _ => None) []) (Sample.plugin [])
        (Sample.instance "/renders/render.####.exr" "farm" false []
                         [Sample.bake])
        (VStr "/renders/bake.nk") "/renders/bake.mov" "BakeWrite"
        1001 1005 Sample.response true
      = Ok payload
      /\ PyDict.get "BatchName" (JobInfo payload) = Some (VStr "sceneA")
      /\ PyDict.get "JobDependency0" (JobInfo payload)
         = Some (VStr "abc123"))
  /\ (exists payload,
         build_payload (Sample.world (fun _ => None) []) (Sample.plugin [])
           (Sample.instance "/renders/render.####.exr" "farm" false []
                            [Sample.bake])
           (VStr "/proj/sceneA.nk") "/renders/render.####.exr" "Write1"
           1001 1005 VNone false
         = Ok payload
         /\ PyDict.get "BatchName" (JobInfo payload)
            = Some (VStr "sceneA.nk")
         /\ PyDict.get "JobDependency0" (JobInfo payload) = None).
Proof.
  split.
  - apply (proj1 (dependency_linking _ _ _ _ _ _ _ _ Sample.response true)).
    exists [("_id", VStr "abc123");
            ("Props", VDict [("Batch", VStr "sceneA")])],
           [("Batch", VStr "sceneA")].
    repeat split; reflexivity.
  - apply (proj2 (dependency_linking
                    (Sample.world (fun _ => None) []) (Sample.plugin [])
                    (Sample.instance "/renders/render.####.exr" "farm"
                                     false [] [Sample.bake])
                    (VStr "/proj/sceneA.nk") "/renders/render.####.exr"
                    "Write1" 1001 1005 VNone false)).
    left. reflexivity.
Defined.

(** The payload that [payload_submit] assembles is the one that
    [build_payload] describes. *)
Lemma payload_submit_payload (w : World) (self : Plugin)
  (instance : Instance) (script_path : value)
  (render_path exe_node_name : string) (start_frame end_frame : Z)
  (response_data : value) (baking_submission : bool) (out : Submitted) :
  payload_submit w self instance script_path render_path exe_node_name
    start_frame end_frame response_data baking_submission = Ok out ->
  build_payload w self instance script_path render_path exe_node_name
    start_frame end_frame response_data baking_submission
  = Ok (ps_payload out).
Proof.
  unfold payload_submit.
  destruct (ensure_render_folder _ _); [|discriminate]. cbn [bind].
  destruct (build_payload _ _ _ _ _ _ _ _ _ _) as [payload|];
    [|discriminate].
  cbn [bind].
  destruct (_expected_files _ _ _ _); [|discriminate]. cbn [bind].
  destruct (get_plugin_info _ _ _ _ _); [|discriminate]. cbn [bind].
  destruct (bake_loop _ _ _ _ _) as [[[j i] l]|]; [|discriminate].
  cbn [bind]. now intros [= <-].
Qed.

(** The job-info object of a baking job, built in the loop at the end of
    [payload_submit], is linked in the same way: the batch of the stored
    response and its identifier after the dependencies. *)
Lemma bake_step_links (self : Plugin) (start_frame end_frame : Z)
  (job_info : DeadlineJobInfo) (instance : Instance)
  (submissions : list (DeadlineJobInfo * NukePluginInfo))
  (baking_script : BakingScript) (r id batch : value) :
  deadlineSubmissionJob instance = Some r ->
  linked_response r id batch ->
  PyDict.mem "use_gpu" (get_attr_values_from_data self instance) = true ->
  exists job_info' instance' submissions',
    bake_step self start_frame end_frame
      (job_info, instance, submissions) baking_script
    = Ok (job_info', instance', submissions')
    /\ ji_BatchName job_info' = batch
    /\ ji_JobDependencies job_info' = ji_JobDependencies job_info ++ [id].
Proof.
  intros Hstored (d & props & -> & Hid & Ht & Hp & Hb) Hgpu.
  unfold bake_step. rewrite Hstored.
  unfold method_get, dict_get, subscript. rewrite Hid. cbn [bind].
  rewrite Ht, Hp. cbn [bind]. rewrite Hb. cbn [bind fst snd].
  unfold get_plugin_info, subscript. unfold PyDict.mem in Hgpu.
  destruct (PyDict.get "use_gpu" _); [|discriminate]. cbn [bind].
  do 3 eexists. split; [reflexivity|]. split; reflexivity.
Qed.

(** ** Output directory creation *)

(** An exception of [os.makedirs] that is an [OSError] is dropped, whatever
    its subclass. *)
Lemma ensure_render_folder_OSError w render_dir e :
  makedirs w render_dir = Some e ->
  isinstance_OSError e = true ->
  ensure_render_folder w render_dir = Ok tt.
Proof. unfold ensure_render_folder. now intros -> ->. Qed.

Lemma ensure_render_folder_other w render_dir e :
  makedirs w render_dir = Some e ->
  isinstance_OSError e = false ->
  ensure_render_folder w render_dir = Raise e.
Proof. unfold ensure_render_folder. now intros -> ->. Qed.

(** C2, as amended: a failure of the directory creation is ignored exactly
    when the exception is an [OSError], of which "already exists" and
    "permission denied" are two cases; an exception of another class
    leaves [payload_submit] as it was raised. *)
Theorem makedirs_failure_handling
  (w : World) (self : Plugin) (instance : Instance) (script_path : value)
  (render_path exe_node_name : string) (start_frame end_frame : Z)
  (response_data : value) (baking_submission : bool) (e : exn) :
  makedirs w (PosixPath.normpath (PosixPath.dirname render_path)) = Some e ->
  (ensure_render_folder w
     (PosixPath.normpath (PosixPath.dirname render_path)) = Ok tt
   <-> isinstance_OSError e = true)
  /\ (isinstance_OSError e = false ->
      payload_submit w self instance script_path render_path exe_node_name
        start_frame end_frame response_data baking_submission = Raise e)
  /\ isinstance_OSError FileExistsError = true
  /\ isinstance_OSError PermissionError = true.
Proof.
  intros Hmk. repeat split.
  - unfold ensure_render_folder. rewrite Hmk.
    destruct (isinstance_OSError e); [reflexivity | discriminate].
  - intros He. now apply ensure_render_folder_OSError with e.
  - intros He. unfold payload_submit.
    now rewrite (ensure_render_folder_other _ _ _ Hmk He).
Qed.

(** C2 at the sample data, on a file system that refuses the directory
    for want of permission. *)
Lemma makedirs_failure_handling_witness :
  (ensure_render_folder (Sample.world (fun _ => Some PermissionError) [])
     (PosixPath.normpath (PosixPath.dirname "/renders/render.####.exr"))
   = Ok tt
   <-> isinstance_OSError PermissionError = true)
  /\ (isinstance_OSError PermissionError = false ->
      payload_submit (Sample.world (fun _ => Some PermissionError) [])
        (Sample.plugin [])
        (Sample.instance "/renders/render.####.exr" "farm" false [] [])
        (VStr "/proj/sceneA.nk") "/renders/render.####.exr" "Write1"
        1001 1005 VNone false = Raise PermissionError)
  /\ isinstance_OSError FileExistsError = true
  /\ isinstance_OSError PermissionError = true.
Proof.
  apply (makedirs_failure_handling
           (Sample.world (fun _ => Some PermissionError) [])).
  reflexivity.
Defined.

(** C2 as written fails: the directory creation is refused for want of
    permission, which is not "already exists", and the submission goes on
    to build its payload instead of raising. *)
Lemma permission_denied_is_ignored :
  makedirs (Sample.world (fun _ => Some PermissionError) []) "/renders"
  = Some PermissionError
  /\ PermissionError <> FileExistsError
  /\ ensure_render_folder (Sample.world (fun _ => Some PermissionError) [])
       (PosixPath.normpath (PosixPath.dirname "/renders/render.####.exr"))
     = Ok tt
  /\ (exists out,
         payload_submit (Sample.world (fun _ => Some PermissionError) [])
           (Sample.plugin [])
           (Sample.instance "/renders/render.####.exr" "farm" false [] [])
           (VStr "/proj/sceneA.nk") "/renders/render.####.exr" "Write1"
           1001 1005 VNone false = Ok out)
  /\ ~ (forall w render_dir e,
          makedirs w render_dir = Some e ->
          (ensure_render_folder w render_dir = Ok tt
           <-> e = FileExistsError)).
Proof.
  repeat split; try discriminate.
  - eexists. vm_compute. reflexivity.
  - intros H.
    specialize (H (Sample.world (fun _ => Some PermissionError) [])
                  "/renders" PermissionError eq_refl).
    destruct H as [H _]. specialize (H eq_refl). discriminate.
Qed.

(** ** Search and replace in the environment *)

Section SetFacts.
Context {V : Type}.

Lemma set_set (k : string) (v1 v2 : V) (d : list (string * V)) :
  PyDict.set k v2 (PyDict.set k v1 d) = PyDict.set k v2 d.
Proof.
  induction d as [|[k' v'] d IH]; simpl.
  - now rewrite String.eqb_refl.
  - destruct (String.eqb k k') eqn:E; simpl; rewrite E; congruence.
Qed.

Lemma last_binding_map k (f : V -> V) (d : list (string * V)) :
  last_binding k (map (fun kv => (fst kv, f (snd kv))) d)
  = option_map f (last_binding k d).
Proof.
  induction d as [|[k' v'] d IH]; simpl; auto.
  rewrite IH. destruct (last_binding k d); simpl; auto.
  now destruct (String.eqb k k').
Qed.

Lemma last_binding_get k (d : list (string * V)) :
  NoDup (PyDict.keys d) -> last_binding k d = PyDict.get k d.
Proof.
  induction d as [|[k' v'] d IH]; simpl; auto.
  intros Hnd. inversion Hnd as [|? ? Hnotin Hnd']; subst.
  rewrite (IH Hnd').
  destruct (String.eqb k k') eqn:E.
  - apply String.eqb_eq in E. subst k'.
    destruct (PyDict.get k d) eqn:G; auto.
    exfalso. apply Hnotin. clear -G.
    induction d as [|[k2 v2] d IH]; simpl in *; [discriminate|].
    destruct (String.eqb k k2) eqn:E2.
    + left. symmetry. now apply String.eqb_eq.
    + right. auto.
  - now destruct (PyDict.get k d).
Qed.

End SetFacts.

Lemma last_cons {A : Type} (a d : A) (l : list A) :
  List.last (a :: l) d = List.last l a.
Proof.
  revert a d. induction l as [|b l IH]; intros a d; [reflexivity|].
  change (List.last (a :: b :: l) d) with (List.last (b :: l) d).
  now rewrite (IH b d), (IH b a).
Qed.

Lemma apply_last_rule_cons r r' rules v :
  apply_last_rule (r :: r' :: rules) v = apply_last_rule (r' :: rules) v.
Proof. unfold apply_last_rule. now rewrite last_cons. Qed.

Lemma rules_loop_last (rules : list SearchReplace) (r : SearchReplace)
  (k v : string) (env : list (string * string)) :
  fold_left
    (fun env item =>
       PyDict.set k (PyStr.replace (sr_name item) (sr_value item) v) env)
    (r :: rules) env
  = PyDict.set k (apply_last_rule (r :: rules) v) env.
Proof.
  revert r env. induction rules as [|r' rules IH]; intros r env.
  - reflexivity.
  - change (fold_left _ (r :: r' :: rules) env)
      with (fold_left
              (fun env item =>
                 PyDict.set k
                   (PyStr.replace (sr_name item) (sr_value item) v) env)
              (r' :: rules)
              (PyDict.set k
                 (PyStr.replace (sr_name r) (sr_value r) v) env)).
    rewrite IH, set_set, apply_last_rule_cons. reflexivity.
Qed.

Lemma search_replace_update (rules : list SearchReplace)
  (r : SearchReplace) (env : list (string * string)) :
  search_replace (r :: rules) env
  = PyDict.update env
      (map (fun kv => (fst kv, apply_last_rule (r :: rules) (snd kv))) env).
Proof.
  unfold search_replace, PyDict.update.
  generalize env at 1 3 as items. intros items. revert env.
  induction items as [|[k v] items IH]; intros env; [reflexivity|].
  cbn [fold_left map fst snd].
  rewrite <- IH. f_equal. apply rules_loop_last.
Qed.

(** With two rules or more the loop does not chain them: every value ends
    as the original with the last rule alone applied. *)
Lemma search_replace_last_rule_only (rules : list SearchReplace)
  (r : SearchReplace) (env : list (string * string)) (k : string) :
  NoDup (PyDict.keys env) ->
  PyDict.get k (search_replace (r :: rules) env)
  = option_map (apply_last_rule (r :: rules)) (PyDict.get k env).
Proof.
  intros Hnd. rewrite search_replace_update, get_update.
  rewrite (last_binding_map k (apply_last_rule (r :: rules)) env).
  rewrite (last_binding_get k env Hnd).
  now destruct (PyDict.get k env).
Qed.

(** C3 at a failing input: with the rules [a -> b] and [c -> d] the value
    [ac] of a key ends as [ad], while all the rules applied give [bd]. *)
Theorem search_replace_keeps_last_rule_only :
  search_replace
    [ {| sr_name := "a"; sr_value := "b" |};
      {| sr_name := "c"; sr_value := "d" |} ]
    [("K", "ac")]
  = [("K", "ad")]
  /\ apply_all_rules
       [ {| sr_name := "a"; sr_value := "b" |};
         {| sr_name := "c"; sr_value := "d" |} ]
       "ac"
     = "bd".
Proof. split; reflexivity. Qed.

(** ** Limit groups *)

Lemma capture_group_eq name node_class captured node :
  capture_group name node_class captured node
  = if node_matches node_class node then add_group name captured
    else captured.
Proof.
  unfold capture_group, node_matches, add_group.
  destruct (PyStr.contains _ _), (node_disable node); reflexivity.
Qed.

Lemma existsb_app_single name captured :
  existsb (String.eqb name) (captured ++ [name]) = true.
Proof.
  rewrite existsb_app. simpl. rewrite String.eqb_refl.
  now rewrite orb_true_r.
Qed.

Lemma add_group_idem name captured :
  add_group name (add_group name captured) = add_group name captured.
Proof.
  unfold add_group at 2.
  destruct (existsb (String.eqb name) captured) eqn:E.
  - unfold add_group. now rewrite E.
  - unfold add_group. now rewrite existsb_app_single, E.
Qed.

Lemma nodes_loop name node_class nodes captured :
  fold_left (capture_group name node_class) nodes captured
  = if class_matches nodes node_class then add_group name captured
    else captured.
Proof.
  unfold class_matches. revert captured.
  induction nodes as [|node nodes IH]; intros captured; [reflexivity|].
  cbn [fold_left existsb]. rewrite IH, capture_group_eq.
  destruct (node_matches node_class node),
           (existsb (node_matches node_class) nodes);
    cbn [orb]; rewrite ?add_group_idem; reflexivity.
Qed.

Lemma classes_loop name nodes classes captured :
  fold_left
    (fun captured node_class =>
       fold_left (capture_group name node_class) nodes captured)
    classes captured
  = if existsb (class_matches nodes) classes then add_group name captured
    else captured.
Proof.
  revert captured.
  induction classes as [|c classes IH]; intros captured; [reflexivity|].
  cbn [fold_left existsb]. rewrite IH, nodes_loop.
  destruct (class_matches nodes c),
           (existsb (class_matches nodes) classes);
    cbn [orb]; rewrite ?add_group_idem; reflexivity.
Qed.

Lemma groups_loop w limit_groups captured :
  fold_left
    (fun captured_groups limit_group =>
       fold_left
         (fun captured_groups node_class =>
            fold_left (capture_group (lg_name limit_group) node_class)
                      (allNodes w) captured_groups)
         (lg_value limit_group) captured_groups)
    limit_groups captured
  = fold_left (fun acc name => add_group name acc)
      (map lg_name (filter (rule_matches (allNodes w)) limit_groups))
      captured.
Proof.
  revert captured.
  induction limit_groups as [|lg lgs IH]; intros captured; [reflexivity|].
  cbn [fold_left filter]. rewrite IH, classes_loop.
  unfold rule_matches at 2.
  now destruct (existsb (class_matches (allNodes w)) (lg_value lg)).
Qed.

Lemma filter_all {A : Type} (f : A -> bool) (l : list A) :
  (forall x, f x = true) -> filter f l = l.
Proof.
  intros H. induction l as [|a l IH]; simpl; auto.
  now rewrite H, IH.
Qed.

Lemma filter_filter {A : Type} (f g : A -> bool) (l : list A) :
  filter f (filter g l) = filter (fun x => g x && f x) l.
Proof.
  induction l as [|a l IH]; simpl; auto.
  destruct (g a); simpl; [destruct (f a)|]; now rewrite IH.
Qed.

(** Adding names one by one is the first-seen list of the names, after
    what had been captured before. *)
Lemma add_groups_first_seen names captured :
  fold_left (fun acc name => add_group name acc) names captured
  = captured
    ++ filter (fun x => negb (existsb (String.eqb x) captured))
              (first_seen names).
Proof.
  revert captured.
  induction names as [|n names IH]; intros captured; simpl.
  - now rewrite app_nil_r.
  - rewrite IH. unfold add_group.
    destruct (existsb (String.eqb n) captured) eqn:E; simpl.
    + f_equal. rewrite filter_filter. apply filter_ext. intros x.
      destruct (String.eqb x n) eqn:Ex; simpl; auto.
      apply String.eqb_eq in Ex. subst x. now rewrite E.
    + rewrite <- app_assoc. simpl. f_equal. f_equal.
      rewrite filter_filter. apply filter_ext. intros x.
      rewrite existsb_app. simpl. rewrite orb_false_r, negb_orb.
      apply andb_comm.
Qed.

Lemma first_seen_In names x : In x (first_seen names) <-> In x names.
Proof.
  induction names as [|n names IH]; simpl; [tauto|].
  rewrite filter_In, IH. split.
  - intros [H | [H _]]; auto.
  - intros [H | H]; auto.
    destruct (String.eqb x n) eqn:E.
    + left. symmetry. now apply String.eqb_eq.
    + right. now split.
Qed.

Lemma NoDup_filter {A : Type} (f : A -> bool) (l : list A) :
  NoDup l -> NoDup (filter f l).
Proof.
  induction 1 as [|a l Hnotin Hnd IH]; simpl; [constructor|].
  destruct (f a); auto. constructor; auto.
  rewrite filter_In. tauto.
Qed.

Lemma first_seen_NoDup names : NoDup (first_seen names).
Proof.
  induction names as [|n names IH]; simpl; constructor.
  - rewrite filter_In. intros [_ H]. now rewrite String.eqb_refl in H.
  - now apply NoDup_filter.
Qed.

Lemma _get_limit_groups_first_seen w limit_groups :
  _get_limit_groups w limit_groups
  = first_seen
      (map lg_name (filter (rule_matches (allNodes w)) limit_groups)).
Proof.
  unfold _get_limit_groups. rewrite groups_loop, add_groups_first_seen.
  cbn [app]. apply filter_all. reflexivity.
Qed.

Lemma rule_matches_spec nodes lg :
  rule_matches nodes lg = true <->
  exists node_class node,
    In node_class (lg_value lg) /\ In node nodes
    /\ node_disable node = false
    /\ PyStr.contains (node_Class node) node_class = true.
Proof.
  unfold rule_matches, class_matches, node_matches.
  rewrite existsb_exists. split.
  - intros (c & Hc & H). apply existsb_exists in H.
    destruct H as (node & Hn & H). apply andb_true_iff in H.
    destruct H as [H1 H2]. apply negb_true_iff in H2.
    now exists c, node.
  - intros (c & node & Hc & Hn & Hd & Hm).
    exists c. split; auto. apply existsb_exists. exists node.
    split; auto. now rewrite Hm, Hd.
Qed.

(** C5: every label comes out once, at the place where the first of its
    rules that matches stands in the settings; a label comes out exactly
    when one of its rules has a class entry that an enabled node matches,
    so a rule whose matching nodes are all disabled gives nothing. *)
Theorem limit_groups_resolution (w : World) (limit_groups : list LimitGroup) :
  NoDup (_get_limit_groups w limit_groups)
  /\ _get_limit_groups w limit_groups
     = first_seen
         (map lg_name (filter (rule_matches (allNodes w)) limit_groups))
  /\ (forall name,
         In name (_get_limit_groups w limit_groups) <->
         exists lg node_class node,
           In lg limit_groups /\ lg_name lg = name
           /\ In node_class (lg_value lg) /\ In node (allNodes w)
           /\ node_disable node = false
           /\ PyStr.contains (node_Class node) node_class = true)
  /\ (forall name,
         (forall lg node_class node,
             In lg limit_groups -> lg_name lg = name ->
             In node_class (lg_value lg) -> In node (allNodes w) ->
             PyStr.contains (node_Class node) node_class = true ->
             node_disable node = true) ->
         ~ In name (_get_limit_groups w limit_groups)).
Proof.
  assert (Hin : forall name,
             In name (_get_limit_groups w limit_groups) <->
             exists lg node_class node,
               In lg limit_groups /\ lg_name lg = name
               /\ In node_class (lg_value lg) /\ In node (allNodes w)
               /\ node_disable node = false
               /\ PyStr.contains (node_Class node) node_class = true).
  { intros name. rewrite _get_limit_groups_first_seen, first_seen_In.
    rewrite in_map_iff. split.
    - intros (lg & Hname & Hlg). apply filter_In in Hlg.
      destruct Hlg as [Hlg Hm]. apply rule_matches_spec in Hm.
      destruct Hm as (c & node & H). exists lg, c, node. tauto.
    - intros (lg & c & node & Hlg & Hname & H).
      exists lg. split; auto. apply filter_In. split; auto.
      apply rule_matches_spec. now exists c, node. }
  split; [|split; [|split; [exact Hin|]]].
  - rewrite _get_limit_groups_first_seen. apply first_seen_NoDup.
  - apply _get_limit_groups_first_seen.
  - intros name Hall Hname. apply Hin in Hname.
    destruct Hname as (lg & c & node & Hlg & Hn & Hc & Hnode & Hd & Hm).
    rewrite (Hall lg c node Hlg Hn Hc Hnode Hm) in Hd. discriminate.
Qed.

(** C5 at a scene with two enabled [Write] nodes and a disabled [Blur]:
    the label of the [Write] rule comes out once, the label of the [Blur]
    rule not at all. *)
Lemma limit_groups_resolution_witness :
  let w := Sample.world (fun _ => None)
             [ {| node_Class := "Write"; node_disable := false |};
               {| node_Class := "Blur"; node_disable := true |};
               {| node_Class := "Write"; node_disable := false |} ] in
  let limit_groups :=
    [ {| lg_name := "write_licenses"; lg_value := ["Write"] |};
      {| lg_name := "blur_licenses"; lg_value := ["Blur"] |} ] in
  _get_limit_groups w limit_groups = ["write_licenses"]
  /\ NoDup (_get_limit_groups w limit_groups)
  /\ ~ In "blur_licenses" (_get_limit_groups w limit_groups).
Proof.
  intros w limit_groups.
  destruct (limit_groups_resolution w limit_groups) as (Hnd & _ & _ & Habs).
  split; [reflexivity|]. split; [exact Hnd|].
  apply Habs. intros lg node_class node Hlg Hname Hc Hnode Hm.
  destruct Hlg as [<- | [<- | []]]; [discriminate Hname|].
  destruct Hc as [<- | []].
  destruct Hnode as [<- | [<- | [<- | []]]];
    [discriminate Hm | reflexivity | discriminate Hm].
Defined.

(** ** Matching a node class *)

Lemma prefix_spec (a b : string) :
  prefix a b = true <-> exists suf, b = (a ++ suf)%string.
Proof.
  revert b. induction a as [|c a IH]; intros b.
  - split; [intros _; now exists b | now destruct b].
  - destruct b as [|c' b]; simpl.
    + split; [discriminate | intros [suf H]; discriminate].
    + destruct (ascii_dec c c') as [<- | Hne].
      * rewrite IH. split; intros [suf H]; exists suf; congruence.
      * split; [discriminate | intros [suf H]; congruence].
Qed.

(** [contains a b] holds exactly when [a] is a contiguous part of [b]. *)
Lemma contains_spec (a b : string) :
  PyStr.contains a b = true <->
  exists pre suf, b = (pre ++ a ++ suf)%string.
Proof.
  induction b as [|c b IH].
  - cbn [PyStr.contains]. rewrite orb_false_r, prefix_spec. split.
    + intros [suf H]. now exists EmptyString, suf.
    + intros (pre & suf & H). destruct pre; [now exists suf|discriminate].
  - cbn [PyStr.contains]. rewrite orb_true_iff, prefix_spec, IH. split.
    + intros [[suf H] | (pre & suf & H)].
      * now exists EmptyString, suf.
      * exists (String c pre), suf. simpl. congruence.
    + intros (pre & suf & H). destruct pre as [|c' pre].
      * left. now exists suf.
      * right. exists pre, suf. simpl in H. congruence.
Qed.

(** C10: a node gives its label to a rule when the class name of the node
    is a contiguous part of the configured class string, which equality
    is only one case of; an enabled node of class [Write] matches the
    entry [WriteGeo]. *)
Theorem node_class_substring_match :
  (forall (w : World) (name node_class : string),
      In name (_get_limit_groups w
                 [ {| lg_name := name; lg_value := [node_class] |} ])
      <-> exists node pre suf,
            In node (allNodes w) /\ node_disable node = false
            /\ node_class = (pre ++ node_Class node ++ suf)%string)
  /\ String.eqb "Write" "WriteGeo" = false
  /\ _get_limit_groups
       (Sample.world (fun _ => None)
          [ {| node_Class := "Write"; node_disable := false |} ])
       [ {| lg_name := "geo_licenses"; lg_value := ["WriteGeo"] |} ]
     = ["geo_licenses"]
  /\ _get_limit_groups
       (Sample.world (fun _ => None)
          [ {| node_Class := "WriteGeo"; node_disable := false |} ])
       [ {| lg_name := "write_licenses"; lg_value := ["Write"] |} ]
     = [].
Proof.
  split; [|repeat split].
  intros w name node_class.
  rewrite _get_limit_groups_first_seen, first_seen_In, in_map_iff. split.
  - intros (lg & Hname & Hlg). apply filter_In in Hlg.
    destruct Hlg as [[<- | []] Hm]. apply rule_matches_spec in Hm.
    destruct Hm as (c & node & [<- | []] & Hnode & Hd & Hm).
    apply contains_spec in Hm. destruct Hm as (pre & suf & Hm).
    now exists node, pre, suf.
  - intros (node & pre & suf & Hnode & Hd & Hm).
    exists {| lg_name := name; lg_value := [node_class] |}.
    split; [reflexivity|]. apply filter_In. split; [now left|].
    apply rule_matches_spec. exists node_class, node.
    repeat split; auto; [now left|].
    apply contains_spec. now exists pre, suf.
Qed.

(** ** Overlay order of the environment *)

Section KeysFacts.
Context {V : Type}.

Lemma mem_In (k : string) (d : list (string * V)) :
  PyDict.mem k d = true <-> In k (PyDict.keys d).
Proof.
  unfold PyDict.mem. induction d as [|[k' v'] d IH]; simpl.
  - split; [discriminate | tauto].
  - destruct (String.eqb k k') eqn:E.
    + apply String.eqb_eq in E. subst. tauto.
    + apply String.eqb_neq in E. rewrite IH. split; [tauto|].
      intros [H | H]; [congruence | auto].
Qed.

Lemma keys_set (k : string) (v : V) (d : list (string * V)) :
  PyDict.keys (PyDict.set k v d)
  = if PyDict.mem k d then PyDict.keys d else PyDict.keys d ++ [k].
Proof.
  unfold PyDict.mem. induction d as [|[k' v'] d IH]; simpl; auto.
  destruct (String.eqb k k') eqn:E; simpl; auto.
  rewrite IH. now destruct (PyDict.get k d).
Qed.

Lemma NoDup_set (k : string) (v : V) (d : list (string * V)) :
  NoDup (PyDict.keys d) -> NoDup (PyDict.keys (PyDict.set k v d)).
Proof.
  intros Hnd. rewrite keys_set.
  destruct (PyDict.mem k d) eqn:E; auto.
  apply NoDup_app; auto.
  - constructor; [intros [] | constructor].
  - intros x Hx [<- | []]. apply mem_In in Hx. congruence.
Qed.

End KeysFacts.

(** The value that the allow-list overlay holds for a key: the one of the
    process environment when the key is asked for. *)
Lemma nuke_specific_env_get w self k :
  PyDict.get k (nuke_specific_env w self)
  = if existsb (String.eqb k) (env_keys self)
    then PyDict.get k (os_environ w) else None.
Proof.
  unfold nuke_specific_env.
  assert (H : forall keys d,
             PyDict.get k
               (fold_left
                  (fun d key =>
                     match PyDict.get key (os_environ w) with
                     | Some v => PyDict.set key v d
                     | None => d
                     end) keys d)
             = match (if existsb (String.eqb k) keys
                      then PyDict.get k (os_environ w) else None) with
               | Some v => Some v
               | None => PyDict.get k d
               end).
  { induction keys as [|key keys IH]; intros d; [reflexivity|].
    cbn [fold_left existsb]. rewrite IH.
    destruct (String.eqb k key) eqn:E; cbn [orb].
    - apply String.eqb_eq in E. subst key.
      destruct (PyDict.get k (os_environ w)) eqn:G;
        destruct (existsb (String.eqb k) keys);
        rewrite ?get_set_same; reflexivity.
    - apply String.eqb_neq in E.
      destruct (existsb (String.eqb k) keys).
      + destruct (PyDict.get k (os_environ w)); auto.
        destruct (PyDict.get key (os_environ w)); auto.
        now apply get_set_other.
      + destruct (PyDict.get key (os_environ w)); auto.
        now apply get_set_other. }
  rewrite H. simpl.
  now destruct (if existsb _ _ then _ else _).
Qed.

Lemma nuke_specific_env_NoDup w self :
  NoDup (PyDict.keys (nuke_specific_env w self)).
Proof.
  unfold nuke_specific_env.
  assert (H : forall keys (d : list (string * string)),
             NoDup (PyDict.keys d) ->
             NoDup (PyDict.keys
                      (fold_left
                         (fun d key =>
                            match PyDict.get key (os_environ w) with
                            | Some v => PyDict.set key v d
                            | None => d
                            end) keys d))).
  { induction keys as [|key keys IH]; intros d Hd; [exact Hd|].
    cbn [fold_left]. apply IH.
    destruct (PyDict.get key (os_environ w)); auto.
    now apply NoDup_set. }
  apply H. constructor.
Qed.

Lemma existsb_eqb_In k (l : list string) :
  existsb (String.eqb k) l = true <-> In k l.
Proof.
  rewrite existsb_exists. split.
  - intros (x & Hx & E). apply String.eqb_eq in E. now subst.
  - intros H. exists k. split; auto. apply String.eqb_refl.
Qed.

(** C6: the overlays are applied in the order instance, render job,
    allow-list of the host application, the later one winning: a key of
    the allow-list that the process environment defines comes out with
    the value of the process, whatever the instance gave it; and in
    general a key comes out with the value of the last overlay that
    holds it. *)
Theorem environment_overlay_order
  (w : World) (self : Plugin) (instance : Instance) (k : string) :
  (forall v v0,
      In k (env_keys self) ->
      PyDict.get k (os_environ w) = Some v ->
      PyDict.get k (get_instance_job_envs w instance) = Some v0 ->
      PyDict.get k (job_environment w self instance) = Some v)
  /\ (NoDup (PyDict.keys (get_ayon_render_job_envs w)) ->
      PyDict.get k (job_environment w self instance)
      = match PyDict.get k (nuke_specific_env w self) with
        | Some v => Some v
        | None =>
            match PyDict.get k (get_ayon_render_job_envs w) with
            | Some v => Some v
            | None => PyDict.get k (get_instance_job_envs w instance)
            end
        end).
Proof.
  assert (Hn : forall d,
             PyDict.get k (PyDict.update d (nuke_specific_env w self))
             = match PyDict.get k (nuke_specific_env w self) with
               | Some v => Some v
               | None => PyDict.get k d
               end).
  { intros d. rewrite get_update.
    now rewrite (last_binding_get k _ (nuke_specific_env_NoDup w self)). }
  split.
  - intros v v0 Hk Hos _. unfold job_environment. rewrite Hn.
    rewrite nuke_specific_env_get.
    apply existsb_eqb_In in Hk. now rewrite Hk, Hos.
  - intros Hnd. unfold job_environment. rewrite Hn.
    destruct (PyDict.get k (nuke_specific_env w self)); auto.
    rewrite get_update. now rewrite (last_binding_get k _ Hnd).
Qed.

(** C6 at the sample data: [OCIO] is in the instance environment and in
    the process environment, and the job gets the value of the process. *)
Lemma environment_overlay_order_witness :
  PyDict.get "OCIO"
    (get_instance_job_envs (Sample.world (fun _ => None) [])
       (Sample.instance "/renders/render.####.exr" "farm" false [] []))
  = Some "/instance.ocio"
  /\ PyDict.get "OCIO"
       (job_environment (Sample.world (fun _ => None) []) (Sample.plugin [])
          (Sample.instance "/renders/render.####.exr" "farm" false [] []))
     = Some "/studio/config.ocio"
  /\ PyDict.get "AYON_BUNDLE_NAME"
       (job_environment (Sample.world (fun _ => None) []) (Sample.plugin [])
          (Sample.instance "/renders/render.####.exr" "farm" false [] []))
     = Some "prod".
Proof.
  split; [reflexivity|]. split.
  - apply (proj1 (environment_overlay_order
                    (Sample.world (fun _ => None) []) (Sample.plugin [])
                    (Sample.instance "/renders/render.####.exr" "farm"
                                     false [] [])
                    "OCIO") "/studio/config.ocio" "/instance.ocio").
    + simpl. tauto.
    + reflexivity.
    + reflexivity.
  - rewrite (proj2 (environment_overlay_order
                      (Sample.world (fun _ => None) []) (Sample.plugin [])
                      (Sample.instance "/renders/render.####.exr" "farm"
                                       false [] [])
                      "AYON_BUNDLE_NAME")).
    + reflexivity.
    + repeat constructor; simpl; intuition discriminate.
Defined.

(** ** Strings: characters, replacement, splitting *)

Section StringFacts.
Local Open Scope string_scope.

Lemma str_app_assoc (a b c : string) : (a ++ b) ++ c = a ++ (b ++ c).
Proof. induction a as [|x a IH]; simpl; congruence. Qed.

Lemma str_app_nil_r (a : string) : a ++ EmptyString = a.
Proof. induction a as [|x a IH]; simpl; congruence. Qed.

Lemma str_length_app (a b : string) :
  String.length (a ++ b) = (String.length a + String.length b)%nat.
Proof. induction a as [|x a IH]; simpl; congruence. Qed.

Lemma prefix_char (c x : ascii) (s : string) :
  prefix (String c EmptyString) (String x s) = Ascii.eqb x c.
Proof.
  simpl. destruct (ascii_dec c x) as [<- | Hne].
  - rewrite Ascii.eqb_refl. now destruct s.
  - symmetry. apply Ascii.eqb_neq. congruence.
Qed.

Lemma contains_char (c : ascii) (s : string) :
  PyStr.contains (String c EmptyString) s = PyStr.has_char c s.
Proof.
  induction s as [|x s IH]; [reflexivity|].
  cbn [PyStr.contains PyStr.has_char]. now rewrite prefix_char, IH.
Qed.

Lemma has_char_app (c : ascii) (a b : string) :
  PyStr.has_char c (a ++ b) = PyStr.has_char c a || PyStr.has_char c b.
Proof.
  induction a as [|x a IH]; simpl; auto.
  rewrite IH. now rewrite orb_assoc.
Qed.

Lemma has_char_repeat (c : ascii) (n : nat) :
  PyStr.has_char c (PyStr.repeat_char c (S n)) = true.
Proof. simpl. now rewrite Ascii.eqb_refl. Qed.

(** After [replace("\\", "/")] no backslash is left. *)
Lemma replace_backslash_clean (s : string) :
  PyStr.contains backslash (PyStr.replace backslash "/" s) = false.
Proof.
  unfold backslash. rewrite contains_char.
  unfold PyStr.replace.
  induction s as [|x s IH]; [reflexivity|].
  cbn [PyStr.replace_go]. rewrite prefix_char.
  destruct (Ascii.eqb x (ascii_of_nat 92)) eqn:E.
  - cbn [String.length Nat.sub]. simpl PyStr.has_char. exact IH.
  - cbn [PyStr.has_char]. now rewrite E, IH.
Qed.

(** *** Splitting at the hashes *)

Lemma split_no_sep (sep : ascii) (s : string) :
  PyStr.has_char sep s = false -> PyStr.split sep s = [s].
Proof.
  induction s as [|x s IH]; [reflexivity|].
  cbn [PyStr.has_char PyStr.split]. intros H.
  apply orb_false_iff in H. destruct H as [Hx Hs].
  now rewrite Hx, (IH Hs).
Qed.

Lemma split_at_sep (sep : ascii) (pre rest : string) :
  PyStr.has_char sep pre = false ->
  PyStr.split sep (pre ++ String sep rest) = pre :: PyStr.split sep rest.
Proof.
  induction pre as [|x pre IH]; intros H.
  - simpl. now rewrite Ascii.eqb_refl.
  - cbn [PyStr.has_char] in H. apply orb_false_iff in H.
    destruct H as [Hx Hp].
    cbn [append PyStr.split]. now rewrite Hx, (IH Hp).
Qed.

Lemma split_run (sep : ascii) (n : nat) (suf : string) :
  PyStr.has_char sep suf = false ->
  PyStr.split sep (PyStr.repeat_char sep n ++ suf)
  = (List.repeat EmptyString n ++ [suf])%list.
Proof.
  intros H. induction n as [|n IH]; simpl.
  - now apply split_no_sep.
  - now rewrite Ascii.eqb_refl, IH.
Qed.

(** A name with one run of hashes splits into the text before the run,
    one empty part for each hash but the first, and the text after. *)
Lemma split_one_run (sep : ascii) (pre suf : string) (n : nat) :
  PyStr.has_char sep pre = false ->
  PyStr.has_char sep suf = false ->
  PyStr.split sep (pre ++ PyStr.repeat_char sep (S n) ++ suf)
  = (pre :: List.repeat EmptyString n ++ [suf])%list.
Proof.
  intros Hp Hs. cbn [PyStr.repeat_char append].
  now rewrite (split_at_sep _ _ _ Hp), (split_run _ _ _ Hs).
Qed.

End StringFacts.

(** ** The [%] operator on a zero-padded placeholder *)

Section PercentFacts.
Local Open Scope string_scope.

Lemma percent_go_literal (z : Z) (used : bool) (pre rest : string) :
  PyStr.has_char "%" pre = false ->
  PyStr.percent_go z used 0 (pre ++ rest)
  = (tail <- PyStr.percent_go z used 0 rest ;; Ok (pre ++ tail)).
Proof.
  induction pre as [|x pre IH]; intros H.
  - simpl. now destruct (PyStr.percent_go z used 0 rest).
  - cbn [PyStr.has_char] in H. apply orb_false_iff in H.
    destruct H as [Hx Hp].
    cbn [append PyStr.percent_go]. rewrite Hx, (IH Hp).
    now destruct (PyStr.percent_go z used 0 rest).
Qed.

Lemma percent_go_skip (z : Z) (used : bool) (a rest : string) :
  PyStr.percent_go z used (String.length a) (a ++ rest)
  = PyStr.percent_go z used 0 rest.
Proof. induction a as [|x a IH]; simpl; auto. Qed.

Lemma percent_go_plain (z : Z) (s : string) :
  PyStr.has_char "%" s = false -> PyStr.percent_go z true 0 s = Ok s.
Proof.
  intros H. rewrite <- (str_app_nil_r s) at 1.
  rewrite (percent_go_literal z true s EmptyString H). simpl.
  now rewrite str_app_nil_r.
Qed.

Lemma read_uint_digits (d : uint) (c : ascii) (rest : string) :
  PyStr.digit_of_char c = None ->
  PyStr.read_uint (NilEmpty.string_of_uint d ++ String c rest)
  = (d, String c rest).
Proof.
  intros H. induction d; simpl; rewrite ?IHd; try reflexivity.
  now rewrite H.
Qed.

Lemma read_uint_of_nat (n : nat) (c : ascii) (rest : string) :
  PyStr.digit_of_char c = None ->
  exists u,
    PyStr.read_uint (PyStr.of_nat n ++ String c rest) = (u, String c rest)
    /\ Nat.of_uint u = n.
Proof.
  intros H. unfold PyStr.of_nat.
  pose proof (Unsigned.of_to n) as Hn.
  destruct (Nat.to_uint n) as [|d|d|d|d|d|d|d|d|d|d] eqn:E.
  - exists (D0 Nil). simpl. rewrite H. split; [reflexivity|].
    now rewrite <- Hn.
  - exists (D0 d). split; [|exact Hn].
    apply (read_uint_digits (D0 d) c rest H).
  - exists (D1 d). split; [|exact Hn].
    apply (read_uint_digits (D1 d) c rest H).
  - exists (D2 d). split; [|exact Hn].
    apply (read_uint_digits (D2 d) c rest H).
  - exists (D3 d). split; [|exact Hn].
    apply (read_uint_digits (D3 d) c rest H).
  - exists (D4 d). split; [|exact Hn].
    apply (read_uint_digits (D4 d) c rest H).
  - exists (D5 d). split; [|exact Hn].
    apply (read_uint_digits (D5 d) c rest H).
  - exists (D6 d). split; [|exact Hn].
    apply (read_uint_digits (D6 d) c rest H).
  - exists (D7 d). split; [|exact Hn].
    apply (read_uint_digits (D7 d) c rest H).
  - exists (D8 d). split; [|exact Hn].
    apply (read_uint_digits (D8 d) c rest H).
  - exists (D9 d). split; [|exact Hn].
    apply (read_uint_digits (D9 d) c rest H).
Qed.

Lemma conversion_zero_padded (z : Z) (n : nat) (suf : string) :
  PyStr.conversion z (String "0" (PyStr.of_nat n ++ String "d" suf))
  = Ok (PyStr.format_int true n z, true,
        S (S (String.length (PyStr.of_nat n)))).
Proof.
  destruct (read_uint_of_nat n "d" suf eq_refl) as (u & Hu & Hn).
  unfold PyStr.conversion.
  cbn [PyStr.read_uint PyStr.digit_of_char]. rewrite Hu.
  cbn [Ascii.eqb Bool.eqb orb PyStr.leading_zero].
  replace (Nat.of_uint (D0 u)) with n by (now rewrite <- Hn).
  do 3 f_equal.
  cbn [String.length]. rewrite str_length_app. cbn [String.length]. lia.
Qed.

(** [(pre + "%0Nd" + suf) % z]: the texts around the placeholder are
    kept and the number is written in at least [N] digits. *)
Lemma percent_zero_padded (z : Z) (pre suf : string) (n : nat) :
  PyStr.has_char "%" pre = false ->
  PyStr.has_char "%" suf = false ->
  PyStr.percent (pre ++ "%0" ++ PyStr.of_nat n ++ "d" ++ suf) z
  = Ok (pre ++ PyStr.format_int true n z ++ suf).
Proof.
  intros Hp Hs. unfold PyStr.percent.
  rewrite (percent_go_literal z false pre _ Hp).
  cbn [append PyStr.percent_go Ascii.eqb Bool.eqb].
  rewrite conversion_zero_padded. cbn [bind andb orb].
  replace (PyStr.of_nat n ++ String "d" suf)
    with ((PyStr.of_nat n ++ "d") ++ suf)
    by now rewrite str_app_assoc.
  replace (S (String.length (PyStr.of_nat n)))
    with (String.length (PyStr.of_nat n ++ "d"))
    by (rewrite str_length_app; simpl; lia).
  rewrite percent_go_skip, (percent_go_plain z suf Hs).
  reflexivity.
Qed.

End PercentFacts.

(** ** Expected files *)




Lemma append_sequence_ok (dirname file : string) (frames : list Z)
  (expected : list string) :
  (forall i, exists name, PyStr.percent file i = Ok name) ->
  append_sequence dirname file frames expected
  = Ok (expected ++ map (frame_path dirname file) frames).
Proof.
  intros H. revert expected.
  induction frames as [|i frames IH]; intros expected; simpl.
  - now rewrite app_nil_r.
  - destruct (H i) as [name Hname]. rewrite Hname. simpl.
    rewrite IH, <- app_assoc. unfold frame_path at 2, frame_name.
    now rewrite Hname.
Qed.

(** The resolver on a pattern with a placeholder, past its two early
    returns. *)
Lemma _expected_files_sequence (instance : Instance) (filepath : string)
  (start_frame end_frame : Z) :
  String.eqb (render_target (inputs instance)) "frames_farm" = false ->
  published_on_farm (PosixPath.basename filepath)
    (representations (inputs instance)) = false ->
  PyStr.contains "%" (hash_padding (PosixPath.basename filepath)) = true ->
  (forall i, exists name,
      PyStr.percent (hash_padding (PosixPath.basename filepath)) i
      = Ok name) ->
  _expected_files instance filepath start_frame end_frame
  = Ok (set_expectedFiles
          (expectedFiles instance
           ++ map (frame_path (PosixPath.dirname filepath)
                     (hash_padding (PosixPath.basename filepath)))
                  (range (first_frame instance start_frame)
                         (end_frame + 1)))
          instance).
Proof.
  intros Ht Hp Hc Hf. unfold _expected_files.
  rewrite Ht, Hp, Hc. cbn [negb].
  now rewrite (append_sequence_ok _ _ _ _ Hf).
Qed.

(** The two early returns of the resolver: nothing is added for the
    render target [frames_farm], nor for a file that a representation
    published on the farm already holds. *)
Lemma _expected_files_frames_farm (instance : Instance) (filepath : string)
  (start_frame end_frame : Z) :
  String.eqb (render_target (inputs instance)) "frames_farm" = true ->
  _expected_files instance filepath start_frame end_frame = Ok instance.
Proof. unfold _expected_files. now intros ->. Qed.

Lemma _expected_files_published (instance : Instance) (filepath : string)
  (start_frame end_frame : Z) :
  published_on_farm (PosixPath.basename filepath)
    (representations (inputs instance)) = true ->
  _expected_files instance filepath start_frame end_frame = Ok instance.
Proof.
  unfold _expected_files. intros ->.
  now destruct (String.eqb _ "frames_farm").
Qed.





(** The same instance, evaluated: the slate frame comes first and the
    end frame last. *)
Example sequence_with_slate :
  _expected_files
    (Sample.instance "/renders/render.%04d.exr" "farm" true [] [])
    "/renders/render.%04d.exr" 1001 1005
  = Ok (set_expectedFiles
          ["/renders/render.1000.exr"; "/renders/render.1001.exr";
           "/renders/render.1002.exr"; "/renders/render.1003.exr";
           "/renders/render.1004.exr"; "/renders/render.1005.exr"]
          (Sample.instance "/renders/render.%04d.exr" "farm" true [] [])).
Proof. reflexivity. Qed.

(** ** Hashed sequence expressions *)

(** C4, as amended: when all the hashes of the base name stand in one
    run, the run becomes [%0Nd] with [N] the length of the run and the
    texts before and after stay; the resolver then appends, for every
    frame, the path with the frame number written in at least [N]
    digits. *)
Theorem hash_run_padding (instance : Instance) (filepath : string)
  (start_frame end_frame : Z) (pre suf : string) (n : nat) :
  PosixPath.basename filepath
  = (pre ++ PyStr.repeat_char "#" n ++ suf)%string ->
  (1 <= n)%nat ->
  PyStr.has_char "#" pre = false ->
  PyStr.has_char "#" suf = false ->
  hash_padding (PosixPath.basename filepath)
  = (pre ++ "%0" ++ PyStr.of_nat n ++ "d" ++ suf)%string
  /\ (PyStr.has_char "%" pre = false ->
      PyStr.has_char "%" suf = false ->
      String.eqb (render_target (inputs instance)) "frames_farm" = false ->
      published_on_farm (PosixPath.basename filepath)
        (representations (inputs instance)) = false ->
      _expected_files instance filepath start_frame end_frame
      = Ok (set_expectedFiles
              (expectedFiles instance
               ++ map (fun i =>
                         PyStr.replace backslash "/"
                           (PosixPath.join (PosixPath.dirname filepath)
                              (pre ++ PyStr.format_int true n i ++ suf)))
                      (range (first_frame instance start_frame)
                             (end_frame + 1)))
              instance)).
Proof.
  intros Hbase Hn Hpre Hsuf.
  destruct n as [|m]; [lia|].
  assert (Hpad : hash_padding (PosixPath.basename filepath)
                 = (pre ++ "%0" ++ PyStr.of_nat (S m) ++ "d" ++ suf)%string).
  { unfold hash_padding. rewrite Hbase.
    rewrite contains_char, !has_char_app, has_char_repeat.
    rewrite orb_true_r. cbn [orb].
    rewrite (split_one_run "#" pre suf m Hpre Hsuf).
    cbn [List.hd List.length]. rewrite length_app, repeat_length.
    cbn [List.length]. rewrite last_cons, last_last.
    replace (S (m + 1) - 1)%nat with (S m) by lia.
    now rewrite !str_app_assoc. }
  split; [exact Hpad|].
  intros Hpre' Hsuf' Ht Hp.
  assert (Hfmt : forall i,
             PyStr.percent (hash_padding (PosixPath.basename filepath)) i
             = Ok (pre ++ PyStr.format_int true (S m) i ++ suf)%string).
  { intros i. rewrite Hpad. now apply percent_zero_padded. }
  rewrite _expected_files_sequence; auto.
  - do 3 f_equal. apply map_ext. intros i.
    unfold frame_path, frame_name. now rewrite Hfmt.
  - rewrite Hpad, contains_char, !has_char_app. simpl.
    now rewrite orb_true_r.
  - intros i. eexists. apply Hfmt.
Qed.

(** C4 at the sample data: [render.####.exr] over the frames 1001 to 1005
    gives the five paths [render.1001.exr] to [render.1005.exr]. *)
Lemma hash_run_padding_witness :
  hash_padding (PosixPath.basename "/renders/render.####.exr")
  = "render.%04d.exr"
  /\ _expected_files
       (Sample.instance "/renders/render.####.exr" "farm" false [] [])
       "/renders/render.####.exr" 1001 1005
     = Ok (set_expectedFiles
             ["/renders/render.1001.exr"; "/renders/render.1002.exr";
              "/renders/render.1003.exr"; "/renders/render.1004.exr";
              "/renders/render.1005.exr"]
             (Sample.instance "/renders/render.####.exr" "farm" false
                              [] [])).
Proof.
  destruct (hash_run_padding
              (Sample.instance "/renders/render.####.exr" "farm" false
                               [] [])
              "/renders/render.####.exr" 1001 1005 "render." ".exr" 4
              eq_refl (le_S _ _ (le_S _ _ (le_S _ _ (le_n 1))))
              eq_refl eq_refl)
    as [Hpad Hfiles].
  split; [exact Hpad|].
  exact (Hfiles eq_refl eq_refl eq_refl eq_refl).
Defined.

(** C4 as written fails on a base name with two runs of hashes: the width
    is the number of all the hashes, which is the length of neither run,
    and the text between the runs is lost. *)
Lemma two_hash_runs_are_merged :
  PosixPath.basename "/renders/shot#_v##.exr" = "shot#_v##.exr"
  /\ hash_padding "shot#_v##.exr" = "shot%03d.exr"
  /\ hash_padding "shot#_v##.exr" <> "shot%01d_v##.exr"
  /\ hash_padding "shot#_v##.exr" <> "shot#_v%02d.exr"
  /\ hash_padding "shot#_v##.exr" <> "shot%01d_v%02d.exr"
  /\ _expected_files
       (Sample.instance "/renders/shot#_v##.exr" "farm" false [] [])
       "/renders/shot#_v##.exr" 7 8
     = Ok (set_expectedFiles
             ["/renders/shot007.exr"; "/renders/shot008.exr"]
             (Sample.instance "/renders/shot#_v##.exr" "farm" false [] []))
  /\ ~ (forall pre suf n,
           (1 <= n)%nat ->
           hash_padding (pre ++ PyStr.repeat_char "#" n ++ suf)
           = (pre ++ "%0" ++ PyStr.of_nat n ++ "d" ++ suf)%string).
Proof.
  repeat split; try discriminate.
  intros H. specialize (H "shot" "_v##.exr" 1%nat (le_n 1)).
  discriminate H.
Qed.

(** ** Expected files over the calls of one publish *)

Lemma set_expectedFiles_same (instance : Instance) :
  set_expectedFiles (expectedFiles instance ++ []) instance = instance.
Proof. destruct instance. unfold set_expectedFiles. simpl.
       now rewrite app_nil_r. Qed.

Lemma append_sequence_acc (dirname file : string) (frames : list Z)
  (expected : list string) :
  append_sequence dirname file frames expected
  = (names <- append_sequence dirname file frames [] ;;
     Ok (expected ++ names)).
Proof.
  revert expected.
  induction frames as [|i frames IH]; intros expected; simpl.
  - now rewrite app_nil_r.
  - destruct (PyStr.percent file i) as [name|e]; simpl; auto.
    rewrite (IH (expected ++ _)), (IH [_]).
    destruct (append_sequence dirname file frames []); simpl; auto.
    now rewrite <- app_assoc.
Qed.

Lemma _expected_files_resolved (instance : Instance) (filepath : string)
  (start_frame end_frame : Z) :
  _expected_files instance filepath start_frame end_frame
  = (names <- resolved_names (inputs instance) filepath
                start_frame end_frame ;;
     Ok (set_expectedFiles (expectedFiles instance ++ names) instance)).
Proof.
  unfold _expected_files, resolved_names.
  destruct (String.eqb _ "frames_farm").
  { simpl. now rewrite set_expectedFiles_same. }
  destruct (published_on_farm _ _).
  { simpl. now rewrite set_expectedFiles_same. }
  destruct (negb _); [reflexivity|].
  rewrite append_sequence_acc.
  now destruct (append_sequence _ _ _ []).
Qed.

(** What one instance resolves, another with the same inputs resolves
    too. *)
Lemma _expected_files_transfer (instance other : Instance)
  (filepath : string) (start_frame end_frame : Z) (names : list string) :
  _expected_files instance filepath start_frame end_frame
  = Ok (set_expectedFiles (expectedFiles instance ++ names) instance) ->
  inputs other = inputs instance ->
  _expected_files other filepath start_frame end_frame
  = Ok (set_expectedFiles (expectedFiles other ++ names) other).
Proof.
  rewrite !_expected_files_resolved. intros H Hin. rewrite Hin.
  destruct (resolved_names _ _ _ _) as [names0|e]; [|discriminate].
  simpl in *. injection H as H.
  apply app_inv_head in H. now subst.
Qed.

Lemma link_steps (r : value) :
  response_ok r = true ->
  exists id,
    method_get r "_id" = Ok id
    /\ (truthy id = true ->
        exists props batch,
          subscript r "Props" = Ok props
          /\ subscript props "Batch" = Ok batch
          /\ subscript r "_id" = Ok id).
Proof.
  destruct r as [| | | | |d]; try discriminate. simpl.
  unfold dict_get.
  destruct (PyDict.get "_id" d) as [id|] eqn:Hid; [|discriminate].
  intros H. exists id. split; [reflexivity|]. intros Ht.
  rewrite Ht in H.
  destruct (PyDict.get "Props" d) as [[| | | | |props]|]; try discriminate.
  unfold PyDict.mem in H.
  destruct (PyDict.get "Batch" props) as [batch|] eqn:Hb; [|discriminate].
  exists (VDict props), batch. simpl. now rewrite Hb.
Qed.

Lemma response_ok_normal (r : value) :
  response_ok r = true -> normal_response r = r.
Proof.
  destruct r as [| | | | |d]; try discriminate.
  destruct d; [discriminate | reflexivity].
Qed.

Lemma build_payload_ok (w : World) (self : Plugin) (instance : Instance)
  (script_path : value) (render_path exe_node_name : string)
  (start_frame end_frame : Z) (response_data : value)
  (baking_submission : bool) :
  response_data = VNone \/ response_ok response_data = true ->
  exists payload,
    build_payload w self instance script_path render_path exe_node_name
      start_frame end_frame response_data baking_submission = Ok payload.
Proof.
  intros [-> | Hr]; unfold build_payload.
  - simpl. eexists. reflexivity.
  - rewrite (response_ok_normal _ Hr).
    destruct (link_steps _ Hr) as (id & Hid & Hlink). rewrite Hid.
    cbn [bind]. destruct (truthy id) eqn:Ht.
    + destruct (Hlink eq_refl) as (props & batch & Hp & Hb & Hi).
      rewrite Hp. cbn [bind]. rewrite Hb. cbn [bind]. rewrite Hi.
      cbn [bind]. eexists. reflexivity.
    + cbn [bind]. eexists. reflexivity.
Qed.

Lemma get_plugin_info_ok (self : Plugin) (instance : Instance)
  (scene_path : value) (render_path write_node_name : string) :
  PyDict.mem "use_gpu" (get_attr_values_from_data self instance) = true ->
  exists plugin_info,
    get_plugin_info self instance scene_path render_path write_node_name
    = Ok plugin_info.
Proof.
  unfold get_plugin_info, subscript, PyDict.mem. intros H.
  destruct (PyDict.get "use_gpu" _); [|discriminate].
  simpl. eexists. reflexivity.
Qed.

Lemma bake_step_ok (self : Plugin) (start_frame end_frame : Z)
  (job_info : DeadlineJobInfo) (instance : Instance)
  (submissions : list (DeadlineJobInfo * NukePluginInfo))
  (baking_script : BakingScript) :
  (forall i,
      PyDict.mem "use_gpu" (get_attr_values_from_data self i) = true) ->
  stored_response_ok (deadlineSubmissionJob instance) = true ->
  exists job_info' instance' submissions',
    bake_step self start_frame end_frame
      (job_info, instance, submissions) baking_script
    = Ok (job_info', instance', submissions')
    /\ same_core instance' instance.
Proof.
  intros Hgpu Hstored. unfold bake_step.
  assert (Hlinked :
            exists linked,
              (job_id <-
                 method_get
                   match deadlineSubmissionJob instance with
                   | Some v => v
                   | None => VDict []
                   end "_id" ;;
               (if truthy job_id then
                  props <-
                    subscript
                      match deadlineSubmissionJob instance with
                      | Some v => v
                      | None => VDict []
                      end "Props" ;;
                  batch <- subscript props "Batch" ;;
                  id <-
                    subscript
                      match deadlineSubmissionJob instance with
                      | Some v => v
                      | None => VDict []
                      end "_id" ;;
                  Ok (batch, ji_JobDependencies job_info ++ [id])
                else Ok (ji_BatchName job_info,
                         ji_JobDependencies job_info)))
              = Ok linked).
  { destruct (deadlineSubmissionJob instance) as [r|].
    - destruct (link_steps _ Hstored) as (id & Hid & Hlink). rewrite Hid.
      cbn [bind]. destruct (truthy id) eqn:Ht.
      + destruct (Hlink eq_refl) as (props & batch & Hp & Hb & Hi).
        rewrite Hp. cbn [bind]. rewrite Hb. cbn [bind]. rewrite Hi.
        eexists. reflexivity.
      + eexists. reflexivity.
    - simpl. eexists. reflexivity. }
  destruct Hlinked as [linked Hlinked].
  destruct (method_get _ "_id") as [job_id|e]; [|discriminate Hlinked].
  cbn [bind] in *. rewrite Hlinked. cbn [bind].
  destruct (get_plugin_info_ok self instance
              (bakeScriptPath baking_script)
              (bakeRenderPath baking_script)
              (bakeWriteNodeName baking_script) (Hgpu instance))
    as [plugin_info Hpi].
  rewrite Hpi. cbn [bind].
  do 3 eexists. split; [reflexivity|].
  repeat split.
Qed.

Lemma bake_loop_ok (self : Plugin) (start_frame end_frame : Z)
  (scripts : list BakingScript) (job_info : DeadlineJobInfo)
  (instance : Instance)
  (submissions : list (DeadlineJobInfo * NukePluginInfo)) :
  (forall i,
      PyDict.mem "use_gpu" (get_attr_values_from_data self i) = true) ->
  stored_response_ok (deadlineSubmissionJob instance) = true ->
  exists job_info' instance' submissions',
    bake_loop self start_frame end_frame
      (job_info, instance, submissions) scripts
    = Ok (job_info', instance', submissions')
    /\ same_core instance' instance.
Proof.
  intros Hgpu. revert job_info instance submissions.
  induction scripts as [|b scripts IH];
    intros job_info instance submissions Hstored.
  - do 3 eexists. split; [reflexivity|]. repeat split.
  - cbn [bake_loop].
    destruct (bake_step_ok self start_frame end_frame job_info instance
                submissions b Hgpu Hstored)
      as (j1 & i1 & s1 & Hstep & Hi & He & Hd).
    rewrite Hstep. cbn [bind].
    assert (Hstored1 : stored_response_ok (deadlineSubmissionJob i1) = true)
      by now rewrite Hd.
    destruct (IH j1 i1 s1 Hstored1) as (j2 & i2 & s2 & Hloop & Hi2 & He2 & Hd2).
    exists j2, i2, s2. split; [exact Hloop|].
    repeat split; congruence.
Qed.

Lemma ensure_render_folder_ok (w : World) (render_dir : string) :
  makedirs_ok w render_dir = true ->
  ensure_render_folder w render_dir = Ok tt.
Proof.
  unfold makedirs_ok, ensure_render_folder.
  destruct (makedirs w render_dir); [now intros ->|reflexivity].
Qed.

(** One call of [payload_submit]: whatever path and frames the caller
    passes, the instance comes back with the names of its own render
    path after its expected files. *)
Lemma payload_submit_ok (w : World) (self : Plugin) (instance : Instance)
  (script_path : value) (render_path exe_node_name : string)
  (start_frame end_frame : Z) (response_data : value)
  (baking_submission : bool) (names : list string) :
  (forall d, makedirs_ok w d = true) ->
  (forall i,
      PyDict.mem "use_gpu" (get_attr_values_from_data self i) = true) ->
  stored_response_ok (deadlineSubmissionJob instance) = true ->
  response_data = VNone \/ response_ok response_data = true ->
  _expected_files instance (path (inputs instance))
    (frameStartHandle (inputs instance)) (frameEndHandle (inputs instance))
  = Ok (set_expectedFiles (expectedFiles instance ++ names) instance) ->
  exists out,
    payload_submit w self instance script_path render_path exe_node_name
      start_frame end_frame response_data baking_submission = Ok out
    /\ inputs (ps_instance out) = inputs instance
    /\ expectedFiles (ps_instance out) = expectedFiles instance ++ names
    /\ deadlineSubmissionJob (ps_instance out)
       = deadlineSubmissionJob instance.
Proof.
  intros Hmk Hgpu Hstored Hresp Hfiles. unfold payload_submit.
  rewrite (ensure_render_folder_ok _ _ (Hmk _)). cbn [bind].
  destruct (build_payload_ok w self instance script_path render_path
              exe_node_name start_frame end_frame response_data
              baking_submission Hresp) as [payload Hpayload].
  rewrite Hpayload. cbn [bind]. rewrite Hfiles. cbn [bind].
  set (instance1 :=
         set_expectedFiles (expectedFiles instance ++ names) instance).
  cbn [inputs set_expectedFiles] in *.
  match goal with
  | |- context [get_plugin_info self instance1 ?sp ?rp ?wn] =>
      destruct (get_plugin_info_ok self instance1 sp rp wn (Hgpu _))
        as [plugin_info Hpi]; rewrite Hpi
  end.
  cbn [bind].
  match goal with
  | |- context [bake_loop self ?s ?e (?j, fst ?m, snd ?m) ?scripts] =>
      assert (Hmain : same_core (fst m) instance1)
        by (destruct (negb _); repeat split);
      destruct (bake_loop_ok self s e scripts j (fst m) (snd m) Hgpu)
        as (j' & i' & s' & Hloop & Hcore);
        [destruct Hmain as (_ & _ & ->); exact Hstored|];
      rewrite Hloop
  end.
  cbn [bind]. eexists. split; [reflexivity|]. cbn [ps_instance].
  destruct Hcore as (Hi & He & Hd), Hmain as (Hi' & He' & Hd').
  assert (H1 : inputs instance1 = inputs instance) by reflexivity.
  assert (H2 : expectedFiles instance1 = expectedFiles instance ++ names)
    by reflexivity.
  assert (H3 : deadlineSubmissionJob instance1
               = deadlineSubmissionJob instance) by reflexivity.
  repeat split; congruence.
Qed.

Lemma redefine_families_expectedFiles (instance : Instance) :
  expectedFiles (redefine_families instance) = expectedFiles instance.
Proof.
  unfold redefine_families.
  destruct (PyStr.contains "render" _); [reflexivity|].
  now destruct (PyStr.contains "prerender" _).
Qed.

(** C9 at a failing input: the publish of [/renders/render.####.exr] over
    the frames 1001 to 1005 with one baking script.  The call of
    [payload_submit] for the main job appends the five names of the main
    render, from the path and the frames of the instance.  The method has
    no [return] statement, so the call evaluates to [None] and [process]
    raises an [AttributeError] at [r_job_response.json()]: the call for
    the baking script is never made and the list holds the sequence once.
    That call, made by hand on the instance as the first one left it,
    with the path of the movie and other frames, appends the same five
    names again: the two copies ([N + 1] for [N = 1]) of the claim. *)
Theorem expected_files_appended_once_by_a_publish :
  let w := Sample.world (fun _ => None) [] in
  let self := Sample.plugin [] in
  let instance :=
    Sample.instance "/renders/render.####.exr" "farm" false []
                    [Sample.bake] in
  let names :=
    ["/renders/render.1001.exr"; "/renders/render.1002.exr";
     "/renders/render.1003.exr"; "/renders/render.1004.exr";
     "/renders/render.1005.exr"] in
  (exists out,
      payload_submit w self instance (VStr "/proj/sceneA.nk")
        "/renders/render.####.exr" "Write1" 1001 1005 VNone false
      = Ok out
      /\ expectedFiles (ps_instance out) = names
      /\ exists out',
           payload_submit w self (ps_instance out)
             (VStr "/renders/bake.nk") "/renders/bake.mov" "BakeWrite"
             1 1 Sample.response true
           = Ok out'
           /\ expectedFiles (ps_instance out') = repeated names 2)
  /\ process w self (fun _ => "/publish/sceneA.nk") [] instance
     = Raise AttributeError.
Proof.
  cbv zeta. split.
  - eexists. split; [vm_compute; reflexivity|].
    split; [vm_compute; reflexivity|].
    eexists. split; vm_compute; reflexivity.
  - vm_compute. reflexivity.
Qed.

(* ================================================================== *)
(** * Further properties of the plugin *)

(** ** The redefinition of families *)

Lemma contains_prerender_render (s : string) :
  PyStr.contains "prerender" s = true -> PyStr.contains "render" s = true.
Proof.
  rewrite !contains_spec. intros (pre & suf & ->).
  exists (pre ++ "pre")%string, suf.
  now rewrite (str_app_assoc pre "pre" _).
Qed.

(** X1: the redefinition of families at the end of [process] has a branch
    for product types that hold [prerender], but the branch before it
    takes every product type that holds [render]: a prerender instance
    gets [render2d] in front of its families, and [prerender] is never
    put there. *)
Theorem prerender_is_redefined_as_render2d (instance : Instance) :
  (PyStr.contains "prerender" (productType instance) = true ->
   redefine_families instance
   = set_families "write" "write" ("render2d" :: families instance)
                  instance)
  /\ (families (redefine_families instance) = families instance
      \/ families (redefine_families instance)
         = "render2d" :: families instance).
Proof.
  unfold redefine_families. split.
  - intros H. now rewrite (contains_prerender_render _ H).
  - destruct (PyStr.contains "render" (productType instance)) eqn:E.
    + now right.
    + destruct (PyStr.contains "prerender" (productType instance)) eqn:E'.
      * apply contains_prerender_render in E'. congruence.
      * now left.
Qed.

(** X1 at a prerender instance. *)
Lemma prerender_is_redefined_as_render2d_witness :
  families
    (redefine_families
       (set_families "prerender" "prerender" ["prerender"]
          (Sample.instance "/renders/pre.####.exr" "farm" false [] [])))
  = ["render2d"; "prerender"].
Proof.
  rewrite (proj1 (prerender_is_redefined_as_render2d
                    (set_families "prerender" "prerender" ["prerender"]
                       (Sample.instance "/renders/pre.####.exr" "farm"
                                        false [] [])))
                 eq_refl).
  reflexivity.
Defined.

(** ** The resolver of expected files, in general *)

(** X2: whatever the resolver does, it only appends: an instance that
    comes back holds its former expected files, then the new ones, and is
    the same in every other field. *)
Theorem expected_files_only_appends (instance instance' : Instance)
  (filepath : string) (start_frame end_frame : Z) :
  _expected_files instance filepath start_frame end_frame = Ok instance' ->
  exists names,
    instance'
    = set_expectedFiles (expectedFiles instance ++ names) instance.
Proof.
  rewrite _expected_files_resolved.
  destruct (resolved_names _ _ _ _) as [names|e]; [|discriminate].
  simpl. intros [= <-]. now exists names.
Qed.

(** X2 at the sample data. *)
Lemma expected_files_only_appends_witness :
  exists names,
    set_expectedFiles ["/renders/review.mov"]
      (Sample.instance "/renders/review.mov" "farm" false [] [])
    = set_expectedFiles
        (expectedFiles
           (Sample.instance "/renders/review.mov" "farm" false [] [])
         ++ names)
        (Sample.instance "/renders/review.mov" "farm" false [] []).
Proof.
  apply (expected_files_only_appends
           (Sample.instance "/renders/review.mov" "farm" false [] [])
           _ "/renders/review.mov" 1001 1005).
  reflexivity.
Defined.

Lemma range_empty (a b : Z) : (b <= a)%Z -> range a b = [].
Proof.
  intros H. unfold range.
  replace (Z.to_nat (b - a)) with 0%nat by lia. reflexivity.
Qed.

(** X3: when the end frame is before the first frame of the expansion
    (the start frame, one earlier with a slate), a pattern with a
    placeholder adds nothing and raises nothing, even one that [%] could
    not format. *)
Theorem empty_frame_range_adds_nothing (instance : Instance)
  (filepath : string) (start_frame end_frame : Z) :
  PyStr.contains "%" (hash_padding (PosixPath.basename filepath)) = true ->
  (end_frame < first_frame instance start_frame)%Z ->
  _expected_files instance filepath start_frame end_frame = Ok instance.
Proof.
  intros Hc Hlt. rewrite _expected_files_resolved.
  unfold resolved_names, first_frame in *.
  destruct (String.eqb _ "frames_farm");
    [simpl; now rewrite set_expectedFiles_same|].
  destruct (published_on_farm _ _);
    [simpl; now rewrite set_expectedFiles_same|].
  rewrite Hc. cbn [negb].
  rewrite range_empty by lia. simpl.
  now rewrite set_expectedFiles_same.
Qed.

(** X3 at a pattern with two placeholders, which [%] refuses for any
    frame: over the frames 10 to 5 the resolver returns the instance. *)
Lemma empty_frame_range_adds_nothing_witness :
  PyStr.percent "a.%d.%d.exr" 10 = Raise TypeError
  /\ _expected_files
       (Sample.instance "/renders/a.%d.%d.exr" "farm" true [] [])
       "/renders/a.%d.%d.exr" 10 5
     = Ok (Sample.instance "/renders/a.%d.%d.exr" "farm" true [] []).
Proof.
  split; [reflexivity|].
  apply (empty_frame_range_adds_nothing
           (Sample.instance "/renders/a.%d.%d.exr" "farm" true [] [])
           "/renders/a.%d.%d.exr" 10 5).
  - reflexivity.
  - reflexivity.
Defined.

(** ** The hashed expression, in general *)

Lemma split_nonempty (sep : ascii) (s : string) : PyStr.split sep s <> [].
Proof.
  destruct s as [|x s]; simpl; [discriminate|].
  destruct (Ascii.eqb x sep); [discriminate|].
  destruct (PyStr.split sep s); discriminate.
Qed.

Lemma split_length (sep : ascii) (s : string) :
  List.length (PyStr.split sep s) = S (count_char sep s).
Proof.
  induction s as [|x s IH]; [reflexivity|].
  cbn [PyStr.split count_char].
  destruct (Ascii.eqb x sep); simpl; [now rewrite IH|].
  destruct (PyStr.split sep s) eqn:E; [now apply split_nonempty in E|].
  exact IH.
Qed.

Lemma split_hd (sep : ascii) (s d : string) :
  List.hd d (PyStr.split sep s) = before_first sep s.
Proof.
  revert d. induction s as [|x s IH]; intros d; [reflexivity|].
  cbn [PyStr.split before_first].
  destruct (Ascii.eqb x sep); [reflexivity|].
  specialize (IH d).
  destruct (PyStr.split sep s) eqn:E; [now apply split_nonempty in E|].
  simpl in *. now rewrite IH.
Qed.

Lemma count_char_has (c : ascii) (s : string) :
  PyStr.has_char c s = negb (Nat.eqb (count_char c s) 0).
Proof.
  induction s as [|x s IH]; [reflexivity|].
  cbn [PyStr.has_char count_char].
  destruct (Ascii.eqb x c); [reflexivity|]. exact IH.
Qed.

Lemma last_indep {A : Type} (l : list A) (a b : A) :
  l <> [] -> List.last l a = List.last l b.
Proof.
  induction l as [|x l IH]; [congruence|]. intros _.
  destruct l as [|y l]; [reflexivity|].
  change (List.last (y :: l) a = List.last (y :: l) b).
  apply IH. discriminate.
Qed.

Lemma split_last_part (sep : ascii) (s d : string) :
  List.last (PyStr.split sep s) d = after_last sep s.
Proof.
  revert d. induction s as [|x s IH]; intros d; [reflexivity|].
  cbn [PyStr.split after_last].
  pose proof (split_length sep s) as Hlen.
  pose proof (count_char_has sep s) as Hhas.
  destruct (Ascii.eqb x sep) eqn:Ex.
  - rewrite last_cons.
    rewrite (last_indep _ EmptyString d) by apply split_nonempty.
    rewrite IH.
    destruct (PyStr.has_char sep s) eqn:Eh; [reflexivity|].
    clear -Eh. induction s as [|y s IH]; [reflexivity|].
    cbn [PyStr.has_char] in Eh. apply orb_false_iff in Eh.
    destruct Eh as [Ey Es]. cbn [after_last]. now rewrite Es, Ey.
  - destruct (PyStr.split sep s) as [|p ps] eqn:E;
      [now apply split_nonempty in E|].
    rewrite last_cons.
    destruct (PyStr.has_char sep s) eqn:Eh.
    + destruct ps as [|q ps].
      * simpl in Hlen. injection Hlen as Hlen. rewrite <- Hlen in Hhas.
        discriminate.
      * rewrite <- (IH d), (last_cons p d (q :: ps)).
        apply last_indep. discriminate.
    + destruct ps as [|q ps].
      * simpl. f_equal.
        assert (Hs : PyStr.split sep s = [s]) by now apply split_no_sep.
        congruence.
      * simpl in Hlen. injection Hlen as Hlen. rewrite <- Hlen in Hhas.
        discriminate.
Qed.

(** X4: on any name that holds a hash, the conversion keeps the text
    before the first hash and the text after the last one, and writes
    between them [%0Nd] with [N] the number of all the hashes of the
    name; a name without a hash is left as it is. *)
Theorem hash_padding_counts_all_hashes (file : string) :
  hash_padding file
  = if PyStr.has_char "#" file
    then (before_first "#" file ++ "%0"
          ++ PyStr.of_nat (count_char "#" file) ++ "d"
          ++ after_last "#" file)%string
    else file.
Proof.
  unfold hash_padding. rewrite contains_char.
  destruct (PyStr.has_char "#" file); [|reflexivity].
  rewrite split_length, split_hd, split_last_part. cbn [Nat.sub].
  rewrite Nat.sub_0_r. now rewrite !str_app_assoc.
Qed.

(** ** Limit groups and the scene *)

Lemma rule_matches_same_nodes (nodes1 nodes2 : list Node) (lg : LimitGroup) :
  (forall node, In node nodes1 <-> In node nodes2) ->
  rule_matches nodes1 lg = rule_matches nodes2 lg.
Proof.
  intros H. apply eq_true_iff_eq. rewrite !rule_matches_spec.
  split; intros (c & node & Hc & Hn & Hrest);
    exists c, node; (split; [exact Hc|]); (split; [now apply H|]);
    exact Hrest.
Qed.

(** X5: the limit groups depend on which nodes the scene holds, not on
    the order in which [nuke.allNodes] lists them nor on how many times:
    two scenes with the same nodes give the same labels in the same
    order. *)
Theorem limit_groups_ignore_node_order (w1 w2 : World)
  (limit_groups : list LimitGroup) :
  (forall node, In node (allNodes w1) <-> In node (allNodes w2)) ->
  _get_limit_groups w1 limit_groups = _get_limit_groups w2 limit_groups.
Proof.
  intros H. rewrite !_get_limit_groups_first_seen.
  do 2 f_equal. apply filter_ext. intros lg.
  now apply rule_matches_same_nodes.
Qed.

(** X5 at two listings of a scene with a [Write] and a [Blur]. *)
Lemma limit_groups_ignore_node_order_witness :
  _get_limit_groups
    (Sample.world (fun _ => None)
       [ {| node_Class := "Write"; node_disable := false |};
         {| node_Class := "Blur"; node_disable := false |} ])
    [ {| lg_name := "blur_licenses"; lg_value := ["Blur"] |};
      {| lg_name := "write_licenses"; lg_value := ["Write"] |} ]
  = _get_limit_groups
      (Sample.world (fun _ => None)
         [ {| node_Class := "Blur"; node_disable := false |};
           {| node_Class := "Write"; node_disable := false |};
           {| node_Class := "Blur"; node_disable := false |} ])
      [ {| lg_name := "blur_licenses"; lg_value := ["Blur"] |};
        {| lg_name := "write_licenses"; lg_value := ["Write"] |} ].
Proof.
  apply limit_groups_ignore_node_order.
  intros node. simpl. tauto.
Defined.

Lemma first_seen_length (names : list string) :
  (List.length (first_seen names) <= List.length names)%nat.
Proof.
  induction names as [|n names IH]; simpl; [lia|].
  pose proof (filter_length_le (fun x => negb (String.eqb x n))
                               (first_seen names)).
  lia.
Qed.

(** X6: the labels that come out are names of configured rules, no more
    of them than there are rules; and an empty scene gives none. *)
Theorem limit_groups_bounds (w : World) (limit_groups : list LimitGroup) :
  incl (_get_limit_groups w limit_groups) (map lg_name limit_groups)
  /\ (List.length (_get_limit_groups w limit_groups)
      <= List.length limit_groups)%nat
  /\ (allNodes w = [] -> _get_limit_groups w limit_groups = []).
Proof.
  rewrite _get_limit_groups_first_seen. split; [|split].
  - intros name Hin. apply (proj1 (first_seen_In _ _)) in Hin.
    apply in_map_iff in Hin. destruct Hin as (lg & <- & Hlg).
    apply filter_In in Hlg. apply in_map. tauto.
  - etransitivity; [apply first_seen_length|].
    rewrite length_map. apply filter_length_le.
  - intros Hnodes. rewrite Hnodes.
    replace (filter (rule_matches []) limit_groups) with (@nil LimitGroup);
      [reflexivity|].
    symmetry. induction limit_groups as [|lg lgs IH]; [reflexivity|].
    simpl. rewrite <- IH.
    replace (rule_matches [] lg) with false; [reflexivity|].
    unfold rule_matches, class_matches. simpl.
    induction (lg_value lg) as [|c cs IHc]; simpl; auto.
Qed.

(** X6 at an empty scene. *)
Lemma limit_groups_bounds_witness :
  _get_limit_groups (Sample.world (fun _ => None) [])
    [ {| lg_name := "write_licenses"; lg_value := ["Write"] |} ]
  = [].
Proof.
  apply (proj2 (proj2 (limit_groups_bounds
                         (Sample.world (fun _ => None) [])
                         [ {| lg_name := "write_licenses";
                              lg_value := ["Write"] |} ]))).
  reflexivity.
Defined.

(** ** The fields of a payload *)

Lemma update_nil {V : Type} (d : list (string * V)) : PyDict.update d [] = d.
Proof. reflexivity. Qed.

(** The job info of a payload: the staged one, the link to the prior job
    if there is one, the environment. *)
Lemma build_payload_JobInfo (w : World) (self : Plugin) (instance : Instance)
  (script_path : value) (render_path exe_node_name : string)
  (start_frame end_frame : Z) (response_data : value)
  (baking_submission : bool) (payload : Payload) :
  build_payload w self instance script_path render_path exe_node_name
    start_frame end_frame response_data baking_submission = Ok payload ->
  exists link,
    (link = [] \/ exists batch id,
                    link = [("BatchName", batch); ("JobDependency0", id)])
    /\ JobInfo payload
       = PyDict.update
           (PyDict.update
              (JobInfo (staged_payload w self instance script_path
                          render_path exe_node_name start_frame end_frame
                          baking_submission))
              link)
           (environment_key_values (submitted_environment w self instance))
    /\ PluginInfo payload
       = PluginInfo (initial_payload w self instance script_path
                       render_path exe_node_name start_frame end_frame).
Proof.
  unfold build_payload.
  destruct (method_get _ "_id") as [job_id|]; [|discriminate]. cbn [bind].
  destruct (truthy job_id).
  - destruct (subscript _ "Props") as [props|]; [|discriminate].
    cbn [bind].
    destruct (subscript props "Batch") as [batch|]; [|discriminate].
    cbn [bind].
    destruct (subscript _ "_id") as [id|]; [|discriminate]. cbn [bind].
    intros [= <-].
    exists [("BatchName", batch); ("JobDependency0", id)].
    split; [right; now exists batch, id|].
    split; [reflexivity|].
    unfold update_JobInfo. cbn [PluginInfo].
    destruct (truthy (dict_get_default _ _ _)), baking_submission;
      reflexivity.
  - cbn [bind]. intros [= <-]. exists []. split; [now left|].
    split; [reflexivity|].
    unfold update_JobInfo. cbn [PluginInfo].
    destruct (truthy (dict_get_default _ _ _)), baking_submission;
      reflexivity.
Qed.

(** A field that is neither of the link nor of the environment is the
    one of the staged payload. *)
Lemma build_payload_field (w : World) (self : Plugin) (instance : Instance)
  (script_path : value) (render_path exe_node_name : string)
  (start_frame end_frame : Z) (response_data : value)
  (baking_submission : bool) (payload : Payload) (k : string) :
  build_payload w self instance script_path render_path exe_node_name
    start_frame end_frame response_data baking_submission = Ok payload ->
  k <> "BatchName" -> k <> "JobDependency0" ->
  (forall n, ("EnvironmentKeyValue" ++ PyStr.of_nat n)%string <> k) ->
  PyDict.get k (JobInfo payload)
  = PyDict.get k
      (JobInfo (staged_payload w self instance script_path render_path
                  exe_node_name start_frame end_frame baking_submission)).
Proof.
  intros H Hb Hj Hn.
  destruct (build_payload_JobInfo _ _ _ _ _ _ _ _ _ _ _ H)
    as (link & Hlink & -> & _).
  rewrite (get_after_environment k _ _ Hn).
  apply get_update_other. intros kv Hin.
  destruct Hlink as [-> | (batch & id & ->)]; [destruct Hin|].
  destruct Hin as [<- | [<- | []]]; simpl; congruence.
Qed.

(** X7: a baking payload is never split: its chunk size is 99999999 and
    its job type [Normal], whatever chunk size the instance or the
    settings ask for; any other payload takes the chunk size of the
    instance attributes, or of the settings without one, and has no job
    type.  Neither the link to a prior job nor the environment changes
    that. *)
Theorem baking_payload_is_one_chunk
  (w : World) (self : Plugin) (instance : Instance) (script_path : value)
  (render_path exe_node_name : string) (start_frame end_frame : Z)
  (response_data : value) (baking_submission : bool) (payload : Payload) :
  build_payload w self instance script_path render_path exe_node_name
    start_frame end_frame response_data baking_submission = Ok payload ->
  PyDict.get "ChunkSize" (JobInfo payload)
  = Some (if baking_submission then VInt 99999999
          else dict_get_default "chunk" (chunk_size self)
                 (attributeValues (inputs instance)))
  /\ PyDict.get "JobType" (JobInfo payload)
     = (if baking_submission then Some (VStr "Normal") else None).
Proof.
  intros H. split;
    (rewrite (build_payload_field _ _ _ _ _ _ _ _ _ _ _ _ H)
       by (try discriminate; intros n; discriminate));
    unfold staged_payload;
    destruct (truthy (dict_get_default "workfile_dependency" _ _)),
             baking_submission; reflexivity.
Qed.

(** X7 at the sample data: a baking payload linked to a prior job. *)
Lemma baking_payload_is_one_chunk_witness :
  exists payload,
    build_payload (Sample.world (fun _ => None) []) (Sample.plugin [])
      (Sample.instance "/renders/render.####.exr" "farm" false []
                       [Sample.bake])
      (VStr "/renders/bake.nk") "/renders/bake.mov" "BakeWrite"
      1001 1005 Sample.response true
    = Ok payload
    /\ PyDict.get "ChunkSize" (JobInfo payload) = Some (VInt 99999999)
    /\ PyDict.get "JobType" (JobInfo payload) = Some (VStr "Normal").
Proof.
  eexists. split; [vm_compute; reflexivity|].
  apply (baking_payload_is_one_chunk
           (Sample.world (fun _ => None) []) (Sample.plugin [])
           (Sample.instance "/renders/render.####.exr" "farm" false []
                            [Sample.bake])
           (VStr "/renders/bake.nk") "/renders/bake.mov" "BakeWrite"
           1001 1005 Sample.response true).
  vm_compute. reflexivity.
Defined.

(** X8: a payload depends on the workfile exactly when the
    [workfile_dependency] attribute of the instance is true, or is absent
    and the setting of the plugin is true; the asset is then the script
    of the call. *)
Theorem workfile_dependency_field
  (w : World) (self : Plugin) (instance : Instance) (script_path : value)
  (render_path exe_node_name : string) (start_frame end_frame : Z)
  (response_data : value) (baking_submission : bool) (payload : Payload) :
  build_payload w self instance script_path render_path exe_node_name
    start_frame end_frame response_data baking_submission = Ok payload ->
  PyDict.get "AssetDependency0" (JobInfo payload)
  = if truthy (dict_get_default "workfile_dependency"
                 (workfile_dependency self)
                 (attributeValues (inputs instance)))
    then Some script_path else None.
Proof.
  intros H.
  rewrite (build_payload_field _ _ _ _ _ _ _ _ _ _ _ _ H)
    by (try discriminate; intros n; discriminate).
  unfold staged_payload.
  destruct (truthy (dict_get_default "workfile_dependency" _ _)),
           baking_submission; reflexivity.
Qed.

(** X8 at the sample data, whose plugin asks for the dependency. *)
Lemma workfile_dependency_field_witness :
  exists payload,
    build_payload (Sample.world (fun _ => None) []) (Sample.plugin [])
      (Sample.instance "/renders/render.####.exr" "farm" false [] [])
      (VStr "/proj/sceneA.nk") "/renders/render.####.exr" "Write1"
      1001 1005 VNone false
    = Ok payload
    /\ PyDict.get "AssetDependency0" (JobInfo payload)
       = Some (VStr "/proj/sceneA.nk").
Proof.
  eexists. split; [vm_compute; reflexivity|].
  apply (workfile_dependency_field
           (Sample.world (fun _ => None) []) (Sample.plugin [])
           (Sample.instance "/renders/render.####.exr" "farm" false [] [])
           (VStr "/proj/sceneA.nk") "/renders/render.####.exr" "Write1"
           1001 1005 VNone false).
  vm_compute. reflexivity.
Defined.

(** X9: the name and the frames of a payload are those of the call, the
    base name of its render path and its two frame arguments, while the
    expected files of the same call come from the instance; the paths
    that Deadline is given for the output hold no backslash. *)
Theorem payload_fields_of_the_call
  (w : World) (self : Plugin) (instance : Instance) (script_path : value)
  (render_path exe_node_name : string) (start_frame end_frame : Z)
  (response_data : value) (baking_submission : bool) (payload : Payload) :
  build_payload w self instance script_path render_path exe_node_name
    start_frame end_frame response_data baking_submission = Ok payload ->
  PyDict.get "Name" (JobInfo payload)
  = Some (VStr (PosixPath.basename render_path))
  /\ PyDict.get "Frames" (JobInfo payload)
     = Some (VStr (PyStr.of_Z start_frame ++ "-"
                   ++ PyStr.of_Z end_frame)%string)
  /\ PyDict.get "WriteNode" (PluginInfo payload)
     = Some (VStr exe_node_name)
  /\ (exists preview,
         PyDict.get "OutputFilename0" (JobInfo payload)
         = Some (VStr preview)
         /\ PyStr.contains backslash preview = false)
  /\ (exists render_dir,
         PyDict.get "OutputFilePath" (PluginInfo payload)
         = Some (VStr render_dir)
         /\ PyStr.contains backslash render_dir = false).
Proof.
  intros H.
  destruct (build_payload_JobInfo _ _ _ _ _ _ _ _ _ _ _ H)
    as (_ & _ & _ & Hplugin).
  assert (Hfield : forall k v,
             k <> "BatchName" -> k <> "JobDependency0" ->
             (forall n,
                 ("EnvironmentKeyValue" ++ PyStr.of_nat n)%string <> k) ->
             PyDict.get k
               (JobInfo (staged_payload w self instance script_path
                           render_path exe_node_name start_frame end_frame
                           baking_submission)) = Some v ->
             PyDict.get k (JobInfo payload) = Some v).
  { intros k v H1 H2 H3 H4.
    now rewrite (build_payload_field _ _ _ _ _ _ _ _ _ _ _ _ H H1 H2 H3). }
  split; [|split; [|split; [|split]]].
  - apply Hfield; try discriminate; try (intros n; discriminate).
    unfold staged_payload.
    destruct (truthy (dict_get_default "workfile_dependency" _ _)),
             baking_submission; reflexivity.
  - apply Hfield; try discriminate; try (intros n; discriminate).
    unfold staged_payload.
    destruct (truthy (dict_get_default "workfile_dependency" _ _)),
             baking_submission; reflexivity.
  - rewrite Hplugin. reflexivity.
  - eexists. split.
    + apply Hfield; try discriminate; try (intros n; discriminate).
      unfold staged_payload.
      destruct (truthy (dict_get_default "workfile_dependency" _ _)),
               baking_submission; reflexivity.
    + apply replace_backslash_clean.
  - eexists. split.
    + rewrite Hplugin. reflexivity.
    + apply replace_backslash_clean.
Qed.

(** X9 at the sample data: the baking call names the movie and the frames
    1 to 1 that it is given. *)
Lemma payload_fields_of_the_call_witness :
  exists payload,
    build_payload (Sample.world (fun _ => None) []) (Sample.plugin [])
      (Sample.instance "/renders/render.####.exr" "farm" false []
                       [Sample.bake])
      (VStr "/renders/bake.nk") "/renders/bake.mov" "BakeWrite"
      1 1 Sample.response true
    = Ok payload
    /\ PyDict.get "Name" (JobInfo payload) = Some (VStr "bake.mov")
    /\ PyDict.get "Frames" (JobInfo payload) = Some (VStr "1-1").
Proof.
  eexists. split; [vm_compute; reflexivity|].
  destruct (payload_fields_of_the_call
              (Sample.world (fun _ => None) []) (Sample.plugin [])
              (Sample.instance "/renders/render.####.exr" "farm" false []
                               [Sample.bake])
              (VStr "/renders/bake.nk") "/renders/bake.mov" "BakeWrite"
              1 1 Sample.response true _ eq_refl)
    as (Hname & Hframes & _).
  split; [exact Hname | exact Hframes].
Defined.

(** ** The environment of a payload *)

Section UpdateFacts.
Context {V : Type}.

Lemma mem_existsb (k : string) (d : list (string * V)) :
  PyDict.mem k d = existsb (String.eqb k) (PyDict.keys d).
Proof.
  unfold PyDict.mem. induction d as [|[k' v'] d IH]; simpl; auto.
  now destruct (String.eqb k k').
Qed.

Lemma last_binding_existsb (k : string) (other : list (string * V)) :
  match last_binding k other with Some _ => true | None => false end
  = existsb (String.eqb k) (PyDict.keys other).
Proof.
  induction other as [|[k' v'] other IH]; simpl; auto.
  rewrite <- IH. destruct (last_binding k other); simpl.
  - now rewrite orb_true_r.
  - rewrite orb_false_r. now destruct (String.eqb k k').
Qed.

Lemma mem_update (k : string) (d other : list (string * V)) :
  PyDict.mem k (PyDict.update d other)
  = PyDict.mem k d || PyDict.mem k other.
Proof.
  rewrite (mem_existsb k other), <- last_binding_existsb.
  unfold PyDict.mem. rewrite get_update.
  destruct (last_binding k other); [now rewrite orb_true_r|].
  now rewrite orb_false_r.
Qed.

Lemma keys_update_within (d other : list (string * V)) :
  (forall kv, In kv other -> PyDict.mem (fst kv) d = true) ->
  PyDict.keys (PyDict.update d other) = PyDict.keys d.
Proof.
  unfold PyDict.update. revert d.
  induction other as [|[k v] other IH]; intros d H; [reflexivity|].
  cbn [fold_left fst snd]. rewrite IH.
  - apply keys_set_in. apply (H (k, v)). now left.
  - intros kv Hin. rewrite mem_set, (H kv (or_intror Hin)).
    apply orb_true_r.
Qed.

Lemma NoDup_update (d other : list (string * V)) :
  NoDup (PyDict.keys d) -> NoDup (PyDict.keys (PyDict.update d other)).
Proof.
  unfold PyDict.update. revert d.
  induction other as [|[k v] other IH]; intros d H; [exact H|].
  cbn [fold_left]. apply IH. now apply NoDup_set.
Qed.

Lemma NoDup_get_In (k : string) (v : V) (d : list (string * V)) :
  NoDup (PyDict.keys d) -> In (k, v) d -> PyDict.get k d = Some v.
Proof.
  induction d as [|[k' v'] d IH]; simpl; [tauto|].
  intros Hnd [[= -> ->] | Hin].
  - now rewrite String.eqb_refl.
  - inversion Hnd as [|? ? Hnotin Hnd']; subst.
    destruct (String.eqb k k') eqn:E.
    + apply String.eqb_eq in E. subst k'. exfalso. apply Hnotin.
      apply (in_map fst) in Hin. exact Hin.
    + now apply IH.
Qed.

End UpdateFacts.

(** X10: a key is in the environment of the job exactly when the
    instance environment or the render job environment holds it, or when
    it is one of the keys asked for and the process defines it: nothing
    else of the process environment is sent. *)
Theorem environment_keys_sent
  (w : World) (self : Plugin) (instance : Instance) (k : string) :
  PyDict.mem k (job_environment w self instance)
  = PyDict.mem k (get_instance_job_envs w instance)
    || PyDict.mem k (get_ayon_render_job_envs w)
    || (existsb (String.eqb k) (env_keys self)
        && PyDict.mem k (os_environ w)).
Proof.
  unfold job_environment. rewrite !mem_update. f_equal.
  unfold PyDict.mem at 1. rewrite nuke_specific_env_get.
  unfold PyDict.mem.
  now destruct (existsb (String.eqb k) (env_keys self)).
Qed.

Lemma search_replace_keys (rules : list SearchReplace)
  (environment : list (string * string)) :
  PyDict.keys (search_replace rules environment) = PyDict.keys environment.
Proof.
  destruct rules as [|r rules]; [reflexivity|].
  rewrite search_replace_update. apply keys_update_within.
  intros kv Hin. apply in_map_iff in Hin.
  destruct Hin as ([k v] & <- & Hin). simpl.
  apply mem_In. apply (in_map fst) in Hin. exact Hin.
Qed.

(** X11: the search and replace keeps the keys of the environment and
    their order; and in a dictionary every value comes out as the value
    it had with the last rule applied to it (as it was with no rule). *)
Theorem search_replace_effect (rules : list SearchReplace)
  (environment : list (string * string)) :
  PyDict.keys (search_replace rules environment) = PyDict.keys environment
  /\ (NoDup (PyDict.keys environment) ->
      forall k,
        PyDict.get k (search_replace rules environment)
        = option_map (apply_last_rule rules) (PyDict.get k environment)).
Proof.
  split; [apply search_replace_keys|].
  intros Hnd k. destruct rules as [|r rules].
  - simpl. now destruct (PyDict.get k environment).
  - now apply search_replace_last_rule_only.
Qed.

(** X11 at an environment of two variables and one rule. *)
Lemma search_replace_effect_witness :
  PyDict.get "OCIO"
    (search_replace [ {| sr_name := "/studio"; sr_value := "/farm" |} ]
       [("OCIO", "/studio/config.ocio"); ("HOME", "/home/a")])
  = Some "/farm/config.ocio".
Proof.
  rewrite (proj2 (search_replace_effect
                    [ {| sr_name := "/studio"; sr_value := "/farm" |} ]
                    [("OCIO", "/studio/config.ocio"); ("HOME", "/home/a")])).
  - reflexivity.
  - repeat constructor; simpl; intuition discriminate.
Defined.

Lemma of_nat_inj (n m : nat) : PyStr.of_nat n = PyStr.of_nat m -> n = m.
Proof.
  intros H.
  destruct (read_uint_of_nat n "x" EmptyString eq_refl) as (u & Hu & Hn).
  destruct (read_uint_of_nat m "x" EmptyString eq_refl) as (u' & Hu' & Hm).
  rewrite H in Hu. congruence.
Qed.

Lemma environment_key_inj (n m : nat) :
  environment_key n = environment_key m -> n = m.
Proof.
  unfold environment_key. intros H. simpl in H.
  apply of_nat_inj. congruence.
Qed.

Lemma NoDup_map_inj {A B : Type} (f : A -> B) (l : list A) :
  (forall x y, f x = f y -> x = y) -> NoDup l -> NoDup (map f l).
Proof.
  intros Hinj. induction 1 as [|a l Hnotin Hnd IH]; simpl; constructor; auto.
  intros Hin. apply in_map_iff in Hin. destruct Hin as (x & Hx & Hin).
  apply Hinj in Hx. now subst.
Qed.

Lemma map_fst_combine_seq {A : Type} (l : list A) (s : nat) :
  map fst (combine (seq s (List.length l)) l) = seq s (List.length l).
Proof.
  revert s. induction l as [|a l IH]; intros s; simpl; [reflexivity|].
  now rewrite IH.
Qed.

Lemma environment_key_values_all_keys (env : list (string * string)) :
  PyDict.keys (environment_key_values env)
  = map environment_key (seq 0 (List.length env)).
Proof.
  unfold environment_key_values, PyDict.keys.
  transitivity
    (map environment_key
       (map fst (combine (seq 0 (List.length (map fst env)))
                         (map fst env)))).
  - rewrite length_map, !map_map. reflexivity.
  - now rewrite map_fst_combine_seq, length_map.
Qed.

Lemma nth_error_combine_In {A B : Type} (la : list A) (lb : list B)
  (i : nat) (a : A) (b : B) :
  nth_error lb i = Some b -> nth_error la i = Some a ->
  In (a, b) (combine la lb).
Proof.
  revert la lb. induction i as [|i IH]; intros [|a0 la] [|b0 lb]; simpl;
    try discriminate.
  - intros [= ->] [= ->]. now left.
  - intros Hb Ha. right. now apply IH.
Qed.

Lemma environment_key_values_nth (env : list (string * string))
  (i : nat) (k v : string) :
  NoDup (PyDict.keys env) ->
  nth_error env i = Some (k, v) ->
  In (environment_key i, VStr (k ++ "=" ++ v)%string)
     (environment_key_values env).
Proof.
  intros Hnd Hnth. unfold environment_key_values.
  apply in_map_iff. exists (i, k). split.
  - cbn [fst snd].
    rewrite (NoDup_get_In k v env Hnd (nth_error_In _ _ Hnth)).
    reflexivity.
  - assert (Hlen : (i < List.length env)%nat)
      by (apply nth_error_Some; congruence).
    assert (Hk : nth_error (PyDict.keys env) i = Some k)
      by (unfold PyDict.keys; now rewrite nth_error_map, Hnth).
    assert (Hi : nth_error (seq 0 (List.length env)) i = Some i)
      by (rewrite nth_error_nth' with (d := 0%nat);
          [now rewrite seq_nth | now rewrite length_seq]).
    now apply (nth_error_combine_In _ _ i).
Qed.

Lemma submitted_environment_NoDup (w : World) (self : Plugin)
  (instance : Instance) :
  NoDup (PyDict.keys (get_instance_job_envs w instance)) ->
  NoDup (PyDict.keys (submitted_environment w self instance)).
Proof.
  intros H. unfold submitted_environment. rewrite search_replace_keys.
  unfold job_environment. now do 2 apply NoDup_update.
Qed.

(** X12: every variable of the environment of the job is one entry of
    the job info: the variable at place [i] of the dictionary (after the
    search and replace) is the entry [EnvironmentKeyValue<i>], with the
    text [key=value]; the entries are numbered from 0 without a gap, so
    no number past the last variable is used. *)
Theorem environment_entries_are_numbered
  (w : World) (self : Plugin) (instance : Instance) (script_path : value)
  (render_path exe_node_name : string) (start_frame end_frame : Z)
  (response_data : value) (baking_submission : bool) (payload : Payload) :
  build_payload w self instance script_path render_path exe_node_name
    start_frame end_frame response_data baking_submission = Ok payload ->
  NoDup (PyDict.keys (get_instance_job_envs w instance)) ->
  (forall i k v,
      nth_error (submitted_environment w self instance) i = Some (k, v) ->
      PyDict.get (environment_key i) (JobInfo payload)
      = Some (VStr (k ++ "=" ++ v)%string))
  /\ (forall i,
         (List.length (submitted_environment w self instance) <= i)%nat ->
         PyDict.get (environment_key i) (JobInfo payload) = None).
Proof.
  intros H Hnd.
  destruct (build_payload_JobInfo _ _ _ _ _ _ _ _ _ _ _ H)
    as (link & Hlink & HJ & _).
  pose proof (submitted_environment_NoDup w self instance Hnd) as Hnd'.
  assert (Hkeys : NoDup (PyDict.keys
                           (environment_key_values
                              (submitted_environment w self instance)))).
  { rewrite environment_key_values_all_keys.
    apply NoDup_map_inj; [apply environment_key_inj | apply seq_NoDup]. }
  split.
  - intros i k v Hnth. rewrite HJ, get_update.
    rewrite (last_binding_get _ _ Hkeys).
    now rewrite (NoDup_get_In _ _ _ Hkeys
                   (environment_key_values_nth _ _ _ _ Hnd' Hnth)).
  - intros i Hi. rewrite HJ, get_update.
    rewrite (last_binding_get _ _ Hkeys).
    assert (Hnone : PyDict.get (environment_key i)
                      (environment_key_values
                         (submitted_environment w self instance)) = None).
    { destruct (PyDict.get _ _) eqn:G; [|reflexivity]. exfalso.
      assert (Hmem : PyDict.mem (environment_key i)
                       (environment_key_values
                          (submitted_environment w self instance)) = true)
        by (unfold PyDict.mem; now rewrite G).
      apply mem_In in Hmem. rewrite environment_key_values_all_keys in Hmem.
      apply in_map_iff in Hmem. destruct Hmem as (j & Hj & Hin).
      apply environment_key_inj in Hj. subst j.
      apply in_seq in Hin. lia. }
    rewrite Hnone.
    destruct Hlink as [-> | (batch & id & ->)]; unfold staged_payload;
      destruct (truthy (dict_get_default "workfile_dependency" _ _)),
               baking_submission; reflexivity.
Qed.

(** X12 at the sample data: three variables, numbered 0 to 2, the second
    with the value of the process. *)
Lemma environment_entries_are_numbered_witness :
  exists payload,
    build_payload (Sample.world (fun _ => None) []) (Sample.plugin [])
      (Sample.instance "/renders/render.####.exr" "farm" false [] [])
      (VStr "/proj/sceneA.nk") "/renders/render.####.exr" "Write1"
      1001 1005 VNone false
    = Ok payload
    /\ PyDict.get "EnvironmentKeyValue1" (JobInfo payload)
       = Some (VStr "OCIO=/studio/config.ocio")
    /\ PyDict.get "EnvironmentKeyValue3" (JobInfo payload) = None.
Proof.
  eexists. split; [vm_compute; reflexivity|].
  destruct (environment_entries_are_numbered
              (Sample.world (fun _ => None) []) (Sample.plugin [])
              (Sample.instance "/renders/render.####.exr" "farm" false
                               [] [])
              (VStr "/proj/sceneA.nk") "/renders/render.####.exr" "Write1"
              1001 1005 VNone false _ eq_refl)
    as [Hin Hout].
  - repeat constructor; simpl; intuition discriminate.
  - split.
    + apply (Hin 1%nat "OCIO" "/studio/config.ocio"). reflexivity.
    + apply (Hout 3%nat). vm_compute. lia.
Defined.

(** ** What a malformed response does *)

(** X13: a prior response that is not a dictionary, or that holds an
    identifier without the batch of its job, stops the submission: an
    [AttributeError] for a true value that is no dictionary, a [KeyError]
    for a dictionary without [Props] or without [Batch] in it, a
    [TypeError] for [Props] that are no dictionary; and the exception
    leaves [payload_submit] once the render folder is there. *)
Theorem malformed_response_raises
  (w : World) (self : Plugin) (instance : Instance) (script_path : value)
  (render_path exe_node_name : string) (start_frame end_frame : Z)
  (response_data : value) (baking_submission : bool) :
  (truthy response_data = true ->
   (forall d, response_data <> VDict d) ->
   build_payload w self instance script_path render_path exe_node_name
     start_frame end_frame response_data baking_submission
   = Raise AttributeError)
  /\ (forall d,
         response_data = VDict d ->
         truthy (dict_get "_id" d) = true ->
         (PyDict.get "Props" d = None ->
          build_payload w self instance script_path render_path
            exe_node_name start_frame end_frame response_data
            baking_submission = Raise KeyError)
         /\ (forall p,
                PyDict.get "Props" d = Some p ->
                (forall props, p <> VDict props) ->
                build_payload w self instance script_path render_path
                  exe_node_name start_frame end_frame response_data
                  baking_submission = Raise TypeError)
         /\ (forall props,
                PyDict.get "Props" d = Some (VDict props) ->
                PyDict.get "Batch" props = None ->
                build_payload w self instance script_path render_path
                  exe_node_name start_frame end_frame response_data
                  baking_submission = Raise KeyError))
  /\ (forall e,
         makedirs_ok w (PosixPath.normpath (PosixPath.dirname render_path))
         = true ->
         build_payload w self instance script_path render_path
           exe_node_name start_frame end_frame response_data
           baking_submission = Raise e ->
         payload_submit w self instance script_path render_path
           exe_node_name start_frame end_frame response_data
           baking_submission = Raise e).
Proof.
  split; [|split].
  - intros Ht Hd. unfold build_payload, normal_response. rewrite Ht.
    destruct response_data as [| | | | |d]; try reflexivity.
    now destruct (Hd d).
  - intros d -> Ht.
    assert (Hn : normal_response (VDict d) = VDict d).
    { destruct d; [discriminate Ht|reflexivity]. }
    split; [|split].
    + intros Hp. unfold build_payload. rewrite Hn. unfold method_get.
      cbn [bind]. rewrite Ht. unfold subscript at 1. now rewrite Hp.
    + intros p Hp Hnd. unfold build_payload. rewrite Hn.
      unfold method_get. cbn [bind]. rewrite Ht.
      unfold subscript at 1. rewrite Hp. cbn [bind].
      destruct p as [| | | | |props]; try reflexivity.
      now destruct (Hnd props).
    + intros props Hp Hb. unfold build_payload. rewrite Hn.
      unfold method_get. cbn [bind]. rewrite Ht.
      unfold subscript at 1. rewrite Hp. cbn [bind].
      unfold subscript at 1. now rewrite Hb.
  - intros e Hmk Hb. unfold payload_submit.
    rewrite (ensure_render_folder_ok _ _ Hmk). cbn [bind].
    now rewrite Hb.
Qed.

(** X13 at a response that holds an identifier and nothing else. *)
Lemma malformed_response_raises_witness :
  payload_submit (Sample.world (fun _ => None) []) (Sample.plugin [])
    (Sample.instance "/renders/render.####.exr" "farm" false []
                     [Sample.bake])
    (VStr "/renders/bake.nk") "/renders/bake.mov" "BakeWrite"
    1001 1005 (VDict [("_id", VStr "abc123")]) true
  = Raise KeyError
  /\ build_payload (Sample.world (fun _ => None) []) (Sample.plugin [])
       (Sample.instance "/renders/render.####.exr" "farm" false []
                        [Sample.bake])
       (VStr "/renders/bake.nk") "/renders/bake.mov" "BakeWrite"
       1001 1005 (VStr "abc123") true
     = Raise AttributeError.
Proof.
  pose proof (malformed_response_raises
                (Sample.world (fun _ => None) []) (Sample.plugin [])
                (Sample.instance "/renders/render.####.exr" "farm" false
                                 [] [Sample.bake])
                (VStr "/renders/bake.nk") "/renders/bake.mov" "BakeWrite"
                1001 1005 (VDict [("_id", VStr "abc123")]) true)
    as (_ & Hkey & Hsubmit).
  split.
  - apply Hsubmit; [reflexivity|].
    exact (proj1 (Hkey [("_id", VStr "abc123")] eq_refl eq_refl)
                 eq_refl).
  - apply (proj1 (malformed_response_raises
                    (Sample.world (fun _ => None) []) (Sample.plugin [])
                    (Sample.instance "/renders/render.####.exr" "farm"
                                     false [] [Sample.bake])
                    (VStr "/renders/bake.nk") "/renders/bake.mov"
                    "BakeWrite" 1001 1005 (VStr "abc123") true)).
    + reflexivity.
    + intros d. discriminate.
Defined.

(** ** [get_plugin_info] and the [use_gpu] attribute *)

(** X14: the plugin info needs the [use_gpu] attribute of the instance:
    without it [get_plugin_info] raises a [KeyError], and so does
    [payload_submit] after it has built its payload and resolved the
    expected files, although the payload itself falls back on the setting
    of the plugin; with it the plugin info holds the attribute, the scene
    as scene file and as project path, and an output path without a
    backslash. *)
Theorem plugin_info_needs_use_gpu
  (w : World) (self : Plugin) (instance : Instance) (scene_path : value)
  (render_path write_node : string) :
  (PyDict.get "use_gpu" (get_attr_values_from_data self instance) = None ->
   get_plugin_info self instance scene_path render_path write_node
   = Raise KeyError)
  /\ (forall gpu,
         PyDict.get "use_gpu" (get_attr_values_from_data self instance)
         = Some gpu ->
         exists plugin_info,
           get_plugin_info self instance scene_path render_path write_node
           = Ok plugin_info
           /\ pi_UseGpu plugin_info = gpu
           /\ pi_SceneFile plugin_info = scene_path
           /\ pi_ProjectPath plugin_info = scene_path
           /\ pi_WriteNode plugin_info = write_node
           /\ PyStr.contains backslash (pi_OutputFilePath plugin_info)
              = false)
  /\ (forall script_path exe_node_name start_frame end_frame response_data
             baking_submission,
         (forall i,
             PyDict.get "use_gpu" (get_attr_values_from_data self i)
             = None) ->
         makedirs_ok w (PosixPath.normpath (PosixPath.dirname render_path))
         = true ->
         response_data = VNone \/ response_ok response_data = true ->
         (exists names,
             _expected_files instance (path (inputs instance))
               (frameStartHandle (inputs instance))
               (frameEndHandle (inputs instance))
             = Ok (set_expectedFiles (expectedFiles instance ++ names)
                                     instance)) ->
         payload_submit w self instance script_path render_path
           exe_node_name start_frame end_frame response_data
           baking_submission = Raise KeyError).
Proof.
  split; [|split].
  - intros H. unfold get_plugin_info, subscript. now rewrite H.
  - intros gpu H. unfold get_plugin_info, subscript. rewrite H.
    cbn [bind]. eexists. split; [reflexivity|].
    repeat split. apply replace_backslash_clean.
  - intros script_path exe_node_name start_frame end_frame response_data
           baking_submission Hgpu Hmk Hresp (names & Hfiles).
    unfold payload_submit.
    rewrite (ensure_render_folder_ok _ _ Hmk). cbn [bind].
    destruct (build_payload_ok w self instance script_path render_path
                exe_node_name start_frame end_frame response_data
                baking_submission Hresp) as [payload Hpayload].
    rewrite Hpayload. cbn [bind]. rewrite Hfiles. cbn [bind].
    unfold get_plugin_info at 1, subscript. rewrite Hgpu. reflexivity.
Qed.

(** X14 at a plugin whose instances have no attribute values. *)
Lemma plugin_info_needs_use_gpu_witness :
  let self :=
    {| priority := VInt 50; chunk_size := VInt 10;
       concurrent_tasks := VInt 1; department := VStr EmptyString;
       group := VStr EmptyString; use_gpu := VBool true;
       workfile_dependency := VBool true;
       use_published_workfile := VBool false;
       env_allowed_keys := []; env_search_replace_values := [];
       node_class_limit_groups := [];
       _deadline_user := VStr "artist"; _comment := VStr EmptyString;
       _ver := "14.0";
       preview_fname := fun p => p;
       get_limit_groups := [];
       get_generic_job_info := fun _ => Sample.job_info;
       _set_scene_path := fun p _ _ => VStr p;
       _append_job_output_paths := fun _ j => j;
       apply_additional_plugin_info := fun _ p => p;
       get_attr_values_from_data := fun _ => [];
       process_submission := fun j _ => VStr (ji_Name j) |} in
  (exists payload,
      build_payload (Sample.world (fun _ => None) []) self
        (Sample.instance "/renders/review.mov" "farm" false [] [])
        (VStr "/proj/sceneA.nk") "/renders/review.mov" "Write1"
        1001 1005 VNone false = Ok payload
      /\ PyDict.get "UseGpu" (PluginInfo payload) = Some (VBool true))
  /\ payload_submit (Sample.world (fun _ => None) []) self
       (Sample.instance "/renders/review.mov" "farm" false [] [])
       (VStr "/proj/sceneA.nk") "/renders/review.mov" "Write1"
       1001 1005 VNone false
     = Raise KeyError.
Proof.
  intros self. split.
  - eexists. split; [vm_compute; reflexivity|]. reflexivity.
  - apply (proj2 (proj2 (plugin_info_needs_use_gpu
                           (Sample.world (fun _ => None) []) self
                           (Sample.instance "/renders/review.mov" "farm"
                                            false [] [])
                           VNone "/renders/review.mov" "Write1"))).
    + intros i. reflexivity.
    + reflexivity.
    + left. reflexivity.
    + eexists. vm_compute. reflexivity.
Defined.

(** ** The loop over the baking scripts inside [payload_submit] *)

Lemma bake_step_linked (self : Plugin) (start_frame end_frame : Z)
  (job_info : DeadlineJobInfo) (instance : Instance)
  (submissions : list (DeadlineJobInfo * NukePluginInfo))
  (baking_script : BakingScript) (r id batch : value) :
  (forall i,
      PyDict.mem "use_gpu" (get_attr_values_from_data self i) = true) ->
  deadlineSubmissionJob instance = Some r ->
  linked_response r id batch ->
  exists job_info' instance' plugin_info,
    bake_step self start_frame end_frame
      (job_info, instance, submissions) baking_script
    = Ok (job_info', instance', submissions ++ [(job_info', plugin_info)])
    /\ same_core instance' instance
    /\ ji_BatchName job_info' = batch
    /\ ji_JobDependencies job_info' = ji_JobDependencies job_info ++ [id].
Proof.
  intros Hgpu Hstored (d & props & -> & Hid & Ht & Hp & Hb).
  unfold bake_step. rewrite Hstored.
  unfold method_get, dict_get, subscript. rewrite Hid. cbn [bind].
  rewrite Ht, Hp. cbn [bind]. rewrite Hb. cbn [bind fst snd].
  unfold get_plugin_info, subscript.
  pose proof (Hgpu instance) as Hg. unfold PyDict.mem in Hg.
  destruct (PyDict.get "use_gpu" _); [|discriminate]. cbn [bind].
  do 3 eexists. split; [reflexivity|]. repeat split.
Qed.

(** X15: the baking jobs of one call share one job-info object, which
    each turn of the loop copies from the turn before and adds the
    identifier of the stored response to: the first baking job depends on
    the identifier once, the second twice, the n-th n times; each has the
    batch of the stored response. *)
Theorem baking_dependencies_accumulate
  (self : Plugin) (start_frame end_frame : Z)
  (scripts : list BakingScript) (job_info : DeadlineJobInfo)
  (instance : Instance)
  (submissions : list (DeadlineJobInfo * NukePluginInfo))
  (r id batch : value) :
  (forall i,
      PyDict.mem "use_gpu" (get_attr_values_from_data self i) = true) ->
  deadlineSubmissionJob instance = Some r ->
  linked_response r id batch ->
  exists job_info' instance' baked,
    bake_loop self start_frame end_frame
      (job_info, instance, submissions) scripts
    = Ok (job_info', instance', submissions ++ baked)
    /\ map (fun p => ji_JobDependencies (fst p)) baked
       = map (fun n => ji_JobDependencies job_info ++ List.repeat id (S n))
             (seq 0 (List.length scripts))
    /\ (forall p, In p baked -> ji_BatchName (fst p) = batch).
Proof.
  intros Hgpu. revert job_info instance submissions.
  induction scripts as [|b scripts IH];
    intros job_info instance submissions Hstored Hlinked.
  - exists job_info, instance, []. rewrite app_nil_r.
    repeat split. intros p [].
  - cbn [bake_loop].
    destruct (bake_step_linked self start_frame end_frame job_info instance
                submissions b r id batch Hgpu Hstored Hlinked)
      as (j1 & i1 & pi1 & Hstep & (_ & _ & Hd) & Hbatch & Hdeps).
    rewrite Hstep. cbn [bind].
    assert (Hstored1 : deadlineSubmissionJob i1 = Some r) by congruence.
    destruct (IH j1 i1 (submissions ++ [(j1, pi1)]) Hstored1 Hlinked)
      as (j2 & i2 & baked & Hloop & Hmap & Hall).
    exists j2, i2, ((j1, pi1) :: baked). split; [|split].
    + rewrite Hloop, <- app_assoc. reflexivity.
    + cbn [map List.length seq fst]. f_equal.
      * rewrite Hdeps. reflexivity.
      * rewrite Hmap, <- seq_shift, map_map. apply map_ext. intros n.
        rewrite Hdeps, <- app_assoc. reflexivity.
    + intros p [<- | Hin]; [exact Hbatch | now apply Hall].
Qed.

(** X15 at two baking scripts after a main job [abc123]: the second
    baking job lists the identifier twice. *)
Lemma baking_dependencies_accumulate_witness :
  exists job_info' instance' baked,
    bake_loop (Sample.plugin []) 1001 1005
      (Sample.job_info,
       set_deadlineSubmissionJob Sample.response
         (Sample.instance "/renders/render.####.exr" "farm" false []
                          [Sample.bake; Sample.bake]),
       [])
      [Sample.bake; Sample.bake]
    = Ok (job_info', instance', [] ++ baked)
    /\ map (fun p => ji_JobDependencies (fst p)) baked
       = [[VStr "abc123"]; [VStr "abc123"; VStr "abc123"]]
    /\ (forall p, In p baked -> ji_BatchName (fst p) = VStr "sceneA").
Proof.
  apply (baking_dependencies_accumulate (Sample.plugin []) 1001 1005
           [Sample.bake; Sample.bake] Sample.job_info
           (set_deadlineSubmissionJob Sample.response
              (Sample.instance "/renders/render.####.exr" "farm" false []
                               [Sample.bake; Sample.bake]))
           [] Sample.response (VStr "abc123") (VStr "sceneA")).
  - intros i. reflexivity.
  - reflexivity.
  - exists [("_id", VStr "abc123");
            ("Props", VDict [("Batch", VStr "sceneA")])],
           [("Batch", VStr "sceneA")].
    repeat split; reflexivity.
Defined.

(** ** How many jobs a publish submits *)

Lemma bake_step_counts (self : Plugin) (start_frame end_frame : Z)
  (st st' : DeadlineJobInfo * Instance
            * list (DeadlineJobInfo * NukePluginInfo))
  (baking_script : BakingScript) :
  bake_step self start_frame end_frame st baking_script = Ok st' ->
  inputs (snd (fst st')) = inputs (snd (fst st))
  /\ expectedFiles (snd (fst st')) = expectedFiles (snd (fst st))
  /\ outputDir (snd (fst st')) = outputDir (snd (fst st))
  /\ List.length (bakingSubmissionJobs (snd (fst st')))
     = S (List.length (bakingSubmissionJobs (snd (fst st))))
  /\ List.length (snd st') = S (List.length (snd st)).
Proof.
  destruct st as [[job_info instance] submissions]. unfold bake_step.
  destruct (method_get _ "_id") as [job_id|]; [|discriminate]. cbn [bind].
  match goal with
  | |- context [bind ?linked _] =>
      destruct linked as [linked'|]; [|discriminate]
  end.
  cbn [bind].
  destruct (get_plugin_info _ _ _ _ _) as [plugin_info|]; [|discriminate].
  cbn [bind]. intros [= <-]. cbn.
  rewrite !length_app. cbn. repeat split; lia.
Qed.

Lemma bake_loop_counts (self : Plugin) (start_frame end_frame : Z)
  (scripts : list BakingScript)
  (st st' : DeadlineJobInfo * Instance
            * list (DeadlineJobInfo * NukePluginInfo)) :
  bake_loop self start_frame end_frame st scripts = Ok st' ->
  inputs (snd (fst st')) = inputs (snd (fst st))
  /\ expectedFiles (snd (fst st')) = expectedFiles (snd (fst st))
  /\ outputDir (snd (fst st')) = outputDir (snd (fst st))
  /\ List.length (bakingSubmissionJobs (snd (fst st')))
     = (List.length (bakingSubmissionJobs (snd (fst st)))
        + List.length scripts)%nat
  /\ List.length (snd st')
     = (List.length (snd st) + List.length scripts)%nat.
Proof.
  revert st. induction scripts as [|b scripts IH]; intros st.
  - cbn. intros [= <-]. repeat split; lia.
  - cbn [bake_loop].
    destruct (bake_step self start_frame end_frame st b) as [st1|] eqn:E;
      [|discriminate].
    cbn [bind]. intros H.
    destruct (bake_step_counts _ _ _ _ _ _ E) as (H1 & H2 & H3 & H4 & H5).
    destruct (IH _ H) as (G1 & G2 & G3 & G4 & G5).
    cbn [List.length]. repeat split; try congruence; lia.
Qed.

Lemma expected_files_names (instance instance' : Instance)
  (filepath : string) (start_frame end_frame : Z) :
  _expected_files instance filepath start_frame end_frame = Ok instance' ->
  exists names,
    instance'
    = set_expectedFiles (expectedFiles instance ++ names) instance.
Proof.
  rewrite _expected_files_resolved.
  destruct (resolved_names _ _ _ _) as [names|e]; [|discriminate].
  simpl. intros [= <-]. now exists names.
Qed.

Lemma payload_submit_counts (w : World) (self : Plugin)
  (instance : Instance) (script_path : value)
  (render_path exe_node_name : string) (start_frame end_frame : Z)
  (response_data : value) (baking_submission : bool) (out : Submitted) :
  payload_submit w self instance script_path render_path exe_node_name
    start_frame end_frame response_data baking_submission = Ok out ->
  inputs (ps_instance out) = inputs instance
  /\ List.length (bakingSubmissionJobs (ps_instance out))
     = (List.length (bakingSubmissionJobs instance)
        + List.length (bakingNukeScripts (inputs instance)))%nat
  /\ List.length (ps_submissions out)
     = submissions_per_call (inputs instance)
  /\ (String.eqb (render_target (inputs instance)) "frames_farm" = true ->
      expectedFiles (ps_instance out) = expectedFiles instance
      /\ outputDir (ps_instance out) = outputDir instance).
Proof.
  unfold payload_submit.
  destruct (ensure_render_folder _ _); [|discriminate]. cbn [bind].
  destruct (build_payload _ _ _ _ _ _ _ _ _ _) as [payload|];
    [|discriminate].
  cbn [bind].
  destruct (_expected_files _ _ _ _) as [instance1|] eqn:Hfiles;
    [|discriminate].
  cbn [bind].
  destruct (expected_files_names _ _ _ _ _ Hfiles) as (names & ->).
  pose proof (fun H => eq_trans (eq_sym Hfiles)
                         (_expected_files_frames_farm instance
                            (path (inputs instance))
                            (frameStartHandle (inputs instance))
                            (frameEndHandle (inputs instance)) H))
    as Hff.
  destruct (get_plugin_info _ _ _ _ _) as [plugin_info|]; [|discriminate].
  cbn [bind].
  destruct (bake_loop _ _ _ _ _) as [[[j i] l]|] eqn:Hloop; [|discriminate].
  cbn [bind]. intros [= <-]. cbn [ps_instance ps_submissions].
  apply bake_loop_counts in Hloop. cbn [fst snd] in Hloop.
  destruct Hloop as (H1 & H2 & H3 & H4 & H5).
  unfold submissions_per_call.
  cbn [inputs set_expectedFiles] in *.
  destruct (String.eqb (render_target (inputs instance)) "frames_farm")
    eqn:Et;
    cbn [negb fst snd inputs outputDir bakingSubmissionJobs expectedFiles
         set_expectedFiles set_outputDir List.length Nat.add] in *.
  - split; [exact H1|]. split; [exact H4|]. split; [exact H5|].
    intros _. specialize (Hff eq_refl). injection Hff as Hff.
    apply (f_equal expectedFiles) in Hff.
    cbn [expectedFiles set_expectedFiles] in Hff.
    split; congruence.
  - split; [exact H1|]. split; [exact H4|]. split; [exact H5|].
    discriminate.
Qed.

(** X16: every call of [payload_submit] that returns has submitted, by
    its own loop, one job for each baking script of the instance (and
    the main job, unless the target is [frames_farm]) and has added one
    identifier for each baking script to the instance, whether it was
    called for the main job or for a baking one. *)
Theorem every_call_submits_all_baking_scripts
  (w : World) (self : Plugin) (instance : Instance) (script_path : value)
  (render_path exe_node_name : string) (start_frame end_frame : Z)
  (response_data : value) (baking_submission : bool) (out : Submitted) :
  payload_submit w self instance script_path render_path exe_node_name
    start_frame end_frame response_data baking_submission = Ok out ->
  List.length (ps_submissions out) = submissions_per_call (inputs instance)
  /\ List.length (bakingSubmissionJobs (ps_instance out))
     = (List.length (bakingSubmissionJobs instance)
        + List.length (bakingNukeScripts (inputs instance)))%nat.
Proof.
  intros H. destruct (payload_submit_counts _ _ _ _ _ _ _ _ _ _ _ H)
    as (_ & Hb & Hs & _).
  now split.
Qed.

(** X16 at the sample data: the call for the main job, with one baking
    script, submits two jobs. *)
Lemma every_call_submits_all_baking_scripts_witness :
  exists out,
    payload_submit (Sample.world (fun _ => None) []) (Sample.plugin [])
      (Sample.instance "/renders/render.####.exr" "farm" false []
                       [Sample.bake])
      (VStr "/proj/sceneA.nk") "/renders/render.####.exr" "Write1"
      1001 1005 VNone false = Ok out
    /\ List.length (ps_submissions out) = 2%nat
    /\ List.length (bakingSubmissionJobs (ps_instance out)) = 1%nat.
Proof.
  eexists. split; [vm_compute; reflexivity|].
  apply (every_call_submits_all_baking_scripts
           (Sample.world (fun _ => None) []) (Sample.plugin [])
           (Sample.instance "/renders/render.####.exr" "farm" false []
                            [Sample.bake])
           (VStr "/proj/sceneA.nk") "/renders/render.####.exr" "Write1"
           1001 1005 VNone false).
  vm_compute. reflexivity.
Defined.

(** ** Where a publish ends *)

Lemma process_bakes_cons (w : World) (self : Plugin) (r : value)
  (instance : Instance) (b : BakingScript) (rest : list BakingScript) :
  process_bakes w self r instance (b :: rest)
  = match payload_submit w self instance (bakeScriptPath b)
            (bakeRenderPath b) (bakeWriteNodeName b)
            (frameStartHandle (inputs instance))
            (frameEndHandle (inputs instance)) r true with
    | Ok _ => Raise AttributeError
    | Raise e => Raise e
    end.
Proof.
  cbn [process_bakes]. unfold process_bake.
  now destruct (payload_submit _ _ _ _ _ _ _ _ _ _).
Qed.

Lemma process_first_call (w : World) (self : Plugin)
  (publish_template_format : list (string * value) -> string)
  (context : list PublishedWorkfile.ContextInstance)
  (instance : Instance) (script_path : value) :
  farm (inputs instance) = true ->
  String.eqb (deadline_url (inputs instance)) EmptyString = false ->
  submitted_script_path self publish_template_format context instance
  = Ok script_path ->
  process w self publish_template_format context instance
  = match first_call w self instance script_path with
    | None => Ok (redefine_families instance)
    | Some (Ok _) => Raise AttributeError
    | Some (Raise e) => Raise e
    end.
Proof.
  intros Hfarm Hurl Hpath. unfold process, first_call.
  rewrite Hfarm, Hurl, Hpath. cbn [negb bind].
  destruct (String.eqb (render_target (inputs instance)) "frames_farm");
    cbn [negb bind fst snd].
  - destruct (bakingNukeScripts (inputs instance)) as [|b rest];
      [reflexivity|].
    rewrite process_bakes_cons.
    now destruct (payload_submit _ _ _ _ _ _ _ _ _ _).
  - now destruct (payload_submit _ _ _ _ _ _ _ _ _ _).
Qed.

Lemma process_returns (w : World) (self : Plugin)
  (publish_template_format : list (string * value) -> string)
  (context : list PublishedWorkfile.ContextInstance)
  (instance final : Instance) :
  process w self publish_template_format context instance = Ok final ->
  (farm (inputs instance) = false /\ final = instance)
  \/ (farm (inputs instance) = true
      /\ render_target (inputs instance) = "frames_farm"
      /\ bakingNukeScripts (inputs instance) = []
      /\ final = redefine_families instance).
Proof.
  destruct (farm (inputs instance)) eqn:Hfarm.
  - destruct (String.eqb (deadline_url (inputs instance)) EmptyString)
      eqn:Hurl;
      [unfold process; rewrite Hfarm, Hurl; discriminate|].
    destruct (submitted_script_path self publish_template_format context
                instance) as [script_path|] eqn:Hpath;
      [|unfold process; rewrite Hfarm, Hurl, Hpath; discriminate].
    rewrite (process_first_call w self publish_template_format context
               instance script_path Hfarm Hurl Hpath).
    intros H. right. split; [reflexivity|]. revert H.
    unfold first_call.
    destruct (String.eqb (render_target (inputs instance)) "frames_farm")
      eqn:Et.
    + apply String.eqb_eq in Et.
      destruct (bakingNukeScripts (inputs instance)) as [|b rest].
      * intros [= <-]. now repeat split.
      * now destruct (payload_submit _ _ _ _ _ _ _ _ _ _).
    + now destruct (payload_submit _ _ _ _ _ _ _ _ _ _).
  - unfold process. rewrite Hfarm. cbn [negb]. intros [= <-]. now left.
Qed.

(** X17: a publish for the farm whose script path resolves ends with its
    first call of [payload_submit].  The method has no [return]
    statement, so [process] gets [None] and raises an [AttributeError] at
    the [.json()] that follows the call; when the call raises, [process]
    raises the same; and only a publish that makes no call (the target
    [frames_farm] and no baking script) returns, with the families of the
    instance redefined. *)
Theorem publish_ends_with_its_first_call
  (w : World) (self : Plugin)
  (publish_template_format : list (string * value) -> string)
  (context : list PublishedWorkfile.ContextInstance)
  (instance : Instance) (script_path : value) :
  farm (inputs instance) = true ->
  String.eqb (deadline_url (inputs instance)) EmptyString = false ->
  submitted_script_path self publish_template_format context instance
  = Ok script_path ->
  process w self publish_template_format context instance
  = match first_call w self instance script_path with
    | None => Ok (redefine_families instance)
    | Some (Ok _) => Raise AttributeError
    | Some (Raise e) => Raise e
    end.
Proof.
  intros Hfarm Hurl Hpath. unfold process, first_call.
  rewrite Hfarm, Hurl, Hpath. cbn [negb bind].
  destruct (String.eqb (render_target (inputs instance)) "frames_farm");
    cbn [negb bind fst snd].
  - destruct (bakingNukeScripts (inputs instance)) as [|b rest];
      [reflexivity|].
    cbn [process_bakes]. unfold process_bake.
    destruct (payload_submit _ _ _ _ _ _ _ _ _ _) as [out|e];
      reflexivity.
  - destruct (payload_submit _ _ _ _ _ _ _ _ _ _) as [out|e];
      reflexivity.
Qed.

(** X17 at the sample data with two baking scripts: the main call
    returns, and the publish raises. *)
Lemma publish_ends_with_its_first_call_witness :
  (exists out,
      first_call (Sample.world (fun _ => None) []) (Sample.plugin [])
        (Sample.instance "/renders/render.####.exr" "farm" false []
                         [Sample.bake; Sample.bake])
        (VStr "/proj/sceneA.nk")
      = Some (Ok out))
  /\ process (Sample.world (fun _ => None) []) (Sample.plugin [])
       (fun _ => "/publish/sceneA.nk") []
       (Sample.instance "/renders/render.####.exr" "farm" false []
                        [Sample.bake; Sample.bake])
     = Raise AttributeError.
Proof.
  split; [eexists; vm_compute; reflexivity|].
  refine (eq_trans
            (publish_ends_with_its_first_call
               (Sample.world (fun _ => None) []) (Sample.plugin [])
               (fun _ => "/publish/sceneA.nk") []
               (Sample.instance "/renders/render.####.exr" "farm" false []
                                [Sample.bake; Sample.bake])
               (VStr "/proj/sceneA.nk") _ _ _) _);
    vm_compute; reflexivity.
Defined.

(** X18: with the render target [frames_farm] no call of [payload_submit]
    that returns has touched the expected files of the instance, and a
    publish that returns has left them as they were.  Such a publish
    returns when the instance has no baking script; with a baking script
    whose call returns it raises an [AttributeError], the expected files
    being those it was given. *)
Theorem frames_farm_keeps_expected_files
  (w : World) (self : Plugin) (instance : Instance) :
  render_target (inputs instance) = "frames_farm" ->
  (forall script_path render_path exe_node_name start_frame end_frame
          response_data baking_submission out,
      payload_submit w self instance script_path render_path
        exe_node_name start_frame end_frame response_data
        baking_submission = Ok out ->
      expectedFiles (ps_instance out) = expectedFiles instance)
  /\ (forall publish_template_format context final,
        process w self publish_template_format context instance
        = Ok final ->
        expectedFiles final = expectedFiles instance)
  /\ (forall publish_template_format context script_path,
        farm (inputs instance) = true ->
        String.eqb (deadline_url (inputs instance)) EmptyString = false ->
        submitted_script_path self publish_template_format context
          instance = Ok script_path ->
        (bakingNukeScripts (inputs instance) = [] ->
         process w self publish_template_format context instance
         = Ok (redefine_families instance))
        /\ (forall out,
               first_call w self instance script_path = Some (Ok out) ->
               process w self publish_template_format context instance
               = Raise AttributeError)).
Proof.
  intros Ht.
  assert (Hff : String.eqb (render_target (inputs instance)) "frames_farm"
                = true) by (rewrite Ht; reflexivity).
  split; [|split].
  - intros script_path render_path exe_node_name start_frame end_frame
           response_data baking_submission out H.
    destruct (payload_submit_counts _ _ _ _ _ _ _ _ _ _ _ H)
      as (_ & _ & _ & Hkeep).
    exact (proj1 (Hkeep Hff)).
  - intros publish_template_format context final H.
    destruct (process_returns _ _ _ _ _ _ H)
      as [[_ ->] | (_ & _ & _ & ->)]; [reflexivity|].
    apply redefine_families_expectedFiles.
  - intros publish_template_format context script_path Hfarm Hurl Hpath.
    rewrite (process_first_call w self publish_template_format context
               instance script_path Hfarm Hurl Hpath).
    split.
    + intros Hb. unfold first_call. now rewrite Hff, Hb.
    + intros out ->. reflexivity.
Qed.

(** X18 at the sample data with the target [frames_farm]: without a
    baking script the publish returns; with one it raises, and the call
    that returned has added no expected file. *)
Lemma frames_farm_keeps_expected_files_witness :
  process (Sample.world (fun _ => None) []) (Sample.plugin [])
    (fun _ => "/publish/sceneA.nk") []
    (Sample.instance "/renders/render.####.exr" "frames_farm" false [] [])
  = Ok (redefine_families
          (Sample.instance "/renders/render.####.exr" "frames_farm" false
                           [] []))
  /\ process (Sample.world (fun _ => None) []) (Sample.plugin [])
       (fun _ => "/publish/sceneA.nk") []
       (Sample.instance "/renders/render.####.exr" "frames_farm" false []
                        [Sample.bake])
     = Raise AttributeError
  /\ exists out,
       payload_submit (Sample.world (fun _ => None) []) (Sample.plugin [])
         (Sample.instance "/renders/render.####.exr" "frames_farm" false
                          [] [Sample.bake])
         (VStr "/renders/bake.nk") "/renders/bake.mov" "BakeWrite"
         1001 1005 VNone true
       = Ok out
       /\ expectedFiles (ps_instance out) = [].
Proof.
  split; [|split].
  - apply (proj2 (proj2 (frames_farm_keeps_expected_files
                           (Sample.world (fun _ => None) [])
                           (Sample.plugin [])
                           (Sample.instance "/renders/render.####.exr"
                              "frames_farm" false [] [])
                           eq_refl))
             (fun _ => "/publish/sceneA.nk") [] (VStr "/proj/sceneA.nk"));
      reflexivity.
  - eapply (proj2 (proj2 (frames_farm_keeps_expected_files
                            (Sample.world (fun _ => None) [])
                            (Sample.plugin [])
                            (Sample.instance "/renders/render.####.exr"
                               "frames_farm" false [] [Sample.bake])
                            eq_refl))
              (fun _ => "/publish/sceneA.nk") [] (VStr "/proj/sceneA.nk"));
      vm_compute; reflexivity.
  - eexists. split; [vm_compute; reflexivity|].
    apply (proj1 (frames_farm_keeps_expected_files
                    (Sample.world (fun _ => None) []) (Sample.plugin [])
                    (Sample.instance "/renders/render.####.exr"
                       "frames_farm" false [] [Sample.bake])
                    eq_refl)
             (VStr "/renders/bake.nk") "/renders/bake.mov" "BakeWrite"
             1001%Z 1005%Z VNone true).
    vm_compute. reflexivity.
Defined.

(** ** The published workfile *)

Section WorkfileFacts.
Import PublishedWorkfile.
Local Open Scope string_scope.

Lemma split_last_no_sep (t : string) :
  PyStr.has_char "/" t = false ->
  PosixPath.split_last t = (EmptyString, t).
Proof.
  induction t as [|c t IH]; [reflexivity|].
  cbn [PyStr.has_char]. intros H. apply orb_false_iff in H.
  destruct H as [Hc Ht]. cbn [PosixPath.split_last].
  now rewrite (IH Ht), Hc.
Qed.

Lemma split_last_app (s t : string) :
  PyStr.has_char "/" t = false ->
  PosixPath.split_last (s ++ t)
  = (fst (PosixPath.split_last s), snd (PosixPath.split_last s) ++ t).
Proof.
  intros Ht. induction s as [|c s IH].
  - simpl. now apply split_last_no_sep.
  - cbn [append PosixPath.split_last]. rewrite IH.
    destruct (PosixPath.split_last s) as [h tl]. cbn [fst snd].
    destruct (Ascii.eqb c "/"); [reflexivity|].
    now destruct h.
Qed.

Lemma split_last_join (s : string) :
  fst (PosixPath.split_last s) ++ snd (PosixPath.split_last s) = s.
Proof.
  induction s as [|c s IH]; [reflexivity|].
  cbn [PosixPath.split_last].
  destruct (PosixPath.split_last s) as [h tl]. cbn [fst snd] in *.
  destruct (Ascii.eqb c "/"); [simpl; congruence|].
  destruct h; simpl in *; congruence.
Qed.

Lemma split_last_dot_none (e : string) :
  PyStr.has_char "." e = false -> split_last_dot e = None.
Proof.
  induction e as [|c e IH]; [reflexivity|].
  cbn [PyStr.has_char]. intros H. apply orb_false_iff in H.
  destruct H as [Hc He]. cbn [split_last_dot].
  now rewrite (IH He), Hc.
Qed.

Lemma split_last_dot_app (t e : string) :
  PyStr.has_char "." e = false ->
  split_last_dot (t ++ String "." e) = Some (t, e).
Proof.
  intros He. induction t as [|c t IH].
  - cbn [append split_last_dot]. now rewrite (split_last_dot_none e He).
  - cbn [append split_last_dot]. now rewrite IH.
Qed.

Lemma lstrip_dot_none (e : string) :
  PyStr.has_char "." e = false -> lstrip_dot e = e.
Proof.
  destruct e as [|c e]; [reflexivity|].
  cbn [PyStr.has_char lstrip_dot]. intros H.
  apply orb_false_iff in H. destruct H as [Hc _]. now rewrite Hc.
Qed.

(** The extension that the template is given for a file name that ends
    in a dot and a text without dot and slash. *)
Lemma ext_of_file (stem e : string) :
  all_dots (PosixPath.basename stem) = false ->
  PyStr.has_char "." e = false ->
  PyStr.has_char "/" e = false ->
  lstrip_dot (snd (splitext (stem ++ String "." e))) = e.
Proof.
  intros Hstem Hdot Hsep. unfold splitext.
  rewrite split_last_app by (cbn [PyStr.has_char]; now rewrite Hsep).
  rewrite (split_last_dot_app _ e Hdot).
  unfold PosixPath.basename in Hstem. rewrite Hstem.
  cbn [snd lstrip_dot Ascii.eqb Bool.eqb]. now apply lstrip_dot_none.
Qed.

Lemma skipped_prefix (format_template : list (string * value) -> string)
  (pre rest : list ContextInstance) :
  forallb skipped pre = true ->
  _get_published_workfile_path format_template (pre ++ rest)
  = _get_published_workfile_path format_template rest.
Proof.
  induction pre as [|i pre IH]; [reflexivity|].
  cbn [forallb]. intros H. apply andb_true_iff in H.
  destruct H as [Hi Hpre]. simpl. rewrite Hi. now apply IH.
Qed.

End WorkfileFacts.

(** X19: the published workfile is decided by the first instance of the
    context that is a workfile and whose [publish] is not [False]: the
    instances before it are passed over, those after it are not looked
    at, even when the first one fails; a context without such an
    instance gives [None]. *)
Theorem first_published_workfile_decides
  (format_template : list (string * value) -> string)
  (pre rest : list PublishedWorkfile.ContextInstance)
  (instance : PublishedWorkfile.ContextInstance) :
  forallb PublishedWorkfile.skipped pre = true ->
  PublishedWorkfile._get_published_workfile_path format_template pre
  = PublishedWorkfile.NotFound
  /\ (PublishedWorkfile.skipped instance = false ->
      PublishedWorkfile._get_published_workfile_path format_template
        (pre ++ instance :: rest)
      = PublishedWorkfile.fill_template format_template instance).
Proof.
  intros Hpre. split.
  - rewrite <- (app_nil_r pre). now rewrite skipped_prefix.
  - intros Hi. rewrite (skipped_prefix _ _ _ Hpre).
    simpl. now rewrite Hi.
Qed.

(** X19 at a context of a render, a workfile that is not published, a
    workfile without representation and another workfile: the call ends
    in the [IndexError] of the third. *)
Lemma first_published_workfile_decides_witness :
  PublishedWorkfile._get_published_workfile_path (fun _ => "/publish/a.nk")
    [ {| PublishedWorkfile.ci_productType := "render";
         PublishedWorkfile.ci_publish := VBool true;
         PublishedWorkfile.ci_anatomyData := [];
         PublishedWorkfile.ci_representations := [] |};
      {| PublishedWorkfile.ci_productType := "workfile";
         PublishedWorkfile.ci_publish := VBool false;
         PublishedWorkfile.ci_anatomyData := [];
         PublishedWorkfile.ci_representations := [] |};
      {| PublishedWorkfile.ci_productType := "workfile";
         PublishedWorkfile.ci_publish := VNone;
         PublishedWorkfile.ci_anatomyData := [];
         PublishedWorkfile.ci_representations := [] |};
      {| PublishedWorkfile.ci_productType := "workfile";
         PublishedWorkfile.ci_publish := VBool true;
         PublishedWorkfile.ci_anatomyData := [];
         PublishedWorkfile.ci_representations :=
           [[("name", VStr "nk"); ("files", VStr "a.nk")]] |} ]
  = PublishedWorkfile.IndexError.
Proof.
  exact (eq_trans
           (proj2 (first_published_workfile_decides
                     (fun _ => "/publish/a.nk")
                     [ {| PublishedWorkfile.ci_productType := "render";
                          PublishedWorkfile.ci_publish := VBool true;
                          PublishedWorkfile.ci_anatomyData := [];
                          PublishedWorkfile.ci_representations := [] |};
                       {| PublishedWorkfile.ci_productType := "workfile";
                          PublishedWorkfile.ci_publish := VBool false;
                          PublishedWorkfile.ci_anatomyData := [];
                          PublishedWorkfile.ci_representations := [] |} ]
                     [ {| PublishedWorkfile.ci_productType := "workfile";
                          PublishedWorkfile.ci_publish := VBool true;
                          PublishedWorkfile.ci_anatomyData := [];
                          PublishedWorkfile.ci_representations :=
                            [[("name", VStr "nk");
                              ("files", VStr "a.nk")]] |} ]
                     {| PublishedWorkfile.ci_productType := "workfile";
                        PublishedWorkfile.ci_publish := VNone;
                        PublishedWorkfile.ci_anatomyData := [];
                        PublishedWorkfile.ci_representations := [] |}
                     eq_refl)
                  eq_refl)
           eq_refl).
Defined.

(** X20: for the workfile that decides, with a first representation
    whose file is [stem.ext] (no dot and no slash in [ext], not only dots
    before it in the last component), the template is filled with the
    anatomy data of the instance in which [representation] is the name of
    the representation, [ext] is [ext] without its dot and [comment] is
    [None], every other key as it was; the result is the normalized
    filled template. *)
Theorem published_workfile_template_data
  (format_template : list (string * value) -> string)
  (instance : PublishedWorkfile.ContextInstance)
  (representation : list (string * value))
  (others : list (list (string * value)))
  (stem ext : string) (name : value) :
  PublishedWorkfile.ci_representations instance = representation :: others ->
  PyDict.get "files" representation
  = Some (VStr (stem ++ String "." ext)) ->
  PyDict.get "name" representation = Some name ->
  PublishedWorkfile.all_dots (PosixPath.basename stem) = false ->
  PyStr.has_char "." ext = false ->
  PyStr.has_char "/" ext = false ->
  exists template_data,
    PublishedWorkfile.fill_template format_template instance
    = PublishedWorkfile.Found
        (PosixPath.normpath (format_template template_data)) template_data
    /\ PyDict.get "representation" template_data = Some name
    /\ PyDict.get "ext" template_data = Some (VStr ext)
    /\ PyDict.get "comment" template_data = Some VNone
    /\ (forall k,
           k <> "representation" -> k <> "ext" -> k <> "comment" ->
           PyDict.get k template_data
           = PyDict.get k (PublishedWorkfile.ci_anatomyData instance)).
Proof.
  intros Hreps Hfiles Hname Hstem Hdot Hsep.
  unfold PublishedWorkfile.fill_template, subscript.
  rewrite Hreps, Hfiles, Hname, (ext_of_file stem ext Hstem Hdot Hsep).
  eexists. split; [reflexivity|]. split; [|split; [|split]].
  - rewrite !get_set_other by discriminate. apply get_set_same.
  - rewrite get_set_other by discriminate. apply get_set_same.
  - apply get_set_same.
  - intros k H1 H2 H3. now rewrite !get_set_other by assumption.
Qed.

(** X20 at a workfile [sceneA_v003.nk] whose anatomy data hold a
    comment. *)
Lemma published_workfile_template_data_witness :
  exists template_data,
    PublishedWorkfile.fill_template
      (fun _ => "/publish//sceneA/../sceneA/sceneA_v003.nk")
      {| PublishedWorkfile.ci_productType := "workfile";
         PublishedWorkfile.ci_publish := VBool true;
         PublishedWorkfile.ci_anatomyData :=
           [("comment", VStr "wip"); ("version", VInt 3)];
         PublishedWorkfile.ci_representations :=
           [[("name", VStr "nk");
             ("files", VStr "sceneA_v003.nk")]] |}
    = PublishedWorkfile.Found "/publish/sceneA/sceneA_v003.nk"
        template_data
    /\ PyDict.get "representation" template_data = Some (VStr "nk")
    /\ PyDict.get "ext" template_data = Some (VStr "nk")
    /\ PyDict.get "comment" template_data = Some VNone
    /\ (forall k,
           k <> "representation" -> k <> "ext" -> k <> "comment" ->
           PyDict.get k template_data
           = PyDict.get k [("comment", VStr "wip"); ("version", VInt 3)]).
Proof.
  apply (published_workfile_template_data
           (fun _ => "/publish//sceneA/../sceneA/sceneA_v003.nk")
           {| PublishedWorkfile.ci_productType := "workfile";
              PublishedWorkfile.ci_publish := VBool true;
              PublishedWorkfile.ci_anatomyData :=
                [("comment", VStr "wip"); ("version", VInt 3)];
              PublishedWorkfile.ci_representations :=
                [[("name", VStr "nk");
                  ("files", VStr "sceneA_v003.nk")]] |}
           [("name", VStr "nk"); ("files", VStr "sceneA_v003.nk")] []
           "sceneA_v003" "nk" (VStr "nk"));
    reflexivity.
Defined.

(** X21: the workfile that decides makes the call fail when it has no
    representation ([IndexError]), when its first representation has no
    [files] or no [name] ([KeyError]), and when [files] is a list of
    names and not one name ([TypeError]). *)
Theorem published_workfile_failures
  (format_template : list (string * value) -> string)
  (instance : PublishedWorkfile.ContextInstance) :
  (PublishedWorkfile.ci_representations instance = [] ->
   PublishedWorkfile.fill_template format_template instance
   = PublishedWorkfile.IndexError)
  /\ (forall representation others,
         PublishedWorkfile.ci_representations instance
         = representation :: others ->
         (PyDict.get "files" representation = None ->
          PublishedWorkfile.fill_template format_template instance
          = PublishedWorkfile.Failed KeyError)
         /\ (forall names,
                PyDict.get "files" representation = Some (VList names) ->
                PublishedWorkfile.fill_template format_template instance
                = PublishedWorkfile.Failed TypeError)
         /\ (forall file,
                PyDict.get "files" representation = Some (VStr file) ->
                PyDict.get "name" representation = None ->
                PublishedWorkfile.fill_template format_template instance
                = PublishedWorkfile.Failed KeyError)).
Proof.
  unfold PublishedWorkfile.fill_template, subscript. split.
  - now intros ->.
  - intros representation others ->. split; [|split].
    + now intros ->.
    + now intros names ->.
    + now intros file -> ->.
Qed.

(** X21 at a workfile whose representation lists its files. *)
Lemma published_workfile_failures_witness :
  PublishedWorkfile.fill_template (fun _ => "/publish/a.nk")
    {| PublishedWorkfile.ci_productType := "workfile";
       PublishedWorkfile.ci_publish := VBool true;
       PublishedWorkfile.ci_anatomyData := [];
       PublishedWorkfile.ci_representations :=
         [[("name", VStr "nk"); ("files", VList [VStr "a.nk"])]] |}
  = PublishedWorkfile.Failed TypeError.
Proof.
  apply (proj1 (proj2 (proj2 (published_workfile_failures
                                (fun _ => "/publish/a.nk")
                                {| PublishedWorkfile.ci_productType :=
                                     "workfile";
                                   PublishedWorkfile.ci_publish :=
                                     VBool true;
                                   PublishedWorkfile.ci_anatomyData := [];
                                   PublishedWorkfile.ci_representations :=
                                     [[("name", VStr "nk");
                                       ("files", VList [VStr "a.nk"])]]
                                |})
                               _ _ eq_refl))
               [VStr "a.nk"]).
  reflexivity.
Defined.

(** ** What a publish leaves on the instance *)

(** X22: the statements of [process] that store the response, the
    output directory, the state [Suspended] and the identifiers of the
    baking jobs on the instance follow a [.json()] on the [None] that
    [payload_submit] evaluates to, and never run: whenever a publish
    returns, it has skipped the instance (not for the farm) or it found
    nothing to submit (the target [frames_farm] and no baking script),
    and the four entries, the expected files and the inputs of the
    instance are as they were. *)
Theorem publish_never_stores_a_response
  (w : World) (self : Plugin)
  (publish_template_format : list (string * value) -> string)
  (context : list PublishedWorkfile.ContextInstance)
  (instance final : Instance) :
  process w self publish_template_format context instance = Ok final ->
  ((farm (inputs instance) = false /\ final = instance)
   \/ (farm (inputs instance) = true
       /\ render_target (inputs instance) = "frames_farm"
       /\ bakingNukeScripts (inputs instance) = []
       /\ final = redefine_families instance))
  /\ deadlineSubmissionJob final = deadlineSubmissionJob instance
  /\ publishJobState final = publishJobState instance
  /\ outputDir final = outputDir instance
  /\ bakingSubmissionJobs final = bakingSubmissionJobs instance
  /\ expectedFiles final = expectedFiles instance
  /\ inputs final = inputs instance.
Proof.
  intros H. pose proof (process_returns _ _ _ _ _ _ H) as Hcases.
  split; [exact Hcases|].
  assert (Hfields :
            deadlineSubmissionJob (redefine_families instance)
            = deadlineSubmissionJob instance
            /\ publishJobState (redefine_families instance)
               = publishJobState instance
            /\ outputDir (redefine_families instance) = outputDir instance
            /\ bakingSubmissionJobs (redefine_families instance)
               = bakingSubmissionJobs instance
            /\ expectedFiles (redefine_families instance)
               = expectedFiles instance
            /\ inputs (redefine_families instance) = inputs instance).
  { unfold redefine_families.
    destruct (PyStr.contains "render" _); [now repeat split|].
    destruct (PyStr.contains "prerender" _); now repeat split. }
  destruct Hcases as [[_ ->] | (_ & _ & _ & ->)];
    [now repeat split | exact Hfields].
Qed.

(** X22 at the sample data with the target [frames_farm] and no baking
    script: the publish returns, and the instance is not [Suspended] and
    holds no response. *)
Lemma publish_never_stores_a_response_witness :
  exists final,
    process (Sample.world (fun _ => None) []) (Sample.plugin [])
      (fun _ => "/publish/sceneA.nk") []
      (Sample.instance "/renders/render.####.exr" "frames_farm" false []
                       [])
    = Ok final
    /\ deadlineSubmissionJob final = None
    /\ publishJobState final = None.
Proof.
  eexists. split; [vm_compute; reflexivity|].
  destruct (publish_never_stores_a_response
              (Sample.world (fun _ => None) []) (Sample.plugin [])
              (fun _ => "/publish/sceneA.nk") []
              (Sample.instance "/renders/render.####.exr" "frames_farm"
                               false [] [])
              _ eq_refl)
    as (_ & Hjob & Hstate & _).
  split; [exact Hjob | exact Hstate].
Defined.

(** ** The published workfile in a publish *)

(** X23: when the attribute [use_published_workfile] of the instance (the
    setting of the plugin when the attribute is absent) is truthy, a
    publish for the farm looks the published workfile up before it
    submits anything.  A failure of the lookup ends the publish with the
    exception of the lookup; a context without a workfile instance makes
    [None] the script path of the main call; a workfile found makes its
    published path the script path, in place of the current file. *)
Theorem published_workfile_lookup_comes_first
  (w : World) (self : Plugin)
  (publish_template_format : list (string * value) -> string)
  (context : list PublishedWorkfile.ContextInstance)
  (instance : Instance) :
  farm (inputs instance) = true ->
  String.eqb (deadline_url (inputs instance)) EmptyString = false ->
  truthy (dict_get_default "use_published_workfile"
            (use_published_workfile self)
            (attributeValues (inputs instance))) = true ->
  let script_submitted script_path :=
    process w self publish_template_format context instance
    = match first_call w self instance script_path with
      | None => Ok (redefine_families instance)
      | Some (Ok _) => Raise AttributeError
      | Some (Raise e) => Raise e
      end in
  match PublishedWorkfile._get_published_workfile_path
          publish_template_format context with
  | PublishedWorkfile.Failed e =>
      process w self publish_template_format context instance = Raise e
  | PublishedWorkfile.IndexError =>
      process w self publish_template_format context instance
      = Raise IndexError
  | PublishedWorkfile.NotFound => script_submitted VNone
  | PublishedWorkfile.Found script_path _ =>
      script_submitted (VStr script_path)
  end.
Proof.
  intros Hfarm Hurl Hpub script_submitted. subst script_submitted.
  assert (Hpath :
            submitted_script_path self publish_template_format context
              instance
            = published_script_path publish_template_format context)
    by (unfold submitted_script_path; now rewrite Hpub).
  unfold published_script_path in Hpath.
  destruct (PublishedWorkfile._get_published_workfile_path
              publish_template_format context)
    as [script_path template_data| |e|].
  - now apply process_first_call.
  - now apply process_first_call.
  - unfold process. now rewrite Hfarm, Hurl, Hpath.
  - unfold process. now rewrite Hfarm, Hurl, Hpath.
Qed.

(** X23 at a context whose workfile instance has no representation: the
    publish raises the [IndexError] of the lookup. *)
Lemma published_workfile_lookup_comes_first_witness :
  process (Sample.world (fun _ => None) []) Sample.publishing_plugin
    (fun _ => "/publish/sceneA.nk") [Sample.workfile []]
    (Sample.instance "/renders/render.####.exr" "farm" false [] [])
  = Raise IndexError.
Proof.
  exact (published_workfile_lookup_comes_first
           (Sample.world (fun _ => None) []) Sample.publishing_plugin
           (fun _ => "/publish/sceneA.nk") [Sample.workfile []]
           (Sample.instance "/renders/render.####.exr" "farm" false [] [])
           eq_refl eq_refl eq_refl).
Defined.
